(** * STL-to-video pipeline: orbit planner, job store, palette, orchestrator

    A shallow embedding of the parts of the pipeline that carry behaviour:
    [rendering/blender_renderer.py] (camera orbit keyframes),
    [database/db_manager.py] (the two SQLite tables),
    [rendering/color_manager.py] (contrast colour),
    [rendering/video_compositor.py] (audio attachment) and [main.py]
    (per-file lifecycle and batch loop), with [config.py]'s constants. *)

From Stdlib Require Import ZArith List Ascii String Bool Lia.
From Stdlib Require Import Sorted Permutation.
From Stdlib Require Import QArith Qround Qfield Lqa.
Import ListNotations.

Local Open Scope Z_scope.

(** ** config.py *)

Module Config.

Definition VIDEO_DURATION : Z := 5.
Definition FPS : Z := 10.
Definition TOTAL_FRAMES : Z := VIDEO_DURATION * FPS.
Definition VIDEO_WIDTH : Z := 640.
Definition VIDEO_HEIGHT : Z := 740.
Definition RENDER_SAMPLES : Z := 128.
Definition USE_GPU : bool := true.

End Config.

(** ** rendering/blender_renderer.py: [animate_camera_orbit]

    Angles are kept in whole degrees: where the source holds the binary64
    value [math.radians d], the model holds [d].  The rounding of the
    running sums is therefore outside the model. *)

Module Orbit.

(** An Euler rotation (x, y, z), in degrees. *)
Definition euler : Type := (Z * Z * Z)%type.

Inductive interpolation : Type := BEZIER | LINEAR.

(** One point of the rotation curve. *)
Record keyframe_point : Type := mkPoint {
  kp_frame : Z;
  kp_value : euler;
  kp_interpolation : interpolation
}.

(** The object 'OrbitEmpty'.  [keyframe_points] is the rotation curve of
    its action, one point per frame, in increasing frame order;
    [inserted] is a history of the [keyframe_insert] calls, oldest
    first, which Blender itself does not keep. *)
Record empty_object : Type := mkEmpty {
  rotation_euler : euler;
  keyframe_points : list keyframe_point;
  inserted : list (Z * euler)
}.

Record scene_state : Type := mkScene {
  frame_start : Z;
  frame_end : Z;
  render_fps : Z;
  orbit_empty : option empty_object   (* bpy.data.objects.get('OrbitEmpty') *)
}.

Inductive error : Type :=
| ValueError (msg : string).

(** Insertion into the curve: a point already at [frame] is replaced,
    otherwise the new point goes to its place in frame order.  New
    points get Blender's default interpolation. *)
Fixpoint insert_point (frame : Z) (v : euler) (pts : list keyframe_point)
  : list keyframe_point :=
  match pts with
  | [] => [mkPoint frame v BEZIER]
  | p :: rest =>
      if frame <? kp_frame p then mkPoint frame v BEZIER :: p :: rest
      else if frame =? kp_frame p then mkPoint frame v (kp_interpolation p) :: rest
      else p :: insert_point frame v rest
  end.

(** [empty.keyframe_insert(data_path="rotation_euler", frame=frame)] *)
Definition keyframe_insert (e : empty_object) (frame : Z) : empty_object :=
  mkEmpty (rotation_euler e)
          (insert_point frame (rotation_euler e) (keyframe_points e))
          (inserted e ++ [(frame, rotation_euler e)]).

(** [empty.rotation_euler = r] *)
Definition set_rotation (e : empty_object) (r : euler) : empty_object :=
  mkEmpty r (keyframe_points e) (inserted e).

(** The closing loop over the curve's points. *)
Definition set_linear (e : empty_object) : empty_object :=
  mkEmpty (rotation_euler e)
          (map (fun p => mkPoint (kp_frame p) (kp_value p) LINEAR) (keyframe_points e))
          (inserted e).

(** Blender's integer properties.  A Python int assigned to one must fit
    a C int, or the assignment raises ValueError and changes nothing.
    Frames are kept in [MINFRAME, MAXFRAME] and the frame rate in
    [1, FPS_MAX]: a value outside is clamped. *)
Definition INT_MIN : Z := -2147483648.
Definition INT_MAX : Z := 2147483647.
Definition MINFRAME : Z := 0.
Definition MAXFRAME : Z := 1048574.
Definition FPS_MAX : Z := 32767.

Definition c_int (v : Z) : bool := (INT_MIN <=? v) && (v <=? INT_MAX).

Definition clamp (lo hi v : Z) : Z := Z.max lo (Z.min hi v).

(** [scene.frame_start = v]: the end of the range follows a start set
    above it. *)
Definition set_frame_start (v : Z) (scene : scene_state)
  : option error * scene_state :=
  if c_int v then
    let v := clamp MINFRAME MAXFRAME v in
    (None, mkScene v (if frame_end scene <? v then v else frame_end scene)
                   (render_fps scene) (orbit_empty scene))
  else (Some (ValueError "Scene.frame_start value not in 'int' range"), scene).

(** [scene.frame_end = v]: the start of the range follows an end set
    below it. *)
Definition set_frame_end (v : Z) (scene : scene_state)
  : option error * scene_state :=
  if c_int v then
    let v := clamp MINFRAME MAXFRAME v in
    (None, mkScene (if v <? frame_start scene then v else frame_start scene) v
                   (render_fps scene) (orbit_empty scene))
  else (Some (ValueError "Scene.frame_end value not in 'int' range"), scene).

(** [scene.render.fps = v] *)
Definition set_fps (v : Z) (scene : scene_state) : option error * scene_state :=
  if c_int v then
    (None, mkScene (frame_start scene) (frame_end scene) (clamp 1 FPS_MAX v)
                   (orbit_empty scene))
  else (Some (ValueError "RenderSettings.fps value not in 'int' range"), scene).

(** The result is what was raised, if anything, and the scene as the
    call left it. *)
Definition animate_camera_orbit (total_frames fps : Z) (scene : scene_state)
  : option error * scene_state :=
  match set_frame_start 1 scene with
  | (Some e, scene) => (Some e, scene)
  | (None, scene) =>
  match set_frame_end total_frames scene with
  | (Some e, scene) => (Some e, scene)
  | (None, scene) =>
  match set_fps fps scene with
  | (Some e, scene) => (Some e, scene)
  | (None, scene) =>
  match orbit_empty scene with
  | None => (Some (ValueError "OrbitEmpty not found. Setup camera first."), scene)
  | Some empty =>
      let num_segments := 6 in
      let frames_per_segment := total_frames / num_segments in
      let rotation_amount := 60 in
      (* start position *)
      let frame_number := 1 in
      let x_rotation := 0 in
      let y_rotation := 0 in
      let z_rotation := 0 in
      let empty := set_rotation empty (x_rotation, y_rotation, z_rotation) in
      let empty := keyframe_insert empty frame_number in
      (* segment 1: Z *)
      let frame_number := frames_per_segment * 1 in
      let z_rotation := z_rotation + rotation_amount in
      let empty := set_rotation empty (x_rotation, y_rotation, z_rotation) in
      let empty := keyframe_insert empty frame_number in
      (* segment 2: X and Z *)
      let frame_number := frames_per_segment * 2 in
      let x_rotation := x_rotation + rotation_amount in
      let z_rotation := z_rotation + rotation_amount in
      let empty := set_rotation empty (x_rotation, y_rotation, z_rotation) in
      let empty := keyframe_insert empty frame_number in
      (* segment 3: X *)
      let frame_number := frames_per_segment * 3 in
      let x_rotation := x_rotation + rotation_amount in
      let empty := set_rotation empty (x_rotation, y_rotation, z_rotation) in
      let empty := keyframe_insert empty frame_number in
      (* segment 4: X and Y *)
      let frame_number := frames_per_segment * 4 in
      let x_rotation := x_rotation + rotation_amount in
      let y_rotation := y_rotation + rotation_amount in
      let empty := set_rotation empty (x_rotation, y_rotation, z_rotation) in
      let empty := keyframe_insert empty frame_number in
      (* segment 5: Y *)
      let frame_number := frames_per_segment * 5 in
      let y_rotation := y_rotation + rotation_amount in
      let empty := set_rotation empty (x_rotation, y_rotation, z_rotation) in
      let empty := keyframe_insert empty frame_number in
      (* segment 6: Y and Z *)
      let frame_number := frames_per_segment * 6 in
      let y_rotation := y_rotation + rotation_amount in
      let z_rotation := z_rotation + rotation_amount in
      let empty := set_rotation empty (x_rotation, y_rotation, z_rotation) in
      let empty := keyframe_insert empty frame_number in
      (* final position *)
      let frame_number := total_frames in
      let x_rotation := 360 in
      let y_rotation := 360 in
      let z_rotation := 360 in
      let empty := set_rotation empty (x_rotation, y_rotation, z_rotation) in
      let empty := keyframe_insert empty frame_number in
      let empty := set_linear empty in
      (None, mkScene (frame_start scene) (frame_end scene) (render_fps scene)
                     (Some empty))
  end
  end
  end
  end.

(** A scene as [setup_camera] leaves it: the empty exists and carries no
    animation yet. *)
Definition fresh_empty : empty_object := mkEmpty (0, 0, 0) [] [].

Definition camera_ready (scene : scene_state) : Prop :=
  orbit_empty scene = Some fresh_empty.

Definition ready_scene : scene_state := mkScene 1 250 24 (Some fresh_empty).

(** The insertions recorded in a scene, oldest first, and the curve of
    its empty; both empty when there is no empty. *)
Definition emitted (r : option error * scene_state) : list (Z * euler) :=
  match orbit_empty (snd r) with
  | Some e => inserted e
  | None => []
  end.

Definition curve (r : option error * scene_state) : list keyframe_point :=
  match orbit_empty (snd r) with
  | Some e => keyframe_points e
  | None => []
  end.

(** The eight insertions of a run over [total_frames] frames. *)
Definition planned (total_frames : Z) : list (Z * euler) :=
  [ (1, (0, 0, 0));
    (1 * (total_frames / 6), (0, 0, 60));
    (2 * (total_frames / 6), (60, 0, 120));
    (3 * (total_frames / 6), (120, 0, 120));
    (4 * (total_frames / 6), (180, 60, 120));
    (5 * (total_frames / 6), (180, 120, 120));
    (6 * (total_frames / 6), (180, 180, 180));
    (total_frames, (360, 360, 360)) ].

(** The number of points the curve ends with. *)
Definition expected_points (total_frames : Z) : nat :=
  if total_frames =? 6 then 6%nat
  else if (total_frames <? 12) || (total_frames mod 6 =? 0) then 7%nat
  else 8%nat.

End Orbit.


(** ** pathlib and the file system

    A path is its string form.  Files are the only entries; directories
    exist implicitly. *)

Module Fs.

Definition Path : Type := string.

Definition slash : Ascii.ascii := "/"%char.
Definition dot : Ascii.ascii := "."%char.

(** [p.name]: what follows the last separator. *)
Fixpoint name_from (s acc : string) : string :=
  match s with
  | EmptyString => acc
  | String c rest =>
      if Ascii.eqb c slash then name_from rest EmptyString
      else name_from rest (acc ++ String c EmptyString)
  end.

Definition name (p : Path) : string := name_from p EmptyString.

(** [p.parent], as a string; the empty string when there is no separator. *)
Fixpoint parent_from (s seen : string) (last : string) : string :=
  match s with
  | EmptyString => last
  | String c rest =>
      if Ascii.eqb c slash then parent_from rest (seen ++ String c EmptyString) seen
      else parent_from rest (seen ++ String c EmptyString) last
  end.

Definition parent (p : Path) : string := parent_from p EmptyString EmptyString.

(** Position of the last dot of [s], counted from [i]. *)
Fixpoint rfind_dot (s : string) (i : nat) (found : option nat) : option nat :=
  match s with
  | EmptyString => found
  | String c rest =>
      rfind_dot rest (S i) (if Ascii.eqb c dot then Some i else found)
  end.

(** [p.stem]: the name without its last suffix; a leading or a trailing
    dot does not start a suffix. *)
Definition stem (p : Path) : string :=
  let n := name p in
  match rfind_dot n 0 None with
  | Some i =>
      if (Nat.ltb 0 i && Nat.ltb i (String.length n - 1))%bool
      then substring 0 i n else n
  | None => n
  end.

(** [d / child] *)
Definition join (d : Path) (child : string) : Path :=
  (d ++ String slash child)%string.

(** File contents are byte strings. *)
Definition content : Type := string.

(** Files in creation order, at most one entry per path. *)
Definition t : Type := list (Path * content).

Fixpoint read (fs : t) (p : Path) : option content :=
  match fs with
  | [] => None
  | (q, c) :: rest => if String.eqb q p then Some c else read rest p
  end.

Definition exists_ (fs : t) (p : Path) : bool :=
  match read fs p with Some _ => true | None => false end.

Fixpoint remove (fs : t) (p : Path) : t :=
  match fs with
  | [] => []
  | (q, c) :: rest => if String.eqb q p then remove rest p else (q, c) :: remove rest p
  end.

Fixpoint write (fs : t) (p : Path) (c : content) : t :=
  match fs with
  | [] => [(p, c)]
  | (q, c0) :: rest =>
      if String.eqb q p then (p, c) :: rest else (q, c0) :: write rest p c
  end.

(** [p.stat().st_size]; [None] where [stat] raises. *)
Definition stat_size (fs : t) (p : Path) : option Z :=
  match read fs p with
  | Some c => Some (Z.of_nat (String.length c))
  | None => None
  end.

(** [d.glob('*' + ext)]: the files directly in [d] whose name ends in
    [ext]. *)
Definition has_suffix (ext s : string) : bool :=
  let n := String.length s in
  let k := String.length ext in
  (Nat.leb k n && String.eqb (substring (n - k) k s) ext)%bool.

Definition glob_ext (fs : t) (d : Path) (ext : string) : list Path :=
  map fst (filter (fun e => (String.eqb (parent (fst e)) d
                             && has_suffix ext (name (fst e)))%bool) fs).

End Fs.

(** ** Exceptions *)

Module Exn.

(** A raised exception: its class and [str(e)]. *)
Record exn : Type := mk { kind : string; message : string }.

Definition str (e : exn) : string := message e.

End Exn.

(** ** colorsys (Python standard library) and rendering/color_manager.py

    Channels are exact rationals; binary64 rounding is outside the
    model. *)

Module Palette.

Local Open Scope Q_scope.

Definition rgb : Type := (Q * Q * Q)%type.
Definition hsv : Type := (Q * Q * Q)%type.

Definition Qlt_bool (a b : Q) : bool := negb (Qle_bool b a).

(** [max(a, b)] and [min(a, b)]: the first argument wins ties. *)
Definition max2 (a b : Q) : Q := if Qlt_bool a b then b else a.
Definition min2 (a b : Q) : Q := if Qlt_bool b a then b else a.
Definition max3 (a b c : Q) : Q := max2 (max2 a b) c.
Definition min3 (a b c : Q) : Q := min2 (min2 a b) c.

(** [int(x)]: truncation towards zero. *)
Definition py_int (x : Q) : Z := Z.quot (Qnum x) (Zpos (Qden x)).

(** [x % y] on floats, for a positive [y]: the result lies in [0, y). *)
Definition py_mod (x y : Q) : Q := x - y * inject_Z (Qfloor (x / y)).

(** [colorsys.rgb_to_hsv] *)
Definition rgb_to_hsv (c : rgb) : hsv :=
  let '(r, g, b) := c in
  let maxc := max3 r g b in
  let minc := min3 r g b in
  let rangec := maxc - minc in
  let v := maxc in
  if Qeq_bool minc maxc then (0, 0, v)
  else
    let s := rangec / maxc in
    let rc := (maxc - r) / rangec in
    let gc := (maxc - g) / rangec in
    let bc := (maxc - b) / rangec in
    let h :=
      if Qeq_bool r maxc then bc - gc
      else if Qeq_bool g maxc then 2 + rc - bc
      else 4 + gc - rc in
    let h := py_mod (h / 6) 1 in
    (h, s, v).

(** [colorsys.hsv_to_rgb] *)
Definition hsv_to_rgb (c : hsv) : rgb :=
  let '(h, s, v) := c in
  if Qeq_bool s 0 then (v, v, v)
  else
    let i := py_int (h * 6) in
    let f := (h * 6) - inject_Z i in
    let p := v * (1 - s) in
    let q := v * (1 - s * f) in
    let t := v * (1 - s * (1 - f)) in
    let i := (i mod 6)%Z in
    if (i =? 0)%Z then (v, t, p)
    else if (i =? 1)%Z then (q, v, p)
    else if (i =? 2)%Z then (p, v, t)
    else if (i =? 3)%Z then (p, q, v)
    else if (i =? 4)%Z then (t, p, v)
    else (v, p, q).

(** One profile of [SOOTHING_PALETTES]. *)
Record profile : Type := mkProfile {
  hue_ranges : list (Q * Q);
  saturation : Q * Q;
  value : Q * Q
}.

Definition SOOTHING_PALETTES : list (string * profile) :=
  [ ("pastel"%string,      mkProfile [(0, 1)] (25#100, 45#100) (85#100, 95#100));
    ("muted"%string,       mkProfile [(0, 1)] (35#100, 55#100) (60#100, 75#100));
    ("calm_blues"%string,  mkProfile [(50#100, 65#100)] (30#100, 50#100) (70#100, 85#100));
    ("warm_earth"%string,  mkProfile [(5#100, 15#100); (85#100, 95#100)]
                                     (40#100, 60#100) (65#100, 80#100));
    ("soft_greens"%string, mkProfile [(25#100, 45#100)] (30#100, 50#100) (70#100, 85#100)) ].

(** The random draws one palette consumes, in the order the code makes
    them: two [random.choice] indices and three [random.random()] values
    behind [random.uniform]; then the draws of the medium and low
    contrast branches. *)
Record draws : Type := mkDraws {
  pick_palette : nat;
  pick_range : nat;
  u_hue : Q;
  u_saturation : Q;
  u_value : Q;
  pick_shift : nat;
  u_jitter : Q
}.

(** [random.uniform(a, b)] from the underlying [random()] value [u]. *)
Definition uniform (a b u : Q) : Q := a + (b - a) * u.

(** [random.choice(seq)] from the index drawn; [seq] is never empty here. *)
Definition choice {A : Type} (seq : list A) (k : nat) (default : A) : A :=
  nth (k mod (List.length seq)) seq default.

Definition generate_random_soothing_color (d : draws) : rgb :=
  let palette := choice (map snd SOOTHING_PALETTES) (pick_palette d)
                        (mkProfile [(0, 1)] (0, 0) (0, 0)) in
  let hue_range := choice (hue_ranges palette) (pick_range d) (0, 1) in
  let hue := uniform (fst hue_range) (snd hue_range) (u_hue d) in
  let saturation := uniform (fst (saturation palette)) (snd (saturation palette))
                            (u_saturation d) in
  let value := uniform (fst (value palette)) (snd (value palette)) (u_value d) in
  hsv_to_rgb (hue, saturation, value).

Definition generate_contrasting_color (base_color : rgb) (contrast_level : string)
    (d : draws) : rgb :=
  let '(h, s, v) := rgb_to_hsv base_color in
  let '(new_h, new_s, new_v) :=
    if String.eqb contrast_level "high" then
      (py_mod (h + (5#10)) 1,
       max2 (1#10) (s * (5#10)),
       if Qlt_bool v (5#10) then (95#100) else (15#100))
    else if String.eqb contrast_level "medium" then
      (py_mod (h + choice [(4#10); (6#10)] (pick_shift d) (4#10)) 1,
       max2 (1#10) (s * (6#10)),
       if Qlt_bool v (5#10) then (85#100) else (25#100))
    else
      (py_mod (h + uniform ((-1#10)) (1#10) (u_jitter d)) 1,
       max2 (1#10) (s * (7#10)),
       if Qlt_bool v (5#10) then (75#100) else (35#100)) in
  hsv_to_rgb (new_h, new_s, new_v).

Record palette : Type := mkPalette {
  object_rgb : rgb;
  background_rgb : rgb
}.

Definition get_color_palette (d : draws) : palette :=
  let object_color := generate_random_soothing_color d in
  let background_color := generate_contrasting_color object_color "high" d in
  mkPalette object_color background_color.

(** The components of an HSV triple. *)
Definition hue (c : hsv) : Q := fst (fst c).
Definition sat (c : hsv) : Q := snd (fst c).
Definition val (c : hsv) : Q := snd c.

(** Componentwise equality of rational triples. *)
Definition triple_eq (a b : Q * Q * Q) : Prop :=
  fst (fst a) == fst (fst b) /\ snd (fst a) == snd (fst b) /\ snd a == snd b.

Definition in_unit (x : Q) : Prop := 0 <= x /\ x <= 1.

End Palette.

(** ** database/db_manager.py

    The two tables are lists of rows in rowid order.  Timestamps are
    whole seconds; [now] is what CURRENT_TIMESTAMP evaluates to.  Colours
    are stored as values, not as their JSON text. *)

Module Store.

Record stl_file : Type := mkFile {
  sf_id : Z;
  sf_filename : string;
  sf_filepath : string;
  sf_added_date : Z;
  sf_file_size : option Z;
  sf_status : string
}.

Record render_job : Type := mkJob {
  rj_id : Z;
  rj_stl_file_id : option Z;
  rj_output_path : option string;
  rj_object_color : Palette.rgb;
  rj_background_color : Palette.rgb;
  rj_render_date : option Z;
  rj_render_duration : option Z;
  rj_status : string;
  rj_error_message : option string
}.

(** [stl_files_seq] and [render_jobs_seq] are the AUTOINCREMENT counters:
    the largest rowid each table has handed out. *)
Record db : Type := mkDb {
  stl_files : list stl_file;
  render_jobs : list render_job;
  stl_files_seq : Z;
  render_jobs_seq : Z
}.

(** The integers SQLite stores and sqlite3 binds as parameters: signed,
    64 bits.  Outside this range the binding raises OverflowError and a
    LIMIT is refused. *)
Definition INT64_MIN : Z := -9223372036854775808.
Definition INT64_MAX : Z := 9223372036854775807.

(** SELECT ... FROM stl_files WHERE filename = ?, first row. *)
Definition file_by_name (d : db) (filename : string) : option stl_file :=
  find (fun f => String.eqb (sf_filename f) filename) (stl_files d).

(** SELECT ... FROM render_jobs WHERE id = ?, first row. *)
Definition job_by_id (d : db) (id : Z) : option render_job :=
  find (fun j => rj_id j =? id) (render_jobs d).

(** An INSERT into stl_files that was ignored: no row is written, but
    the rowid had been drawn from the AUTOINCREMENT counter before the
    conflict was met, and the counter keeps it. *)
Definition ignored_insert (d : db) : db :=
  mkDb (stl_files d) (render_jobs d) (stl_files_seq d + 1) (render_jobs_seq d).

(** INSERT OR IGNORE INTO stl_files (filename, filepath, file_size):
    ignored when the UNIQUE filename is taken. *)
Definition insert_or_ignore_file (now : Z) (filename filepath : string)
    (file_size : Z) (d : db) : db :=
  match file_by_name d filename with
  | Some _ => ignored_insert d
  | None =>
      let id := stl_files_seq d + 1 in
      mkDb (stl_files d ++ [mkFile id filename filepath now (Some file_size) "pending"])
           (render_jobs d) id (render_jobs_seq d)
  end.

Definition add_stl_file (fs : Fs.t) (now : Z) (filepath : Fs.Path) (d : db)
  : Exn.exn + (option Z * db) :=
  match Fs.stat_size fs filepath with
  | None => inl (Exn.mk "FileNotFoundError" filepath)
  | Some file_size =>
      let d := insert_or_ignore_file now (Fs.name filepath) filepath file_size d in
      let result := file_by_name d (Fs.name filepath) in
      inr (match result with Some f => Some (sf_id f) | None => None end, d)
  end.

(** Insertion of [f] into a list sorted by [added_date], after the rows
    with the same date. *)
Fixpoint insert_by_date (f : stl_file) (l : list stl_file) : list stl_file :=
  match l with
  | [] => [f]
  | g :: rest =>
      if sf_added_date f <? sf_added_date g then f :: g :: rest
      else g :: insert_by_date f rest
  end.

(** ORDER BY added_date ASC; rows with equal dates keep rowid order. *)
Definition order_by_added_date (l : list stl_file) : list stl_file :=
  fold_left (fun acc f => insert_by_date f acc) l [].

(** LIMIT n: a negative [n] is no limit. *)
Definition sql_limit {A : Type} (n : Z) (l : list A) : list A :=
  if n <? 0 then l else firstn (Z.to_nat n) l.

(** The truth value of an [Optional[int]]. *)
Definition truthy (limit : option Z) : bool :=
  match limit with
  | None => false
  | Some n => negb (n =? 0)
  end.

Definition get_pending_files (limit : option Z) (d : db) : list stl_file :=
  let rows := order_by_added_date
                (filter (fun f => String.eqb (sf_status f) "pending") (stl_files d)) in
  if truthy limit
  then match limit with Some n => sql_limit n rows | None => rows end
  else rows.

Definition create_render_job (stl_file_id : option Z)
    (object_color background_color : Palette.rgb) (d : db) : Z * db :=
  let id := render_jobs_seq d + 1 in
  (id,
   mkDb (stl_files d)
        (render_jobs d ++ [mkJob id stl_file_id None object_color background_color
                                 None None "pending" None])
        (stl_files_seq d) id).

Definition set_file_status (status : string) (f : stl_file) : stl_file :=
  mkFile (sf_id f) (sf_filename f) (sf_filepath f) (sf_added_date f)
         (sf_file_size f) status.

(** The scalar subquery SELECT stl_file_id FROM render_jobs WHERE id = ?:
    NULL when no row matches or the column is NULL. *)
Definition owner_of (d : db) (job_id : Z) : option Z :=
  match job_by_id d job_id with
  | Some j => rj_stl_file_id j
  | None => None
  end.

(** [id = x] in a WHERE clause: never true for a NULL [x]. *)
Definition sql_eq (id : Z) (x : option Z) : bool :=
  match x with
  | Some y => id =? y
  | None => false
  end.

Definition update_render_job (now : Z) (job_id : Z) (status : string)
    (output_path : option string) (render_duration : option Z)
    (error_message : option string) (d : db) : Exn.exn + db :=
  let jobs :=
    map (fun j =>
           if rj_id j =? job_id
           then mkJob (rj_id j) (rj_stl_file_id j) output_path
                      (rj_object_color j) (rj_background_color j)
                      (Some now) render_duration status error_message
           else j)
        (render_jobs d) in
  let d1 := mkDb (stl_files d) jobs (stl_files_seq d) (render_jobs_seq d) in
  let d2 :=
    if String.eqb status "completed" then
      let owner := owner_of d1 job_id in
      mkDb (map (fun f => if sql_eq (sf_id f) owner
                          then set_file_status "completed" f else f)
                (stl_files d1))
           (render_jobs d1) (stl_files_seq d1) (render_jobs_seq d1)
    else d1 in
  inr d2.

(** The order of two rows by discovery time. *)
Definition older_or_same (a b : stl_file) : Prop :=
  sf_added_date a <= sf_added_date b.

End Store.
(** ** A state and exception monad

    State survives a raise: what a Python call did before raising stays
    done. *)

Module Mon.

Definition M (S A : Type) : Type := S -> (Exn.exn + A) * S.

Definition ret {S A : Type} (a : A) : M S A := fun s => (inr a, s).

Definition raise {S A : Type} (e : Exn.exn) : M S A := fun s => (inl e, s).

Definition bind {S A B : Type} (m : M S A) (k : A -> M S B) : M S B :=
  fun s =>
    match m s with
    | (inr a, s') => k a s'
    | (inl e, s') => (inl e, s')
    end.

Definition get {S : Type} : M S S := fun s => (inr s, s).

Definition modify {S : Type} (f : S -> S) : M S unit := fun s => (inr tt, f s).

(** Run a computation on the first component of a pair of states. *)
Definition zoom {S L A : Type} (m : M S A) : M (S * L) A :=
  fun sl =>
    match m (fst sl) with
    | (r, s') => (r, (s', snd sl))
    end.

End Mon.

Declare Scope mon_scope.
Delimit Scope mon_scope with mon.
Notation "x <- m ;; k" := (Mon.bind m (fun x => k))
  (at level 61, m at next level, right associativity) : mon_scope.
Notation "m ;;; k" := (Mon.bind m (fun _ => k))
  (at level 61, right associativity) : mon_scope.

(** ** rendering/video_compositor.py and main.py *)

Module Pipeline.

Import Mon.
Local Open Scope mon_scope.

(** The keyword arguments the generated script passes to
    [BlenderRenderer] and [render_video]. *)
Record render_request : Type := mkRequest {
  rq_render_samples : Z;
  rq_use_gpu : bool;
  rq_stl_path : Fs.Path;
  rq_output_dir : Fs.Path;
  rq_object_color : Palette.rgb;
  rq_background_color : Palette.rgb;
  rq_total_frames : Z;
  rq_fps : Z;
  rq_width : Z;
  rq_height : Z
}.

(** How [subprocess.run] ended, and the seconds it took. *)
Inductive proc_outcome : Type :=
| Exited (returncode : Z) (stderr : string) (elapsed : Z)
| RunRaised (e : Exn.exn) (elapsed : Z).

Inductive log_entry : Type :=
| LogProcessing (name : string)
| LogCompleted (output_video : Fs.Path)
| LogError (name : string) (msg : string)
| LogNoAudio (audio_dir : Fs.Path)
| LogBatchDone (success_count total : nat).

Record rand_draws : Type := mkRand {
  palette_draws : Palette.draws;
  audio_index : nat
}.

(** Everything the pipeline reads and writes.  [rand] is the random
    source, read at [rand_pos]; [requests] lists the renders handed to
    Blender, oldest first. *)
Record world : Type := mkWorld {
  db : Store.db;
  fs : Fs.t;
  clock : Z;
  rand : nat -> rand_draws;
  rand_pos : nat;
  log : list log_entry;
  requests : list render_request
}.

Definition with_db (d : Store.db) (w : world) : world :=
  mkWorld d (fs w) (clock w) (rand w) (rand_pos w) (log w) (requests w).
Definition with_fs (f : Fs.t) (w : world) : world :=
  mkWorld (db w) f (clock w) (rand w) (rand_pos w) (log w) (requests w).
Definition logger (e : log_entry) : M world unit :=
  modify (fun w => mkWorld (db w) (fs w) (clock w) (rand w) (rand_pos w)
                           (log w ++ [e]) (requests w)).
Definition next_draws : M world rand_draws :=
  fun w => (inr (rand w (rand_pos w)),
            mkWorld (db w) (fs w) (clock w) (rand w) (S (rand_pos w))
                    (log w) (requests w)).

(** [p.unlink()] *)
Definition unlink (p : Fs.Path) : M world unit :=
  fun w =>
    if Fs.exists_ (fs w) p then (inr tt, with_fs (Fs.remove (fs w) p) w)
    else (inl (Exn.mk "FileNotFoundError" p), w).

(** [shutil.copy(src, dst)]: a missing source is met first (the
    same-file test passes over it), then a destination that is the
    source. *)
Definition shutil_copy (src dst : Fs.Path) : M world unit :=
  fun w =>
    match Fs.read (fs w) src with
    | None => (inl (Exn.mk "FileNotFoundError" src), w)
    | Some c =>
        if String.eqb src dst then (inl (Exn.mk "SameFileError" src), w)
        else (inr tt, with_fs (Fs.write (fs w) dst c) w)
    end.

(** The names logged as started, oldest first. *)
Definition processing_names (l : list log_entry) : list string :=
  flat_map (fun e => match e with LogProcessing n => [n] | _ => [] end) l.

(** A request carrying the frame count and rate of the shipped
    configuration. *)
Definition shipped (rq : render_request) : Prop :=
  rq_total_frames rq = 50 /\ rq_fps rq = 10.

Definition has_job (d : Store.db) (j : Z) : Prop :=
  exists row, In row (Store.render_jobs d) /\ Store.rj_id row = j.

(** [w'] comes after [w]: no further file was started, requests stayed
    shipped ones, and no job row was lost. *)
Definition extends (w w' : world) : Prop :=
  processing_names (log w') = processing_names (log w)
  /\ (Forall shipped (requests w) -> Forall shipped (requests w'))
  /\ (forall j, has_job (db w) j -> has_job (db w') j).

Section Collaborators.

(** The external tools: Blender run on a request, ffmpeg assembling the
    frames of a directory, ffmpeg attaching an audio file; and the text
    of the script generated for a request. *)
Variable blender : render_request -> proc_outcome.
Variable ffmpeg_frames : Fs.t -> Fs.Path -> Z -> Z -> Z -> Exn.exn + Fs.content.
Variable ffmpeg_mux : Fs.t -> Fs.Path -> Fs.Path -> Exn.exn + Fs.content.

(** pathlib's [d.glob('*' + ext)]: every entry of [d] whose name ends in
    [ext], be it a file, a directory or a link that leads nowhere.  The
    files of [Fs.t] do not determine it, so it is taken as given. *)
Variable glob : Fs.t -> Fs.Path -> string -> list Fs.Path.
Variable script_text : render_request -> Fs.content.

(** [Path(__file__).parent] of config.py. *)
Variable BASE_DIR : Fs.Path.

Definition DATA_DIR : Fs.Path := Fs.join BASE_DIR "data".
Definition STL_DIR : Fs.Path := Fs.join DATA_DIR "stl_files".
Definition RENDERS_DIR : Fs.Path := Fs.join DATA_DIR "renders".
Definition OUTPUT_DIR : Fs.Path := Fs.join DATA_DIR "output_videos".
Definition AUDIO_DIR : Fs.Path := Fs.join DATA_DIR "audio-assets".

(** *** VideoCompositor *)

Definition create_video_from_frames (fps : Z) (frames_dir output_path : Fs.Path)
    (width height : Z) : M world Fs.Path :=
  fun w =>
    match ffmpeg_frames (fs w) frames_dir width height fps with
    | inr video => (inr output_path, with_fs (Fs.write (fs w) output_path video) w)
    | inl e => (inl e, w)
    end.

Definition add_random_audio (video_path output_path audio_dir : Fs.Path)
    (pick : nat) : M world Fs.Path :=
  w <- get ;;
  let audio_files := glob (fs w) audio_dir ".mp3" in
  let audio_files := (audio_files ++ glob (fs w) audio_dir ".wav")%list in
  let audio_files := (audio_files ++ glob (fs w) audio_dir ".m4a")%list in
  match audio_files with
  | [] =>
      logger (LogNoAudio audio_dir) ;;;
      shutil_copy video_path output_path ;;;
      ret output_path
  | first :: _ =>
      let selected_audio := Palette.choice audio_files pick first in
      fun w =>
        match ffmpeg_mux (fs w) video_path selected_audio with
        | inr out => (inr output_path, with_fs (Fs.write (fs w) output_path out) w)
        | inl e => (inl e, w)
        end
  end.

(** *** RenderPipeline *)

Definition _generate_blender_script (stl_path output_dir : Fs.Path)
    (object_color background_color : Palette.rgb) : render_request :=
  mkRequest Config.RENDER_SAMPLES Config.USE_GPU stl_path output_dir
            object_color background_color
            Config.TOTAL_FRAMES Config.FPS Config.VIDEO_WIDTH Config.VIDEO_HEIGHT.

(** [subprocess.run(blender_cmd, ..., timeout=3600)] *)
Definition subprocess_run (rq : render_request) : M world (Z * string) :=
  fun w =>
    let w1 := mkWorld (db w) (fs w) (clock w) (rand w) (rand_pos w) (log w)
                      (requests w ++ [rq]) in
    let tick (dt : Z) :=
      mkWorld (db w1) (fs w1) (clock w1 + dt) (rand w1) (rand_pos w1) (log w1)
              (requests w1) in
    match blender rq with
    | Exited returncode stderr dt => (inr (returncode, stderr), tick dt)
    | RunRaised e dt => (inl e, tick dt)
    end.

(** The locals of [render_single_file] that its handler inspects. *)
Record locals : Type := mkLocals { job_id : option Z }.

Definition bind_job_id (j : Z) : M (world * locals) unit :=
  modify (fun wl => (fst wl, mkLocals (Some j))).

Definition db_add_stl_file (p : Fs.Path) : M world (option Z) :=
  fun w =>
    match Store.add_stl_file (fs w) (clock w) p (db w) with
    | inr (id, d) => (inr id, with_db d w)
    | inl e => (inl e, w)
    end.

Definition db_create_render_job (file_id : option Z)
    (object_color background_color : Palette.rgb) : M world Z :=
  fun w =>
    let '(id, d) := Store.create_render_job file_id object_color background_color (db w) in
    (inr id, with_db d w).

Definition db_update_render_job (job : Z) (status : string)
    (output_path : option string) (render_duration : option Z)
    (error_message : option string) : M world unit :=
  fun w =>
    match Store.update_render_job (clock w) job status output_path
                                  render_duration error_message (db w) with
    | inr d => (inr tt, with_db d w)
    | inl e => (inl e, w)
    end.

(** The [try] body of [render_single_file] from the creation of the
    output directory on, that is, once [job_id] is bound. *)
Definition render_stages (stl_path : Fs.Path) (start_time : Z)
    (palette : Palette.palette) (r : rand_draws) (job : Z)
  : M (world * locals) Fs.Path :=
  let render_dir := Fs.join RENDERS_DIR (Fs.stem stl_path) in
  let blender_script :=
    _generate_blender_script stl_path render_dir (Palette.object_rgb palette)
                             (Palette.background_rgb palette) in
  let temp_script := Fs.join BASE_DIR "temp_render_script.py" in
  zoom (modify (fun w => with_fs (Fs.write (fs w) temp_script
                                           (script_text blender_script)) w)) ;;;
  result <- zoom (subprocess_run blender_script) ;;
  (if negb (fst result =? 0)
   then raise (Exn.mk "RuntimeError" ("Blender render failed: " ++ snd result))
   else ret tt) ;;;
  let temp_video := Fs.join OUTPUT_DIR (Fs.stem stl_path ++ "_temp.mp4") in
  zoom (create_video_from_frames Config.FPS render_dir temp_video
                                 Config.VIDEO_WIDTH Config.VIDEO_HEIGHT) ;;;
  output_video <- zoom (add_random_audio temp_video
                          (Fs.join OUTPUT_DIR (Fs.stem stl_path ++ ".mp4"))
                          AUDIO_DIR (audio_index r)) ;;
  w <- zoom get ;;
  (if Fs.exists_ (fs w) temp_video then zoom (unlink temp_video) else ret tt) ;;;
  w <- zoom get ;;
  let render_duration := clock w - start_time in
  zoom (db_update_render_job job "completed" (Some output_video)
                             (Some render_duration) None) ;;;
  zoom (logger (LogCompleted output_video)) ;;;
  zoom (unlink temp_script) ;;;
  ret output_video.

(** The body of the [try] of [render_single_file]. *)
Definition try_block (stl_path : Fs.Path) (start_time : Z)
  : M (world * locals) Fs.Path :=
  zoom (logger (LogProcessing (Fs.name stl_path))) ;;;
  r <- zoom next_draws ;;
  let palette := Palette.get_color_palette (palette_draws r) in
  file_id <- zoom (db_add_stl_file stl_path) ;;
  job <- zoom (db_create_render_job file_id (Palette.object_rgb palette)
                                    (Palette.background_rgb palette)) ;;
  bind_job_id job ;;;
  render_stages stl_path start_time palette r job.

Definition render_single_file (stl_path : Fs.Path) : M world (option Fs.Path) :=
  fun w0 =>
    let start_time := clock w0 in
    match try_block stl_path start_time (w0, mkLocals None) with
    | (inr output_video, (w, _)) => (inr (Some output_video), w)
    | (inl e, (w, l)) =>
        (logger (LogError (Fs.name stl_path) (Exn.str e)) ;;;
         match job_id l with
         | Some job =>
             db_update_render_job job "failed" None None (Some (Exn.str e))
         | None => ret tt
         end ;;;
         ret None) w
    end.

(** The loop of [process_queue], carrying [success_count]. *)
Fixpoint process_files (pending_files : list Store.stl_file) (success_count : nat)
  : M world nat :=
  match pending_files with
  | [] => ret success_count
  | file_data :: rest =>
      let stl_path := Store.sf_filepath file_data in
      result <- render_single_file stl_path ;;
      process_files rest (match result with
                          | Some _ => S success_count
                          | None => success_count
                          end)
  end.

Definition process_queue (limit : option Z) : M world unit :=
  w <- get ;;
  let pending_files := Store.get_pending_files limit (db w) in
  match pending_files with
  | [] => ret tt
  | _ :: _ =>
      success_count <- process_files pending_files 0 ;;
      logger (LogBatchDone success_count (List.length pending_files))
  end.

End Collaborators.

(** A computation each of whose runs ends in a world that comes after
    the one it started in. *)
Definition quiet {A : Type} (m : M world A) : Prop :=
  forall w, extends w (snd (m w)).

(** The same for the body of the [try], which moreover leaves the locals
    alone. *)
Definition quietL {A : Type} (m : M (world * locals) A) : Prop :=
  forall wl, extends (fst wl) (fst (snd (m wl))) /\ snd (snd (m wl)) = snd wl.

End Pipeline.

(** ** rendering/blender_renderer.py: [render_video] *)

Module Renderer.

(** [clear_scene] deletes every object; [setup_camera] then adds the
    empty named 'OrbitEmpty', with no animation. *)
Definition clear_scene (s : Orbit.scene_state) : Orbit.scene_state :=
  Orbit.mkScene (Orbit.frame_start s) (Orbit.frame_end s) (Orbit.render_fps s) None.

Definition setup_camera (s : Orbit.scene_state) : Orbit.scene_state :=
  Orbit.mkScene (Orbit.frame_start s) (Orbit.frame_end s) (Orbit.render_fps s)
                (Some Orbit.fresh_empty).

(** The scene part of [render_video]; materials, lights and the final
    render do not touch the animation. *)
Definition render_video (rq : Pipeline.render_request) (s : Orbit.scene_state)
  : option Orbit.error * Orbit.scene_state :=
  let s := clear_scene s in
  let s := setup_camera s in
  Orbit.animate_camera_orbit (Pipeline.rq_total_frames rq) (Pipeline.rq_fps rq) s.

End Renderer.

(** ** Sample data *)

Module Samples.

Import Store.

Definition sample_file (id : Z) (filename : string) (added : Z) (status : string)
  : stl_file :=
  mkFile id filename ("data/stl_files/" ++ filename) added (Some 84) status.

Definition sample_db : db :=
  mkDb [sample_file 1 "gear.stl" 100 "pending";
        sample_file 2 "cube.stl" 90 "pending"]
       [mkJob 1 (Some 2) None (0, 0, 0)%Q (1, 1, 1)%Q None None "pending" None]
       2 1.

Definition sample_fs : Fs.t :=
  [("data/stl_files/vase.stl", "solid vase"); ("data/audio/readme.txt", "none")]%string.


Definition vase : Fs.Path := "data/stl_files/vase.stl"%string.

Definition base : Fs.Path := "."%string.
Definition gear : Fs.Path := "data/stl_files/gear.stl"%string.
Definition gear_temp_video : Fs.Path :=
  Fs.join (Pipeline.OUTPUT_DIR base) "gear_temp.mp4".
Definition gear_video : Fs.Path := Fs.join (Pipeline.OUTPUT_DIR base) "gear.mp4".
Definition cube : Fs.Path := "data/stl_files/cube.stl"%string.

(** Blender fails on the cube and renders everything else. *)
Definition sample_blender (rq : Pipeline.render_request) : Pipeline.proc_outcome :=
  if String.eqb (Pipeline.rq_stl_path rq) cube
  then Pipeline.Exited 1 "no GPU" 5
  else Pipeline.Exited 0 "" 7.

Definition sample_ffmpeg_frames (fs : Fs.t) (frames_dir : Fs.Path)
    (width height fps : Z) : Exn.exn + Fs.content :=
  inr "video"%string.

Definition sample_ffmpeg_mux (fs : Fs.t) (video audio : Fs.Path)
  : Exn.exn + Fs.content :=
  inl (Exn.mk "Error" "ffmpeg error").

Definition sample_script (rq : Pipeline.render_request) : Fs.content := "script"%string.

Definition sample_rand (n : nat) : Pipeline.rand_draws :=
  Pipeline.mkRand (Palette.mkDraws 0 0 (1#2) (1#2) (1#2) 0 0) 0.

(** Two pending files, no job yet, no audio file. *)
Definition sample_world : Pipeline.world :=
  Pipeline.mkWorld (mkDb [sample_file 1 "gear.stl" 100 "pending";
                 sample_file 2 "cube.stl" 90 "pending"] [] 2 0)
          [(gear, "solid gear"%string); (cube, "solid cube"%string)]
          1000 sample_rand 0 [] [].

Definition sample_run : (Exn.exn + unit) * Pipeline.world :=
  Pipeline.process_queue sample_blender sample_ffmpeg_frames sample_ffmpeg_mux Fs.glob_ext
                sample_script base None sample_world.

End Samples.

(** ** rendering/color_manager.py: [rgb_to_hex] and the profiles *)

Module Hex.

(** The digit of [n], 0 <= n < 16, in lower case. *)
Definition hex_digit (n : Z) : ascii :=
  nth (Z.to_nat n) (list_ascii_of_string "0123456789abcdef") "0"%char.

(** The digits of a non-negative [n], most significant first; [fuel]
    bounds their number. *)
Fixpoint hex_digits (fuel : nat) (n : Z) (acc : string) : string :=
  match fuel with
  | O => acc
  | S fuel' =>
      let acc' := String (hex_digit (n mod 16)) acc in
      if n / 16 =? 0 then acc' else hex_digits fuel' (n / 16) acc'
  end.

Definition hex (n : Z) : string :=
  hex_digits (S (Z.to_nat (Z.log2 n))) n EmptyString.

Fixpoint zeros (k : nat) : string :=
  match k with
  | O => EmptyString
  | S k' => String "0"%char (zeros k')
  end.

(** [format(n, '02x')]: at least two characters, the sign included. *)
Definition format_02x (n : Z) : string :=
  if n <? 0 then
    let digits := hex (- n) in
    (String "-"%char (zeros (1 - String.length digits)) ++ digits)%string
  else
    let digits := hex n in
    (zeros (2 - String.length digits) ++ digits)%string.

Definition rgb_to_hex (rgb : Palette.rgb) : string :=
  let '(r, g, b) := rgb in
  let r := Palette.py_int (r * 255) in
  let g := Palette.py_int (g * 255) in
  let b := Palette.py_int (b * 255) in
  (String "#"%char (format_02x r) ++ format_02x g ++ format_02x b)%string.

(** The four entries of the dictionary [get_color_palette] returns. *)
Record color_palette : Type := mkColorPalette {
  object_rgb : Palette.rgb;
  background_rgb : Palette.rgb;
  object_hex : string;
  background_hex : string
}.

Definition get_color_palette (d : Palette.draws) : color_palette :=
  let p := Palette.get_color_palette d in
  mkColorPalette (Palette.object_rgb p) (Palette.background_rgb p)
                 (rgb_to_hex (Palette.object_rgb p))
                 (rgb_to_hex (Palette.background_rgb p)).

(** The three [random.random()] values of a palette lie in [0, 1). *)
Definition unit_draws (d : Palette.draws) : Prop :=
  (0 <= Palette.u_hue d /\ Palette.u_hue d < 1
   /\ 0 <= Palette.u_saturation d /\ Palette.u_saturation d < 1
   /\ 0 <= Palette.u_value d /\ Palette.u_value d < 1)%Q.

(** A profile as the class defines them: hue ranges inside the circle,
    moderate saturation, high to moderate value. *)
Definition soft_profile (pr : Palette.profile) : Prop :=
  (Palette.hue_ranges pr <> []
   /\ Forall (fun r => 0 <= fst r /\ fst r < snd r /\ snd r <= 1)
             (Palette.hue_ranges pr)
   /\ (25#100) <= fst (Palette.saturation pr)
   /\ fst (Palette.saturation pr) <= snd (Palette.saturation pr)
   /\ snd (Palette.saturation pr) <= (60#100)
   /\ (60#100) <= fst (Palette.value pr)
   /\ fst (Palette.value pr) <= snd (Palette.value pr)
   /\ snd (Palette.value pr) <= (95#100))%Q.

Definition unit_rgb (c : Palette.rgb) : Prop :=
  Palette.in_unit (fst (fst c)) /\ Palette.in_unit (snd (fst c))
  /\ Palette.in_unit (snd c).

(** Draws in the middle of every range. *)
Definition mid_draws : Palette.draws :=
  Palette.mkDraws 3%nat 1%nat (1#2)%Q (1#2)%Q (1#2)%Q 0%nat 0%Q.

End Hex.

(** ** database/db_manager.py: the store as a whole *)

Module StoreState.

Import Store.

(** [init_database]: CREATE TABLE IF NOT EXISTS on a database file that
    is new ([None]) or already holds the tables. *)
Definition init_database (existing : option db) : db :=
  match existing with
  | None => mkDb [] [] 0 0
  | Some d => d
  end.

(** SELECT ... FROM stl_files WHERE id = ?, first row. *)
Definition file_by_id (d : db) (id : Z) : option stl_file :=
  find (fun f => sf_id f =? id) (stl_files d).

(** What SQLite's UNIQUE, PRIMARY KEY and AUTOINCREMENT give: file names
    and ids are not repeated, and no id is above its table's counter. *)
Definition well_formed (d : db) : Prop :=
  NoDup (map sf_filename (stl_files d))
  /\ NoDup (map sf_id (stl_files d))
  /\ NoDup (map rj_id (render_jobs d))
  /\ Forall (fun f => 0 < sf_id f <= stl_files_seq d) (stl_files d)
  /\ Forall (fun j => 0 < rj_id j <= render_jobs_seq d) (render_jobs d)
  /\ 0 <= stl_files_seq d
  /\ 0 <= render_jobs_seq d.

(** Every file is pending or completed. *)
Definition two_state (d : db) : Prop :=
  Forall (fun f => sf_status f = "pending"%string
                   \/ sf_status f = "completed"%string) (stl_files d).

(** The stores the class can produce from a new database file. *)
Inductive reachable : db -> Prop :=
| reach_init : reachable (init_database None)
| reach_add_stl_file (d d' : db) (fs : Fs.t) (now : Z) (p : Fs.Path)
    (id : option Z) :
    reachable d ->
    add_stl_file fs now p d = inr (id, d') ->
    reachable d'
| reach_create_render_job (d : db) (file_id : option Z)
    (oc bc : Palette.rgb) :
    reachable d ->
    reachable (snd (create_render_job file_id oc bc d))
| reach_update_render_job (d d' : db) (now job : Z) (status : string)
    (out : option string) (dur : option Z) (err : option string) :
    reachable d ->
    update_render_job now job status out dur err d = inr d' ->
    reachable d'.

(** One call that changes the store. *)
Inductive step : db -> db -> Prop :=
| step_add_stl_file (d d' : db) (fs : Fs.t) (now : Z) (p : Fs.Path)
    (id : option Z) :
    add_stl_file fs now p d = inr (id, d') -> step d d'
| step_create_render_job (d : db) (file_id : option Z) (oc bc : Palette.rgb) :
    step d (snd (create_render_job file_id oc bc d))
| step_update_render_job (d d' : db) (now job : Z) (status : string)
    (out : option string) (dur : option Z) (err : option string) :
    update_render_job now job status out dur err d = inr d' -> step d d'.

(** The columns of a file that are written once, at its registration. *)
Definition file_identity (f : stl_file)
  : Z * string * string * Z * option Z :=
  (sf_id f, sf_filename f, sf_filepath f, sf_added_date f, sf_file_size f).

(** The columns of a job that are written once, at its creation. *)
Definition job_identity (j : render_job)
  : Z * option Z * Palette.rgb * Palette.rgb :=
  (rj_id j, rj_stl_file_id j, rj_object_color j, rj_background_color j).

Record statistics : Type := mkStats {
  total_files : Z;
  completed_files : Z;
  pending_files : Z;
  average_render_time : Q
}.

(** SELECT COUNT( * ) FROM stl_files WHERE status = ? *)
Definition count_status (status : string) (d : db) : Z :=
  Z.of_nat (List.length (filter (fun f => String.eqb (sf_status f) status)
                                (stl_files d))).

(** The non-NULL values of a column. *)
Definition non_null (xs : list (option Z)) : list Z :=
  flat_map (fun x => match x with Some v => [v] | None => [] end) xs.

Definition sum (xs : list Z) : Z := fold_right Z.add 0 xs.

(** AVG(column): NULL values are skipped; NULL when nothing is left. *)
Definition sql_avg (xs : list (option Z)) : option Q :=
  match non_null xs with
  | [] => None
  | v :: vs =>
      Some (inject_Z (sum (v :: vs)) / inject_Z (Z.of_nat (List.length (v :: vs))))%Q
  end.

(** [x or 0] *)
Definition or_zero (x : option Q) : Q :=
  match x with
  | Some q => if Qeq_bool q 0 then 0%Q else q
  | None => 0%Q
  end.

(** Rounding to the nearest integer, ties to the even one. *)
Definition round_half_even (x : Q) : Z :=
  let n := Qfloor x in
  let r := (x - inject_Z n)%Q in
  if Palette.Qlt_bool r (1#2) then n
  else if Palette.Qlt_bool (1#2) r then n + 1
  else if Z.even n then n else n + 1.

(** [round(x, 2)], on exact rationals. *)
Definition round2 (x : Q) : Q :=
  (inject_Z (round_half_even (x * 100)) / 100)%Q.

Definition completed_durations (d : db) : list (option Z) :=
  map rj_render_duration
      (filter (fun j => String.eqb (rj_status j) "completed") (render_jobs d)).

Definition get_statistics (d : db) : statistics :=
  let total_files := Z.of_nat (List.length (stl_files d)) in
  let completed_files := count_status "completed" d in
  let pending_files := count_status "pending" d in
  let avg_duration := or_zero (sql_avg (completed_durations d)) in
  mkStats total_files completed_files pending_files (round2 avg_duration).

End StoreState.

(** ** More sample data *)

Module MoreSamples.

Import Store.

(** A world with one video and one audio track. *)
Definition song : Fs.Path :=
  Fs.join (Pipeline.AUDIO_DIR Samples.base) "song.mp3".

Definition audio_world : Pipeline.world :=
  Pipeline.mkWorld (mkDb [] [] 0 0)
    [(Samples.gear_temp_video, "video"%string); (song, "la la"%string)]
    1000 Samples.sample_rand 0 [] [].

(** ffmpeg attaching a track: the two contents side by side. *)
Definition joining_mux (fs : Fs.t) (video audio : Fs.Path)
  : Exn.exn + Fs.content :=
  match Fs.read fs video, Fs.read fs audio with
  | Some v, Some a => inr (v ++ "+" ++ a)%string
  | _, _ => inl (Exn.mk "Error" "ffmpeg error")
  end.


End MoreSamples.

(** ** main.py: directory scan and command line *)

Module Cli.

Import Mon Pipeline.
Local Open Scope mon_scope.

(** [d.glob('**/*' + ext)]: the files below [d], at any depth, whose name
    ends in [ext]. *)
Definition rglob_ext (fs : Fs.t) (d : Fs.Path) (ext : string) : list Fs.Path :=
  map fst (filter (fun e => (String.prefix (d ++ String Fs.slash EmptyString) (fst e)
                             && Fs.has_suffix ext (Fs.name (fst e)))%bool) fs).

(** The truth value of what [add_stl_file] returns. *)
Definition truthy_id (file_id : option Z) : bool :=
  match file_id with
  | None => false
  | Some id => negb (id =? 0)
  end.

(** The loop of [scan_stl_directory], carrying [added_count]. *)
Fixpoint scan_files (stl_files : list Fs.Path) (added_count : nat) : M world nat :=
  match stl_files with
  | [] => ret added_count
  | stl_file :: rest =>
      file_id <- db_add_stl_file stl_file ;;
      scan_files rest (if truthy_id file_id then S added_count else added_count)
  end.

(** The result is the two numbers the method logs: the files found and
    [added_count]. *)
Definition scan_stl_directory (BASE_DIR : Fs.Path) : M world (nat * nat) :=
  w <- get ;;
  let stl_files := rglob_ext (fs w) (STL_DIR BASE_DIR) ".stl" in
  added_count <- scan_files stl_files 0 ;;
  ret (List.length stl_files, added_count).

(** The store after a scan of [paths], seen from the store before. *)
Definition scanned (paths : list Fs.Path) (d d' : Store.db) : Prop :=
  (exists extra,
      Store.stl_files d' = (Store.stl_files d ++ extra)%list
      /\ Forall (fun f => Store.sf_status f = "pending"%string
                          /\ In (Store.sf_filepath f) paths) extra)
  /\ Store.render_jobs d' = Store.render_jobs d
  /\ (forall n f, Store.file_by_name d n = Some f ->
                  Store.file_by_name d' n = Some f)
  /\ (forall p, In p paths -> Store.file_by_name d' (Fs.name p) <> None)
  /\ (StoreState.well_formed d -> StoreState.well_formed d').

Section Collaborators.

Variable blender : render_request -> proc_outcome.
Variable ffmpeg_frames : Fs.t -> Fs.Path -> Z -> Z -> Z -> Exn.exn + Fs.content.
Variable ffmpeg_mux : Fs.t -> Fs.Path -> Fs.Path -> Exn.exn + Fs.content.
Variable glob : Fs.t -> Fs.Path -> string -> list Fs.Path.
Variable script_text : render_request -> Fs.content.
Variable BASE_DIR : Fs.Path.

(** [int(s)]: [None] where it raises ValueError. *)
Variable int_of_string : string -> option Z.

Definition process_all : M world unit :=
  scan_stl_directory BASE_DIR ;;;
  process_queue blender ffmpeg_frames ffmpeg_mux glob script_text BASE_DIR None.

(** [sys.exit(1)] *)
Definition sys_exit {A : Type} : M world A := raise (Exn.mk "SystemExit" "1").

(** [main], on [sys.argv]; it returns where the source logs
    'Pipeline finished'. *)
Definition main (argv : list string) : M world unit :=
  match argv with
  | _ :: command :: args =>
      if String.eqb command "scan" then
        scan_stl_directory BASE_DIR ;;; ret tt
      else if String.eqb command "process" then
        match args with
        | a :: _ =>
            match int_of_string a with
            | Some limit =>
                process_queue blender ffmpeg_frames ffmpeg_mux glob script_text
                              BASE_DIR (Some limit)
            | None => raise (Exn.mk "ValueError" a)
            end
        | [] =>
            process_queue blender ffmpeg_frames ffmpeg_mux glob script_text
                          BASE_DIR None
        end
      else if String.eqb command "render" then
        match args with
        | [] => sys_exit
        | stl_path :: _ =>
            w <- get ;;
            if negb (Fs.exists_ (fs w) stl_path) then sys_exit
            else
              render_single_file blender ffmpeg_frames ffmpeg_mux glob script_text
                                 BASE_DIR stl_path ;;;
              ret tt
        end
      else if String.eqb command "all" then process_all
      else sys_exit
  | _ => process_all
  end.

End Collaborators.

End Cli.

(** * Properties *)

(** ** The palette *)

Module PaletteFacts.

Import Palette.
Local Open Scope Q_scope.

Lemma Qlt_bool_iff (a b : Q) : Qlt_bool a b = true <-> a < b.
Proof.
  unfold Qlt_bool. rewrite negb_true_iff.
  destruct (Qle_bool b a) eqn:E.
  - apply Qle_bool_iff in E. split; [discriminate | lra].
  - split; [| reflexivity]. intros _.
    destruct (Qlt_le_dec a b) as [H | H]; [exact H |].
    apply Qle_bool_iff in H. congruence.
Qed.

Lemma max2_spec (a b : Q) :
  a <= max2 a b /\ b <= max2 a b /\ (max2 a b == a \/ max2 a b == b).
Proof.
  unfold max2. destruct (Qlt_bool a b) eqn:E.
  - apply Qlt_bool_iff in E. repeat split; lra.
  - assert (~ a < b) by (rewrite <- Qlt_bool_iff; congruence).
    repeat split; lra.
Qed.

Lemma min2_spec (a b : Q) :
  min2 a b <= a /\ min2 a b <= b /\ (min2 a b == a \/ min2 a b == b).
Proof.
  unfold min2. destruct (Qlt_bool b a) eqn:E.
  - apply Qlt_bool_iff in E. repeat split; lra.
  - assert (~ b < a) by (rewrite <- Qlt_bool_iff; congruence).
    repeat split; lra.
Qed.

Lemma max3_spec (a b c : Q) :
  a <= max3 a b c /\ b <= max3 a b c /\ c <= max3 a b c
  /\ (max3 a b c == a \/ max3 a b c == b \/ max3 a b c == c).
Proof.
  unfold max3.
  destruct (max2_spec a b) as (H1 & H2 & H3).
  destruct (max2_spec (max2 a b) c) as (H4 & H5 & H6).
  repeat split; lra.
Qed.

Lemma min3_spec (a b c : Q) :
  min3 a b c <= a /\ min3 a b c <= b /\ min3 a b c <= c
  /\ (min3 a b c == a \/ min3 a b c == b \/ min3 a b c == c).
Proof.
  unfold min3.
  destruct (min2_spec a b) as (H1 & H2 & H3).
  destruct (min2_spec (min2 a b) c) as (H4 & H5 & H6).
  repeat split; lra.
Qed.

Lemma Qfloor_unique (x : Q) (z : Z) :
  inject_Z z <= x -> x < inject_Z z + 1 -> Qfloor x = z.
Proof.
  intros Hle Hlt.
  pose proof (Qfloor_le x) as H1. pose proof (Qlt_floor x) as H2.
  rewrite inject_Z_plus in H2. change (inject_Z 1) with 1 in H2.
  assert (Ha : (z < Qfloor x + 1)%Z).
  { rewrite Zlt_Qlt, inject_Z_plus. change (inject_Z 1) with 1. lra. }
  assert (Hb : (Qfloor x < z + 1)%Z).
  { rewrite Zlt_Qlt, inject_Z_plus. change (inject_Z 1) with 1. lra. }
  lia.
Qed.

Lemma py_int_floor (x : Q) : 0 <= x -> py_int x = Qfloor x.
Proof.
  intros Hx. destruct x as [n d]. unfold py_int, Qfloor. cbn.
  apply Z.quot_div_nonneg; [| lia].
  unfold Qle in Hx. cbn in Hx. lia.
Qed.

#[export] Instance py_mod_comp : Proper (Qeq ==> Qeq ==> Qeq) py_mod.
Proof.
  intros x x' Hx y y' Hy. unfold py_mod.
  assert (Hf : Qfloor (x / y) = Qfloor (x' / y'))
    by (apply Qfloor_comp; apply Qdiv_comp; assumption).
  rewrite Hf. apply Qplus_comp; [exact Hx |].
  apply Qopp_comp. apply Qmult_comp; [exact Hy | reflexivity].
Qed.

Lemma py_mod_1 (x : Q) (z : Z) :
  inject_Z z <= x -> x < inject_Z z + 1 -> py_mod x 1 == x - inject_Z z.
Proof.
  intros Hle Hlt. unfold py_mod.
  assert (Hdiv : x / 1 == x) by (field).
  rewrite Hdiv, (Qfloor_unique x z Hle Hlt). ring.
Qed.

Lemma py_mod_1_range (x : Q) : 0 <= py_mod x 1 /\ py_mod x 1 < 1.
Proof.
  pose proof (Qfloor_le x) as H1. pose proof (Qlt_floor x) as H2.
  rewrite inject_Z_plus in H2. change (inject_Z 1) with 1 in H2.
  rewrite (py_mod_1 x (Qfloor x)) by lra. lra.
Qed.

Lemma hsv_to_rgb_sector (h s v : Q) :
  0 <= h -> h < 1 -> ~ s == 0 ->
  exists (i : Z) (f p q t : Q),
    (0 <= i <= 5)%Z
    /\ 0 <= f /\ f < 1
    /\ h * 6 == inject_Z i + f
    /\ p = v * (1 - s)
    /\ q = v * (1 - s * f)
    /\ t = v * (1 - s * (1 - f))
    /\ hsv_to_rgb (h, s, v) =
         if (i =? 0)%Z then (v, t, p)
         else if (i =? 1)%Z then (q, v, p)
         else if (i =? 2)%Z then (p, v, t)
         else if (i =? 3)%Z then (p, q, v)
         else if (i =? 4)%Z then (t, p, v)
         else (v, p, q).
Proof.
  intros Hh0 Hh1 Hs.
  pose proof (Qfloor_le (h * 6)) as H1. pose proof (Qlt_floor (h * 6)) as H2.
  rewrite inject_Z_plus in H2. change (inject_Z 1) with 1 in H2.
  set (i := Qfloor (h * 6)) in *.
  assert (Hi : (0 <= i <= 5)%Z).
  { split.
    - assert ((-1 < i)%Z); [| lia].
      rewrite Zlt_Qlt. change (inject_Z (-1)) with (-1). lra.
    - assert ((i < 6)%Z); [| lia].
      rewrite Zlt_Qlt. change (inject_Z 6) with 6. lra. }
  exists i, (h * 6 - inject_Z i). do 3 eexists.
  split; [exact Hi |]. split; [lra |]. split; [lra |]. split; [ring |].
  split; [reflexivity |]. split; [reflexivity |]. split; [reflexivity |].
  unfold hsv_to_rgb.
  destruct (Qeq_bool s 0) eqn:E; [apply Qeq_bool_iff in E; contradiction |].
  rewrite py_int_floor by lra. fold i.
  rewrite Z.mod_small by lia. reflexivity.
Qed.

Lemma rgb_to_hsv_spec (r g b : Q) :
  let M := max3 r g b in
  let m := min3 r g b in
  exists h s,
    rgb_to_hsv (r, g, b) = (h, s, M)
    /\ ((m == M /\ h = 0 /\ s = 0)
        \/ (~ m == M /\ s = (M - m) / M
            /\ ((r == M
                 /\ h = py_mod (((M - b) / (M - m) - (M - g) / (M - m)) / 6) 1)
                \/ (~ r == M /\ g == M
                    /\ h = py_mod ((2 + (M - r) / (M - m) - (M - b) / (M - m)) / 6) 1)
                \/ (~ r == M /\ ~ g == M
                    /\ h = py_mod ((4 + (M - g) / (M - m) - (M - r) / (M - m)) / 6) 1)))).
Proof.
  intros M m. unfold rgb_to_hsv. fold M. fold m.
  destruct (Qeq_bool m M) eqn:E.
  - apply Qeq_bool_iff in E. do 2 eexists. split; [reflexivity |]. left. auto.
  - apply Qeq_bool_neq in E. do 2 eexists. split; [reflexivity |]. right.
    split; [exact E |]. split; [reflexivity |].
    destruct (Qeq_bool r M) eqn:Er.
    + apply Qeq_bool_iff in Er. left. auto.
    + apply Qeq_bool_neq in Er. right.
      destruct (Qeq_bool g M) eqn:Eg.
      * apply Qeq_bool_iff in Eg. left. auto.
      * apply Qeq_bool_neq in Eg. right. auto.
Qed.

Lemma py_mod_1_shift (x : Q) (z : Z) :
  0 <= x -> x < 1 -> py_mod (x + inject_Z z) 1 == x.
Proof.
  intros H0 H1. rewrite (py_mod_1 (x + inject_Z z) z) by lra. ring.
Qed.

Lemma sixth (x y : Q) : y * 6 == x -> x / 6 == y.
Proof. intros H. rewrite <- H. field. Qed.

Section RoundTrip.

Variables h s v f p q t : Q.
Hypothesis Hh0 : 0 <= h.
Hypothesis Hh1 : h < 1.
Hypothesis Hs : 0 < s.
Hypothesis Hv : 0 < v.
Hypothesis Hf0 : 0 <= f.
Hypothesis Hf1 : f < 1.
Hypothesis Hp : p == v - v * s.
Hypothesis Hq : q == v - v * s * f.
Hypothesis Ht : t == v - v * s + v * s * f.

Lemma chroma_pos : 0 < v * s.
Proof. nra. Qed.

Lemma chroma_part : 0 <= v * s * f /\ v * s * f < v * s.
Proof. pose proof chroma_pos. split; nra. Qed.

(** The way back from one sector: [r g b] is what [hsv_to_rgb] returned,
    [k] the sector. *)
Ltac open_sector r g b :=
  let h' := fresh "h'" in
  let s' := fresh "s'" in
  let Hrun := fresh "Hrun" in
  let Hcases := fresh "Hcases" in
  let HM := fresh "HM" in
  let Hm := fresh "Hm" in
  let Hs' := fresh "Hs'" in
  pose proof chroma_pos; destruct chroma_part as (? & ?);
  destruct (rgb_to_hsv_spec r g b) as (h' & s' & Hrun & Hcases);
  destruct (max3_spec r g b) as (? & ? & ? & ?);
  destruct (min3_spec r g b) as (? & ? & ? & ?);
  rewrite Hrun; clear Hrun;
  generalize dependent (max3 r g b); intros M;
  generalize dependent (min3 r g b); intros m; intros;
  assert (HM : M == v) by lra; assert (Hm : m == p) by lra;
  unfold triple_eq; cbn [fst snd];
  destruct Hcases
    as [(? & _) | (? & Hs' & [(? & ?) | [(? & ? & ?) | (? & ? & ?)]])];
  [ exfalso; lra | | | ];
  (split; [| split; [subst s'; rewrite HM, Hm, Hp; field; lra | exact HM]]);
  subst h'.

Ltac absurd_branch :=
  exfalso;
  first [ lra
        | match goal with H : ~ _ == _ |- _ => apply H; lra end ].

Ltac hue_is c z :=
  match goal with
  | HM : ?M == v, Hm : ?m == p |- py_mod (?X / 6) 1 == _ =>
      let HX := fresh "HX" in
      assert (HX : X == c)
        by (rewrite ?HM, ?Hm, ?Hp, ?Hq, ?Ht; field; lra);
      rewrite HX;
      rewrite (sixth c (h + inject_Z z)) by (unfold inject_Z; lra);
      apply py_mod_1_shift; lra
  end.

Lemma back_sector_0 :
  h * 6 == 0 + f -> triple_eq (rgb_to_hsv (v, t, p)) (h, s, v).
Proof.
  intros Hh. open_sector v t p.
  - hue_is f 0%Z.
  - absurd_branch.
  - absurd_branch.
Qed.

Lemma sector_edge : q == v -> f == 0.
Proof.
  intros Hqv. pose proof chroma_pos. assert (Hz : v * s * f == 0) by lra.
  destruct (Qlt_le_dec 0 f) as [Hpos | Hle]; [| lra].
  exfalso. nra.
Qed.

Lemma back_sector_1 :
  h * 6 == 1 + f -> triple_eq (rgb_to_hsv (q, v, p)) (h, s, v).
Proof.
  intros Hh. open_sector q v p.
  - assert (Hfz : f == 0) by (apply sector_edge; lra).
    hue_is 1 0%Z.
  - hue_is (1 + f) 0%Z.
  - absurd_branch.
Qed.

Lemma back_sector_2 :
  h * 6 == 2 + f -> triple_eq (rgb_to_hsv (p, v, t)) (h, s, v).
Proof.
  intros Hh. open_sector p v t.
  - absurd_branch.
  - hue_is (2 + f) 0%Z.
  - absurd_branch.
Qed.

Lemma back_sector_3 :
  h * 6 == 3 + f -> triple_eq (rgb_to_hsv (p, q, v)) (h, s, v).
Proof.
  intros Hh. open_sector p q v.
  - absurd_branch.
  - assert (Hfz : f == 0) by (apply sector_edge; lra).
    hue_is 3 0%Z.
  - hue_is (3 + f) 0%Z.
Qed.

Lemma back_sector_4 :
  h * 6 == 4 + f -> triple_eq (rgb_to_hsv (t, p, v)) (h, s, v).
Proof.
  intros Hh. open_sector t p v.
  - absurd_branch.
  - absurd_branch.
  - hue_is (4 + f) 0%Z.
Qed.

Lemma back_sector_5 :
  h * 6 == 5 + f -> triple_eq (rgb_to_hsv (v, p, q)) (h, s, v).
Proof.
  intros Hh. open_sector v p q.
  - hue_is (f - 1) (-1)%Z.
  - absurd_branch.
  - absurd_branch.
Qed.

End RoundTrip.

(** [rgb_to_hsv] undoes [hsv_to_rgb] on a hue in [0, 1) with positive
    saturation and value. *)
Lemma hsv_round_trip (h s v : Q) :
  0 <= h -> h < 1 -> 0 < s -> 0 < v ->
  triple_eq (rgb_to_hsv (hsv_to_rgb (h, s, v))) (h, s, v).
Proof.
  intros Hh0 Hh1 Hs Hv.
  destruct (hsv_to_rgb_sector h s v Hh0 Hh1 ltac:(lra))
    as (i & f & p & q & t & Hi & Hf0 & Hf1 & Hh & Hp & Hq & Ht & Hrgb).
  rewrite Hrgb. clear Hrgb.
  assert (Hp' : p == v - v * s) by (rewrite Hp; ring).
  assert (Hq' : q == v - v * s * f) by (rewrite Hq; ring).
  assert (Ht' : t == v - v * s + v * s * f) by (rewrite Ht; ring).
  clear Hp Hq Ht.
  assert (Hcase : (i = 0 \/ i = 1 \/ i = 2 \/ i = 3 \/ i = 4 \/ i = 5)%Z) by lia.
  destruct Hcase as [-> | [-> | [-> | [-> | [-> | ->]]]]]; cbn [Z.eqb Pos.eqb];
    unfold inject_Z in Hh.
  - apply (back_sector_0 h s v f p t); assumption.
  - apply (back_sector_1 h s v f p q); assumption.
  - apply (back_sector_2 h s v f p t); assumption.
  - apply (back_sector_3 h s v f p q); assumption.
  - apply (back_sector_4 h s v f p t); assumption.
  - apply (back_sector_5 h s v f p q); assumption.
Qed.

(** C7.  For a base colour with channels in [0, 1], the colour returned
    at contrast level 'high' has, read back as HSV, the hue of the base
    plus 0.5 modulo 1, the value 0.95 when the base's value is below 0.5
    and 0.15 otherwise, which is on the other side of 0.5, and the
    saturation max(0.1, half the base's saturation). *)
Theorem contrast_high (r g b : Q) (d : draws) :
  in_unit r -> in_unit g -> in_unit b ->
  let base := rgb_to_hsv (r, g, b) in
  let out := rgb_to_hsv (generate_contrasting_color (r, g, b) "high" d) in
  hue out == py_mod (hue base + (5#10)) 1
  /\ val out == (if Qlt_bool (val base) (5#10) then (95#100) else (15#100))
  /\ sat out == max2 (1#10) (sat base * (5#10))
  /\ (val base < (5#10) -> (5#10) < val out)
  /\ ((5#10) <= val base -> val out < (5#10)).
Proof.
  intros _ _ _ base out.
  assert (Hout : triple_eq out
                   (py_mod (hue base + (5#10)) 1,
                    max2 (1#10) (sat base * (5#10)),
                    if Qlt_bool (val base) (5#10) then (95#100) else (15#100))).
  { unfold out, generate_contrasting_color. fold base.
    destruct base as [[h s] v]. cbn [hue sat val fst snd String.eqb Ascii.eqb Bool.eqb].
    cbv iota beta.
    destruct (py_mod_1_range (h + (5#10))) as (H0 & H1).
    destruct (max2_spec (1#10) (s * (5#10))) as (Hs & _).
    apply hsv_round_trip; try assumption; try lra.
    destruct (Qlt_bool v (5#10)); lra. }
  destruct Hout as (Hh & Hs & Hv). cbn [fst snd] in Hh, Hs, Hv.
  fold (hue out) in Hh. fold (sat out) in Hs. fold (val out) in Hv.
  split; [exact Hh |]. split; [exact Hv |]. split; [exact Hs |].
  rewrite Hv. split.
  - intros Hlt. apply Qlt_bool_iff in Hlt. rewrite Hlt. lra.
  - intros Hge. destruct (Qlt_bool (val base) (5#10)) eqn:E.
    + apply Qlt_bool_iff in E. lra.
    + lra.
Qed.

Lemma contrast_high_witness :
  hue (rgb_to_hsv (generate_contrasting_color (1#2, 1#4, 3#4) "high"
                                              (mkDraws 0 0 0 0 0 0 0)))
  == py_mod (hue (rgb_to_hsv (1#2, 1#4, 3#4)) + (5#10)) 1.
Proof.
  exact (proj1 (contrast_high (1#2) (1#4) (3#4) (mkDraws 0 0 0 0 0 0 0)
                  ltac:(unfold in_unit; lra) ltac:(unfold in_unit; lra)
                  ltac:(unfold in_unit; lra))).
Defined.

(** A violet base, value 0.75: the background is its complement, dark. *)
Example contrast_high_violet :
  rgb_to_hsv (1#2, 1#4, 3#4) = (36864 # 49152, 32 # 48, 3 # 4)
  /\ triple_eq
       (rgb_to_hsv (generate_contrasting_color (1#2, 1#4, 3#4) "high"
                                               (mkDraws 0 0 0 0 0 0 0)))
       (1#4, 1#3, 15#100).
Proof.
  split; [reflexivity |]. vm_compute. repeat split.
Qed.

End PaletteFacts.

(** ** The orbit planner *)

Module OrbitFacts.

Import Orbit.

(** *** The scene properties inside Blender's ranges *)

Lemma set_frame_start_one (scene : scene_state) :
  set_frame_start 1 scene
  = (None, mkScene 1 (if frame_end scene <? 1 then 1 else frame_end scene)
                   (render_fps scene) (orbit_empty scene)).
Proof. reflexivity. Qed.

Lemma c_int_range (v : Z) : INT_MIN <= v <= INT_MAX -> c_int v = true.
Proof.
  intros H. unfold c_int. apply andb_true_intro. split; apply Z.leb_le; lia.
Qed.

Lemma clamp_inside (lo hi v : Z) : lo <= v <= hi -> clamp lo hi v = v.
Proof. intros H. unfold clamp. lia. Qed.

Lemma set_frame_end_in_range (v : Z) (scene : scene_state) :
  1 <= v <= MAXFRAME ->
  frame_start scene = 1 ->
  set_frame_end v scene
  = (None, mkScene 1 v (render_fps scene) (orbit_empty scene)).
Proof.
  intros Hv Hs. unfold set_frame_end.
  rewrite c_int_range by (unfold INT_MIN, INT_MAX, MAXFRAME in *; lia).
  cbv zeta. rewrite clamp_inside by (unfold MINFRAME; lia).
  rewrite Hs. destruct (Z.ltb_spec v 1); [lia | reflexivity].
Qed.

Lemma set_fps_c_int (v : Z) (scene : scene_state) :
  INT_MIN <= v <= INT_MAX ->
  set_fps v scene
  = (None, mkScene (frame_start scene) (frame_end scene) (clamp 1 FPS_MAX v)
                   (orbit_empty scene)).
Proof. intros Hv. unfold set_fps. rewrite c_int_range by exact Hv. reflexivity. Qed.

(** Enter the body of the planner, the three assignments done. *)
Ltac enter_orbit Htf Hfps :=
  unfold animate_camera_orbit;
  rewrite set_frame_start_one;
  rewrite set_frame_end_in_range by (first [exact Htf | reflexivity | lia]);
  rewrite set_fps_c_int by exact Hfps.

Lemma emitted_planned (total_frames fps : Z) (scene : scene_state) (e : empty_object) :
  1 <= total_frames <= MAXFRAME ->
  INT_MIN <= fps <= INT_MAX ->
  orbit_empty scene = Some e ->
  emitted (animate_camera_orbit total_frames fps scene) = (inserted e ++ planned total_frames)%list.
Proof.
  intros Htf Hfps He. enter_orbit Htf Hfps. unfold emitted. cbn [orbit_empty].
  rewrite He. cbn.
  repeat rewrite <- app_assoc. cbn. unfold planned.
  replace (total_frames / 6 * 1) with (1 * (total_frames / 6)) by ring.
  replace (total_frames / 6 * 2) with (2 * (total_frames / 6)) by ring.
  replace (total_frames / 6 * 3) with (3 * (total_frames / 6)) by ring.
  replace (total_frames / 6 * 4) with (4 * (total_frames / 6)) by ring.
  replace (total_frames / 6 * 5) with (5 * (total_frames / 6)) by ring.
  replace (total_frames / 6 * 6) with (6 * (total_frames / 6)) by ring.
  reflexivity.
Qed.

Lemma animate_without_empty (total_frames fps : Z) (scene : scene_state) :
  1 <= total_frames <= MAXFRAME ->
  INT_MIN <= fps <= INT_MAX ->
  orbit_empty scene = None ->
  exists msg,
    animate_camera_orbit total_frames fps scene
    = (Some (ValueError msg), mkScene 1 total_frames (clamp 1 FPS_MAX fps) None).
Proof.
  intros Htf Hfps He. enter_orbit Htf Hfps. cbn [orbit_empty]. rewrite He.
  eexists. reflexivity.
Qed.

Lemma animate_with_empty (total_frames fps : Z) (scene : scene_state)
    (e : empty_object) :
  1 <= total_frames <= MAXFRAME ->
  INT_MIN <= fps <= INT_MAX ->
  orbit_empty scene = Some e ->
  exists e',
    animate_camera_orbit total_frames fps scene
    = (None, mkScene 1 total_frames (clamp 1 FPS_MAX fps) (Some e')).
Proof.
  intros Htf Hfps He. enter_orbit Htf Hfps. cbn [orbit_empty]. rewrite He.
  eexists. reflexivity.
Qed.

(** An assignment that does not fit a C int ends the call at once. *)
Lemma animate_beyond_int (total_frames fps : Z) (scene : scene_state) :
  INT_MAX < total_frames ->
  exists msg,
    animate_camera_orbit total_frames fps scene
    = (Some (ValueError msg),
       mkScene 1 (if frame_end scene <? 1 then 1 else frame_end scene)
               (render_fps scene) (orbit_empty scene)).
Proof.
  intros Htf. unfold animate_camera_orbit. rewrite set_frame_start_one.
  unfold set_frame_end, c_int.
  destruct (Z.leb_spec total_frames INT_MAX) as [H | H]; [lia |].
  rewrite andb_false_r. eexists. reflexivity.
Qed.

Lemma insert_point_nil (frame : Z) (v : euler) :
  insert_point frame v [] = [mkPoint frame v BEZIER].
Proof. reflexivity. Qed.

Lemma insert_point_before (frame : Z) (v : euler) (p : keyframe_point)
    (rest : list keyframe_point) :
  frame < kp_frame p ->
  insert_point frame v (p :: rest) = mkPoint frame v BEZIER :: p :: rest.
Proof.
  intros H. cbn. destruct (Z.ltb_spec frame (kp_frame p)); [reflexivity | lia].
Qed.

Lemma insert_point_same (frame : Z) (v : euler) (p : keyframe_point)
    (rest : list keyframe_point) :
  frame = kp_frame p ->
  insert_point frame v (p :: rest) = mkPoint frame v (kp_interpolation p) :: rest.
Proof.
  intros H. cbn. destruct (Z.ltb_spec frame (kp_frame p)); [lia |].
  destruct (Z.eqb_spec frame (kp_frame p)); [reflexivity | lia].
Qed.

Lemma insert_point_after (frame : Z) (v : euler) (p : keyframe_point)
    (rest : list keyframe_point) :
  kp_frame p < frame ->
  insert_point frame v (p :: rest) = p :: insert_point frame v rest.
Proof.
  intros H. cbn. destruct (Z.ltb_spec frame (kp_frame p)); [lia |].
  destruct (Z.eqb_spec frame (kp_frame p)); [lia | reflexivity].
Qed.

(** Place every insertion, the comparisons being settled by arithmetic. *)
Ltac place_points :=
  repeat first
    [ rewrite insert_point_nil
    | rewrite insert_point_after by (cbn [kp_frame]; lia)
    | rewrite insert_point_same by (cbn [kp_frame]; lia)
    | rewrite insert_point_before by (cbn [kp_frame]; lia) ].

Lemma curve_shape (total_frames fps : Z) (scene : scene_state) :
  6 <= total_frames <= MAXFRAME ->
  INT_MIN <= fps <= INT_MAX ->
  camera_ready scene ->
  let r := animate_camera_orbit total_frames fps scene in
  List.length (curve r) = expected_points total_frames
  /\ last (curve r) (mkPoint 0 (0, 0, 0) BEZIER)
     = mkPoint total_frames (360, 360, 360) LINEAR
  /\ Forall (fun p => kp_interpolation p = LINEAR) (curve r).
Proof.
  intros Hge Hfps Hready. unfold camera_ready in Hready.
  assert (Htf : 1 <= total_frames <= MAXFRAME) by lia.
  enter_orbit Htf Hfps. unfold expected_points, curve. cbn [orbit_empty snd].
  rewrite Hready.
  pose proof (Z.div_mod total_frames 6 ltac:(lia)) as Hdm.
  pose proof (Z.mod_pos_bound total_frames 6 ltac:(lia)) as Hmod.
  set (m := total_frames mod 6) in *.
  set (f := total_frames / 6) in *.
  assert (Hf : 1 <= f) by lia.
  cbn -[Z.mul Z.add Z.ltb Z.eqb insert_point].
  destruct (Z.eqb_spec total_frames 6) as [H6 | H6];
    [ assert (f = 1) by lia
    | destruct (Z.ltb_spec total_frames 12) as [H12 | H12];
      [ assert (f = 1) by lia
      | destruct (Z.eqb_spec m 0) as [Hm | Hm] ] ];
    place_points; cbn -[Z.mul Z.add]; repeat split; repeat constructor.
Qed.

(** C1, as stated, fails: it speaks of every [total_frames >= 6], but a
    frame count that does not fit a C int, 2^31 for one, makes the
    assignment to [scene.frame_end] raise ValueError before any keyframe
    is inserted. *)
Lemma orbit_keyframes_int_range_counterexample :
  6 <= 2147483648
  /\ camera_ready ready_scene
  /\ (exists msg, fst (animate_camera_orbit 2147483648 10 ready_scene)
                  = Some (ValueError msg))
  /\ emitted (animate_camera_orbit 2147483648 10 ready_scene) = [].
Proof.
  split; [lia |]. split; [reflexivity |].
  destruct (animate_beyond_int 2147483648 10 ready_scene) as (msg & H);
    [unfold INT_MAX; lia |].
  rewrite H. split; [exists msg; reflexivity | reflexivity].
Qed.

(** C1, amended.  For every [total_frames] from 6 up to Blender's last
    frame and every [fps] that fits a C int, on a scene whose camera is
    set up, the planner raises nothing and emits, in this order: frame 1
    with rotation (0,0,0); for k = 1..6 frame [k * (total_frames // 6)]
    with the running rotations (0,0,60), (60,0,120), (120,0,120),
    (180,60,120), (180,120,120), (180,180,180); and frame [total_frames]
    with rotation (360,360,360).  For 750 frames the curve has its points
    at frames 1, 125, 250, 375, 500, 625 and 750. *)
Theorem orbit_keyframes_exact (total_frames fps : Z) (scene : scene_state) :
  6 <= total_frames <= MAXFRAME ->
  INT_MIN <= fps <= INT_MAX ->
  camera_ready scene ->
  fst (animate_camera_orbit total_frames fps scene) = None
  /\ emitted (animate_camera_orbit total_frames fps scene) =
    [ (1, (0, 0, 0));
      (1 * (total_frames / 6), (0, 0, 60));
      (2 * (total_frames / 6), (60, 0, 120));
      (3 * (total_frames / 6), (120, 0, 120));
      (4 * (total_frames / 6), (180, 60, 120));
      (5 * (total_frames / 6), (180, 120, 120));
      (6 * (total_frames / 6), (180, 180, 180));
      (total_frames, (360, 360, 360)) ]
  /\ (total_frames = 750 ->
      map kp_frame (curve (animate_camera_orbit total_frames fps scene))
      = [1; 125; 250; 375; 500; 625; 750]).
Proof.
  intros Hge Hfps Hready.
  assert (Htf : 1 <= total_frames <= MAXFRAME) by lia.
  split; [| split].
  - destruct (animate_with_empty total_frames fps scene fresh_empty Htf Hfps Hready)
      as (e' & ->). reflexivity.
  - rewrite (emitted_planned total_frames fps scene fresh_empty Htf Hfps Hready).
    reflexivity.
  - intros ->. unfold camera_ready in Hready.
    enter_orbit Htf Hfps. unfold curve. cbn [orbit_empty snd]. rewrite Hready.
    reflexivity.
Qed.

Lemma orbit_keyframes_exact_witness :
  emitted (animate_camera_orbit 750 10 ready_scene) =
    [ (1, (0, 0, 0)); (125, (0, 0, 60)); (250, (60, 0, 120));
      (375, (120, 0, 120)); (500, (180, 60, 120)); (625, (180, 120, 120));
      (750, (180, 180, 180)); (750, (360, 360, 360)) ].
Proof.
  exact (proj1 (proj2 (orbit_keyframes_exact 750 10 ready_scene
                         ltac:(unfold MAXFRAME; lia)
                         ltac:(unfold INT_MIN, INT_MAX; lia)
                         ltac:(reflexivity)))).
Defined.

(** C2, as stated, fails: with 50 frames the planner makes eight
    insertions and leaves eight points on the curve, not seven. *)
Lemma orbit_seven_points_counterexample :
  6 <= 50
  /\ camera_ready ready_scene
  /\ List.length (emitted (animate_camera_orbit 50 10 ready_scene)) <> 7%nat
  /\ List.length (curve (animate_camera_orbit 50 10 ready_scene)) <> 7%nat.
Proof.
  repeat split; try lia; cbn; discriminate.
Qed.

(** C2, amended.  For every [total_frames] from 6 up to Blender's last
    frame and every [fps] that fits a C int, the planner raises nothing
    and makes exactly eight insertions, the last at frame [total_frames]
    with rotation (360,360,360).  The curve it leaves ends in that point and has seven
    points when [total_frames] is a multiple of 6 and at least 12 (the
    last insertion replaces segment 6's point), eight when
    [total_frames >= 12] is not a multiple of 6 (segment 6's point stays
    at [6 * (total_frames // 6) < total_frames]), seven for 7..11 and six
    for 6 (segment 1's insertion lands on frame 1). *)
Theorem orbit_point_count (total_frames fps : Z) (scene : scene_state) :
  6 <= total_frames <= MAXFRAME ->
  INT_MIN <= fps <= INT_MAX ->
  camera_ready scene ->
  let r := animate_camera_orbit total_frames fps scene in
  fst r = None
  /\ List.length (emitted r) = 8%nat
  /\ last (emitted r) (0, (0, 0, 0)) = (total_frames, (360, 360, 360))
  /\ last (curve r) (mkPoint 0 (0, 0, 0) BEZIER)
     = mkPoint total_frames (360, 360, 360) LINEAR
  /\ List.length (curve r) =
       (if total_frames =? 6 then 6%nat
        else if (total_frames <? 12) || (total_frames mod 6 =? 0) then 7%nat
        else 8%nat)
  /\ (total_frames mod 6 <> 0 ->
      nth 6 (emitted r) (0, (0, 0, 0))
      = (6 * (total_frames / 6), (180, 180, 180))
      /\ 6 * (total_frames / 6) < total_frames).
Proof.
  intros Hge Hfps Hready r.
  assert (Htf : 1 <= total_frames <= MAXFRAME) by lia.
  destruct (curve_shape total_frames fps scene Hge Hfps Hready)
    as (Hlen & Hlast & _).
  assert (Hem : emitted r = planned total_frames).
  { unfold r.
    rewrite (emitted_planned total_frames fps scene fresh_empty Htf Hfps Hready).
    reflexivity. }
  rewrite Hem. split.
  { unfold r.
    destruct (animate_with_empty total_frames fps scene fresh_empty Htf Hfps Hready)
      as (e' & ->). reflexivity. }
  repeat split; try assumption.
  pose proof (Z.div_mod total_frames 6 ltac:(lia)).
  pose proof (Z.mod_pos_bound total_frames 6 ltac:(lia)). lia.
Qed.

Lemma orbit_point_count_witness :
  List.length (curve (animate_camera_orbit 50 10 ready_scene)) = 8%nat.
Proof.
  exact (proj1 (proj2 (proj2 (proj2 (proj2
           (orbit_point_count 50 10 ready_scene
              ltac:(unfold MAXFRAME; lia) ltac:(unfold INT_MIN, INT_MAX; lia)
              ltac:(reflexivity))))))).
Defined.

End OrbitFacts.

(** ** The job store *)

Module StoreFacts.

Import Store Samples.

(** *** [update_render_job] *)

Lemma map_id_when {A : Type} (test : A -> bool) (g : A -> A) (l : list A) :
  (forall x, In x l -> test x = false) ->
  map (fun x => if test x then g x else x) l = l.
Proof.
  induction l as [| a l IH]; intros H; cbn; [reflexivity |].
  rewrite (H a (or_introl eq_refl)). f_equal. apply IH.
  intros x Hx. apply H. right. exact Hx.
Qed.

Lemma find_map_preserved {A B : Type} (test : A -> bool) (proj : A -> B)
    (g : A -> A) (l : list A) :
  (forall x, test (g x) = test x) ->
  (forall x, proj (g x) = proj x) ->
  option_map proj (find test (map (fun x => if test x then g x else x) l))
  = option_map proj (find test l).
Proof.
  intros Ht Hp. induction l as [| a l IH]; cbn; [reflexivity |].
  destruct (test a) eqn:Ea.
  - rewrite Ht, Ea. cbn. f_equal. apply Hp.
  - rewrite Ea. exact IH.
Qed.

(** The subquery sees the same owner before and after the job's row is
    rewritten. *)
Lemma owner_after_update (d : db) (now job_id : Z) (status : string)
    (output_path : option string) (render_duration : option Z)
    (error_message : option string) :
  let jobs :=
    map (fun j =>
           if rj_id j =? job_id
           then mkJob (rj_id j) (rj_stl_file_id j) output_path
                      (rj_object_color j) (rj_background_color j)
                      (Some now) render_duration status error_message
           else j)
        (render_jobs d) in
  owner_of (mkDb (stl_files d) jobs (stl_files_seq d) (render_jobs_seq d)) job_id
  = owner_of d job_id.
Proof.
  intros jobs. unfold owner_of, job_by_id. cbn [render_jobs].
  pose proof (find_map_preserved (fun j => rj_id j =? job_id) rj_stl_file_id
                (fun j => mkJob (rj_id j) (rj_stl_file_id j) output_path
                                (rj_object_color j) (rj_background_color j)
                                (Some now) render_duration status error_message)
                (render_jobs d) (fun _ => eq_refl) (fun _ => eq_refl)) as H.
  subst jobs.
  assert (Hflat : forall o : option render_job,
             match o with Some j => rj_stl_file_id j | None => None end
             = match option_map rj_stl_file_id o with Some x => x | None => None end)
    by (intros [j |]; reflexivity).
  rewrite 2 Hflat, H. reflexivity.
Qed.

Lemma update_completed_files (d : db) (now job_id : Z)
    (output_path : option string) (render_duration : option Z)
    (error_message : option string) :
  exists d',
    update_render_job now job_id "completed" output_path render_duration
                      error_message d = inr d'
    /\ stl_files d' =
         map (fun f => if sql_eq (sf_id f) (owner_of d job_id)
                       then set_file_status "completed" f else f)
             (stl_files d).
Proof.
  eexists. split; [reflexivity |].
  cbn [String.eqb Ascii.eqb Bool.eqb stl_files].
  cbv beta iota. cbn [stl_files].
  rewrite owner_after_update. reflexivity.
Qed.

Lemma sql_eq_spec (id : Z) (x : option Z) :
  sql_eq id x = true <-> Some id = x.
Proof.
  destruct x as [y |]; cbn.
  - rewrite Z.eqb_eq. split; [intros -> | intros [= ->]]; reflexivity.
  - split; discriminate.
Qed.

Lemma find_none_all {A : Type} (test : A -> bool) (l : list A) :
  find test l = None -> forall x, In x l -> test x = false.
Proof. intros H x Hx. exact (find_none test l H x Hx). Qed.

(** C3.  For an existing job, [update_render_job] with status
    'completed' sets the status of the file the job belongs to to
    'completed' and leaves every other row of [stl_files] as it was; with
    status 'failed' it leaves the whole table as it was. *)
Theorem update_job_cascade (d : db) (now job_id : Z) (j : render_job)
    (output_path : option string) (render_duration : option Z)
    (error_message : option string) :
  job_by_id d job_id = Some j ->
  (exists d',
      update_render_job now job_id "completed" output_path render_duration
                        error_message d = inr d'
      /\ List.length (stl_files d') = List.length (stl_files d)
      /\ forall i f,
           nth_error (stl_files d) i = Some f ->
           exists f',
             nth_error (stl_files d') i = Some f'
             /\ (Some (sf_id f) = rj_stl_file_id j ->
                 f' = set_file_status "completed" f
                 /\ sf_status f' = "completed"%string)
             /\ (Some (sf_id f) <> rj_stl_file_id j -> f' = f))
  /\ (exists d',
        update_render_job now job_id "failed" output_path render_duration
                          error_message d = inr d'
        /\ stl_files d' = stl_files d).
Proof.
  intros Hj. split.
  - destruct (update_completed_files d now job_id output_path render_duration
                error_message) as (d' & Hrun & Hfiles).
    exists d'. split; [exact Hrun |].
    assert (Howner : owner_of d job_id = rj_stl_file_id j)
      by (unfold owner_of; rewrite Hj; reflexivity).
    rewrite Hfiles, Howner. split; [apply length_map |].
    intros i f Hi. rewrite nth_error_map, Hi. cbn.
    eexists. split; [reflexivity |]. split.
    + intros Hown. apply sql_eq_spec in Hown. rewrite Hown.
      split; reflexivity.
    + intros Hother. destruct (sql_eq (sf_id f) (rj_stl_file_id j)) eqn:E;
        [apply sql_eq_spec in E; contradiction | reflexivity].
  - eexists. split; reflexivity.
Qed.

Lemma update_job_cascade_witness :
  job_by_id sample_db 1 = Some
    (mkJob 1 (Some 2) None (0, 0, 0)%Q (1, 1, 1)%Q None None "pending" None)
  /\ (exists d',
        update_render_job 200 1 "failed" None None (Some "boom"%string) sample_db
        = inr d'
        /\ stl_files d' = stl_files sample_db).
Proof.
  split; [reflexivity |].
  exact (proj2 (update_job_cascade sample_db 200 1 _ None None
                  (Some "boom"%string) eq_refl)).
Defined.

(** C5, as stated, fails: updating a job id that no row carries returns
    normally. *)
Lemma update_unknown_job_counterexample :
  job_by_id sample_db 7 = None
  /\ forall e, update_render_job 200 7 "failed" None None (Some "boom"%string)
                                sample_db <> inl e.
Proof.
  split; [reflexivity | intros e; discriminate].
Qed.

(** C5, amended.  For every job id in SQLite's integer range that no
    row of [render_jobs] carries, [update_render_job] returns normally,
    whatever the status, and the stored state is unchanged. *)
Theorem update_unknown_job_noop (d : db) (now job_id : Z) (status : string)
    (output_path : option string) (render_duration : option Z)
    (error_message : option string) :
  INT64_MIN <= job_id <= INT64_MAX ->
  job_by_id d job_id = None ->
  update_render_job now job_id status output_path render_duration
                    error_message d = inr d.
Proof.
  intros _ Hnone. unfold update_render_job.
  assert (Hjobs :
            map (fun j =>
                   if rj_id j =? job_id
                   then mkJob (rj_id j) (rj_stl_file_id j) output_path
                              (rj_object_color j) (rj_background_color j)
                              (Some now) render_duration status error_message
                   else j) (render_jobs d) = render_jobs d).
  { apply (map_id_when (fun j => rj_id j =? job_id)).
    exact (find_none_all _ _ Hnone). }
  rewrite Hjobs.
  assert (Hsame : mkDb (stl_files d) (render_jobs d) (stl_files_seq d)
                       (render_jobs_seq d) = d) by (destruct d; reflexivity).
  rewrite Hsame.
  destruct (String.eqb status "completed"); [| reflexivity].
  unfold owner_of. rewrite Hnone. cbn [sql_eq].
  rewrite map_id.
  rewrite Hsame. reflexivity.
Qed.

Lemma update_unknown_job_noop_witness :
  job_by_id sample_db 7 = None
  /\ update_render_job 200 7 "completed" (Some "out.mp4"%string) (Some 12) None
                       sample_db = inr sample_db.
Proof.
  split; [reflexivity |].
  apply (update_unknown_job_noop sample_db 200 7);
    [unfold INT64_MIN, INT64_MAX; lia | reflexivity].
Defined.

(** *** [add_stl_file] *)

Lemma find_app_last {A : Type} (test : A -> bool) (l : list A) (x : A) :
  find test l = None ->
  find test (l ++ [x]) = if test x then Some x else None.
Proof.
  induction l as [| a l IH]; cbn; [reflexivity |].
  destruct (test a); [discriminate | exact IH].
Qed.


(** A registration under a name the table already holds changes no row
    and returns the id of the row found; the counter moves on. *)
Lemma add_stl_file_known (d : db) (fs : Fs.t) (now : Z) (p : Fs.Path) (sz : Z)
    (f : stl_file) :
  Fs.stat_size fs p = Some sz ->
  file_by_name d (Fs.name p) = Some f ->
  add_stl_file fs now p d = inr (Some (sf_id f), ignored_insert d).
Proof.
  intros Hsz Hf. unfold add_stl_file, insert_or_ignore_file.
  rewrite Hsz, Hf. cbv zeta.
  change (file_by_name (ignored_insert d) (Fs.name p))
    with (file_by_name d (Fs.name p)).
  rewrite Hf. reflexivity.
Qed.





(** *** [get_pending_files] *)

Lemma insert_by_date_perm (f : stl_file) (l : list stl_file) :
  Permutation (f :: l) (insert_by_date f l).
Proof.
  induction l as [| g l IH]; cbn; [apply Permutation_refl |].
  destruct (sf_added_date f <? sf_added_date g); [apply Permutation_refl |].
  apply perm_trans with (g :: f :: l); [apply perm_swap |].
  apply perm_skip. exact IH.
Qed.

Lemma insert_by_date_hd (f a : stl_file) (l : list stl_file) :
  older_or_same a f ->
  HdRel older_or_same a l ->
  HdRel older_or_same a (insert_by_date f l).
Proof.
  intros Haf Hl. destruct l as [| g l]; cbn.
  - constructor. exact Haf.
  - destruct (sf_added_date f <? sf_added_date g).
    + constructor. exact Haf.
    + constructor. inversion Hl; assumption.
Qed.

Lemma insert_by_date_sorted (f : stl_file) (l : list stl_file) :
  Sorted older_or_same l -> Sorted older_or_same (insert_by_date f l).
Proof.
  induction l as [| g l IH]; intros Hs; cbn.
  - repeat constructor.
  - destruct (Z.ltb_spec (sf_added_date f) (sf_added_date g)) as [Hlt | Hge].
    + constructor; [exact Hs |]. constructor. unfold older_or_same. lia.
    + inversion Hs as [| ? ? Hs' Hhd]; subst.
      constructor; [apply IH; exact Hs' |].
      apply insert_by_date_hd; [unfold older_or_same; lia | exact Hhd].
Qed.

Lemma order_by_added_date_spec (l : list stl_file) :
  Sorted older_or_same (order_by_added_date l)
  /\ Permutation l (order_by_added_date l).
Proof.
  unfold order_by_added_date.
  assert (H : forall acc,
             Sorted older_or_same acc ->
             Sorted older_or_same
               (fold_left (fun acc f => insert_by_date f acc) l acc)
             /\ Permutation (l ++ acc)
                  (fold_left (fun acc f => insert_by_date f acc) l acc)).
  { induction l as [| f l IH]; intros acc Hacc; cbn.
    - split; [exact Hacc | apply Permutation_refl].
    - destruct (IH (insert_by_date f acc) (insert_by_date_sorted f acc Hacc))
        as (Hs & Hp).
      split; [exact Hs |].
      eapply perm_trans; [| exact Hp].
      apply perm_trans with (l ++ f :: acc);
        [apply Permutation_middle |].
      apply Permutation_app_head. apply insert_by_date_perm. }
  destruct (H [] (Sorted_nil _)) as (Hs & Hp).
  rewrite app_nil_r in Hp. split; assumption.
Qed.

Lemma firstn_sorted (n : nat) (l : list stl_file) :
  Sorted older_or_same l -> Sorted older_or_same (firstn n l).
Proof.
  revert l. induction n as [| n IH]; intros l Hs; cbn; [constructor |].
  destruct l as [| a l]; [constructor |].
  inversion Hs as [| ? ? Hs' Hhd]; subst.
  constructor; [apply IH; exact Hs' |].
  destruct l as [| b l]; destruct n; cbn; constructor.
  inversion Hhd; assumption.
Qed.

Lemma firstn_In {A : Type} (n : nat) (l : list A) (x : A) :
  In x (firstn n l) -> In x l.
Proof.
  revert l. induction n as [| n IH]; intros l H; cbn in H; [contradiction |].
  destruct l as [| a l]; [contradiction |].
  destruct H as [-> | H]; [left; reflexivity | right; apply IH; exact H].
Qed.

(** What [get_pending_files] returns is a prefix of the pending rows in
    date order: the whole of it unless a limit above zero cuts it. *)
Lemma get_pending_files_prefix (limit : option Z) (d : db) :
  exists n,
    get_pending_files limit d =
    firstn n (order_by_added_date
                (filter (fun f => String.eqb (sf_status f) "pending") (stl_files d))).
Proof.
  unfold get_pending_files.
  set (rows := order_by_added_date _).
  destruct limit as [k |]; cbn.
  - destruct (k =? 0); cbn.
    + exists (List.length rows). symmetry. apply firstn_all.
    + unfold sql_limit. destruct (k <? 0).
      * exists (List.length rows). symmetry. apply firstn_all.
      * exists (Z.to_nat k). reflexivity.
  - exists (List.length rows). symmetry. apply firstn_all.
Qed.

(** Only pending rows of the table are returned, oldest first. *)
Lemma get_pending_files_sound (limit : option Z) (d : db) :
  Sorted older_or_same (get_pending_files limit d)
  /\ forall f, In f (get_pending_files limit d) ->
               In f (stl_files d) /\ sf_status f = "pending"%string.
Proof.
  destruct (get_pending_files_prefix limit d) as (n & ->).
  destruct (order_by_added_date_spec
              (filter (fun f => String.eqb (sf_status f) "pending") (stl_files d)))
    as (Hs & Hp).
  split; [apply firstn_sorted; exact Hs |].
  intros f Hf. apply firstn_In in Hf.
  apply (Permutation_in _ (Permutation_sym Hp)) in Hf.
  apply filter_In in Hf. destruct Hf as (Hin & Hst).
  split; [exact Hin | apply String.eqb_eq; exact Hst].
Qed.

(** A limit above zero caps the result. *)
Lemma get_pending_files_capped (k : Z) (d : db) :
  0 < k ->
  Z.of_nat (List.length (get_pending_files (Some k) d)) <= k.
Proof.
  intros Hk. unfold get_pending_files, truthy, sql_limit.
  destruct (Z.eqb_spec k 0); [lia |]. cbn.
  destruct (Z.ltb_spec k 0); [lia |].
  rewrite length_firstn. lia.
Qed.

(** Without a limit every pending row is returned. *)
Lemma get_pending_files_unbounded (d : db) :
  Permutation (filter (fun f => String.eqb (sf_status f) "pending") (stl_files d))
              (get_pending_files None d).
Proof.
  unfold get_pending_files. cbn. apply order_by_added_date_spec.
Qed.

(** C6 at the limit 0: both pending files of [sample_db] are returned,
    the older first, although the limit asks for none. *)
Theorem get_pending_files_limit_zero :
  get_pending_files (Some 0) sample_db =
    [sample_file 2 "cube.stl" 90 "pending"; sample_file 1 "gear.stl" 100 "pending"]
  /\ ~ (Z.of_nat (List.length (get_pending_files (Some 0) sample_db)) <= 0).
Proof.
  split; [reflexivity | cbn; lia].
Qed.

End StoreFacts.

(** ** The file system *)

Module FsFacts.

Lemma read_write_same (fs : Fs.t) (p : Fs.Path) (c : Fs.content) :
  Fs.read (Fs.write fs p c) p = Some c.
Proof.
  induction fs as [| [q c0] fs IH]; cbn.
  - rewrite String.eqb_refl. reflexivity.
  - destruct (String.eqb q p) eqn:E; cbn.
    + rewrite String.eqb_refl. reflexivity.
    + rewrite E. exact IH.
Qed.

Lemma read_write_other (fs : Fs.t) (p q : Fs.Path) (c : Fs.content) :
  q <> p ->
  Fs.read (Fs.write fs p c) q = Fs.read fs q.
Proof.
  intros Hne. induction fs as [| [r c0] fs IH]; cbn.
  - destruct (String.eqb_spec p q); [congruence | reflexivity].
  - destruct (String.eqb_spec r p) as [-> | Hrp]; cbn.
    + destruct (String.eqb_spec p q); [congruence | reflexivity].
    + destruct (String.eqb r q); [reflexivity | exact IH].
Qed.

Lemma append_cancel (a x y : string) :
  (a ++ x)%string = (a ++ y)%string -> x = y.
Proof.
  induction a as [| c a IH]; cbn; intros H; [exact H |].
  injection H as H. apply IH. exact H.
Qed.

(** The temporary video and the final video of a stem are different
    paths. *)
Lemma temp_video_distinct (dir : Fs.Path) (stem : string) :
  Fs.join dir (stem ++ "_temp.mp4") <> Fs.join dir (stem ++ ".mp4").
Proof.
  unfold Fs.join. intros H.
  apply append_cancel in H. injection H as H.
  apply append_cancel in H. discriminate.
Qed.

End FsFacts.

(** ** The compositor and the orchestrator *)

Module PipelineFacts.

Import Mon Pipeline Samples.

(** *** Computations that start no file and lose no job *)

Lemma extends_refl (w : world) : extends w w.
Proof. repeat split; auto. Qed.

Lemma extends_trans (w1 w2 w3 : world) :
  extends w1 w2 -> extends w2 w3 -> extends w1 w3.
Proof.
  intros (Hl1 & Hr1 & Hj1) (Hl2 & Hr2 & Hj2). repeat split.
  - rewrite Hl2. exact Hl1.
  - auto.
  - auto.
Qed.

Lemma extends_same (w w' : world) :
  log w' = log w -> requests w' = requests w -> db w' = db w -> extends w w'.
Proof.
  intros Hl Hr Hd. unfold extends. rewrite Hl, Hr, Hd. repeat split; auto.
Qed.

Create HintDb quiet.

Lemma quiet_ret {A : Type} (a : A) : quiet (@ret world A a).
Proof. intros w. apply extends_refl. Qed.

Lemma quiet_raise {A : Type} (e : Exn.exn) : quiet (@raise world A e).
Proof. intros w. apply extends_refl. Qed.

Lemma quiet_get : quiet (@get world).
Proof. intros w. apply extends_refl. Qed.

Lemma quiet_bind {A B : Type} (m : M world A) (k : A -> M world B) :
  quiet m -> (forall a, quiet (k a)) -> quiet (bind m k).
Proof.
  intros Hm Hk w. unfold bind. specialize (Hm w).
  destruct (m w) as [[e | a] w1]; cbn in *; [exact Hm |].
  eapply extends_trans; [exact Hm | apply Hk].
Qed.

Lemma quiet_if {A : Type} (c : bool) (m1 m2 : M world A) :
  quiet m1 -> quiet m2 -> quiet (if c then m1 else m2).
Proof. destruct c; auto. Qed.

Lemma quiet_logger (e : log_entry) :
  (forall n, e <> LogProcessing n) -> quiet (logger e).
Proof.
  intros He w. unfold logger, modify. cbn. repeat split; cbn; auto.
  unfold processing_names. rewrite flat_map_app. cbn.
  destruct e; try (rewrite app_nil_r; reflexivity).
  exfalso. eapply He. reflexivity.
Qed.

Lemma quiet_next_draws : quiet next_draws.
Proof. intros w. apply extends_same; reflexivity. Qed.

Lemma quiet_write (f : world -> Fs.t) :
  quiet (modify (fun w => with_fs (f w) w)).
Proof. intros w. apply extends_same; reflexivity. Qed.

Lemma quiet_unlink (p : Fs.Path) : quiet (unlink p).
Proof.
  intros w. unfold unlink. destruct (Fs.exists_ (fs w) p); cbn;
    [apply extends_same; reflexivity | apply extends_refl].
Qed.

Lemma quiet_shutil_copy (src dst : Fs.Path) : quiet (shutil_copy src dst).
Proof.
  intros w. unfold shutil_copy.
  destruct (Fs.read (fs w) src); cbn; [| apply extends_refl].
  destruct (String.eqb src dst); cbn;
    [apply extends_refl | apply extends_same; reflexivity].
Qed.

Lemma has_job_add_stl_file (fs : Fs.t) (now : Z) (p : Fs.Path) (d d' : Store.db)
    (id : option Z) :
  Store.add_stl_file fs now p d = inr (id, d') ->
  Store.render_jobs d' = Store.render_jobs d.
Proof.
  unfold Store.add_stl_file, Store.insert_or_ignore_file.
  destruct (Fs.stat_size fs p); [| discriminate].
  destruct (Store.file_by_name d (Fs.name p)); intros [= _ <-]; reflexivity.
Qed.

Lemma quiet_db_add_stl_file (p : Fs.Path) : quiet (db_add_stl_file p).
Proof.
  intros w. unfold db_add_stl_file.
  destruct (Store.add_stl_file (fs w) (clock w) p (db w)) as [e | [id d]] eqn:E;
    cbn; [apply extends_refl |].
  repeat split; cbn; auto.
  unfold has_job. rewrite (has_job_add_stl_file _ _ _ _ _ _ E). auto.
Qed.

Lemma quiet_db_create_render_job (file_id : option Z) (oc bc : Palette.rgb) :
  quiet (db_create_render_job file_id oc bc).
Proof.
  intros w. unfold db_create_render_job. cbn. repeat split; cbn; auto.
  intros j (row & Hin & Hid). exists row. split; [| exact Hid].
  apply in_or_app. left. exact Hin.
Qed.

Lemma has_job_update (now job : Z) (status : string) (out : option string)
    (dur : option Z) (err : option string) (d d' : Store.db) (j : Z) :
  Store.update_render_job now job status out dur err d = inr d' ->
  has_job d j -> has_job d' j.
Proof.
  unfold Store.update_render_job. intros [= <-] (row & Hin & Hid).
  set (g := fun j0 : Store.render_job =>
              if Store.rj_id j0 =? job
              then Store.mkJob (Store.rj_id j0) (Store.rj_stl_file_id j0) out
                               (Store.rj_object_color j0)
                               (Store.rj_background_color j0)
                               (Some now) dur status err
              else j0).
  exists (g row). split.
  - destruct (String.eqb status "completed"); cbn; apply in_map; exact Hin.
  - unfold g. destruct (Store.rj_id row =? job); cbn; exact Hid.
Qed.

Lemma quiet_db_update_render_job (job : Z) (status : string)
    (out : option string) (dur : option Z) (err : option string) :
  quiet (db_update_render_job job status out dur err).
Proof.
  intros w. unfold db_update_render_job.
  destruct (Store.update_render_job (clock w) job status out dur err (db w))
    as [e | d] eqn:E; cbn; [apply extends_refl |].
  repeat split; cbn; auto.
  intros j. apply (has_job_update _ _ _ _ _ _ _ _ _ E).
Qed.

Lemma quiet_subprocess_run (blender : render_request -> proc_outcome)
    (rq : render_request) :
  shipped rq -> quiet (subprocess_run blender rq).
Proof.
  intros Hrq w. unfold subprocess_run.
  destruct (blender rq); cbn; repeat split; cbn; auto;
    intros H; apply Forall_app; split; auto.
Qed.

Lemma quiet_create_video_from_frames
    (ffmpeg_frames : Fs.t -> Fs.Path -> Z -> Z -> Z -> Exn.exn + Fs.content)
    (fps : Z) (frames_dir output_path : Fs.Path) (width height : Z) :
  quiet (create_video_from_frames ffmpeg_frames fps frames_dir output_path
                                  width height).
Proof.
  intros w. unfold create_video_from_frames.
  destruct (ffmpeg_frames (fs w) frames_dir width height fps); cbn;
    [apply extends_refl | apply extends_same; reflexivity].
Qed.

#[local] Hint Resolve quiet_ret quiet_raise quiet_get quiet_next_draws
  quiet_write quiet_unlink quiet_shutil_copy quiet_db_add_stl_file
  quiet_db_create_render_job quiet_db_update_render_job
  quiet_create_video_from_frames : quiet.

Lemma quiet_add_random_audio
    (ffmpeg_mux : Fs.t -> Fs.Path -> Fs.Path -> Exn.exn + Fs.content)
    (glob : Fs.t -> Fs.Path -> string -> list Fs.Path)
    (video_path output_path audio_dir : Fs.Path) (pick : nat) :
  quiet (add_random_audio ffmpeg_mux glob video_path output_path audio_dir pick).
Proof.
  unfold add_random_audio. apply quiet_bind; [auto with quiet |].
  intros w.
  match goal with
  | |- quiet (match ?files with _ => _ end) => destruct files
  end.
  - apply quiet_bind; [apply quiet_logger; discriminate |].
    intros _. apply quiet_bind; auto with quiet.
  - intros w1.
    destruct (ffmpeg_mux (fs w1) video_path _); cbn;
      [apply extends_refl | apply extends_same; reflexivity].
Qed.

Lemma quietL_zoom {A : Type} (m : M world A) : quiet m -> quietL (zoom m).
Proof.
  intros Hm [w l]. unfold zoom. cbn. specialize (Hm w).
  destruct (m w) as [r w1]. cbn in *. split; [exact Hm | reflexivity].
Qed.

Lemma quietL_ret {A : Type} (a : A) : quietL (@ret (world * locals) A a).
Proof. intros wl. split; [apply extends_refl | reflexivity]. Qed.

Lemma quietL_raise {A : Type} (e : Exn.exn) : quietL (@raise (world * locals) A e).
Proof. intros wl. split; [apply extends_refl | reflexivity]. Qed.

Lemma quietL_bind {A B : Type} (m : M (world * locals) A)
    (k : A -> M (world * locals) B) :
  quietL m -> (forall a, quietL (k a)) -> quietL (bind m k).
Proof.
  intros Hm Hk wl. unfold bind. destruct (Hm wl) as (He & Hl).
  destruct (m wl) as [[e | a] wl1]; cbn in *; [split; assumption |].
  destruct (Hk a wl1) as (He' & Hl'). split.
  - eapply extends_trans; eassumption.
  - rewrite Hl'. exact Hl.
Qed.

Lemma quietL_if {A : Type} (c : bool) (m1 m2 : M (world * locals) A) :
  quietL m1 -> quietL m2 -> quietL (if c then m1 else m2).
Proof. destruct c; auto. Qed.

Section Collaborators.

Variable blender : render_request -> proc_outcome.
Variable ffmpeg_frames : Fs.t -> Fs.Path -> Z -> Z -> Z -> Exn.exn + Fs.content.
Variable ffmpeg_mux : Fs.t -> Fs.Path -> Fs.Path -> Exn.exn + Fs.content.
Variable glob : Fs.t -> Fs.Path -> string -> list Fs.Path.
Variable script_text : render_request -> Fs.content.
Variable BASE_DIR : Fs.Path.

(** With no audio file in the directory, [add_random_audio] copies a
    readable video to a different output path and returns that path. *)
Lemma add_random_audio_copy (video_path output_path audio_dir : Fs.Path)
    (pick : nat) (w : world) (video : Fs.content) :
  glob (fs w) audio_dir ".mp3" = [] ->
  glob (fs w) audio_dir ".wav" = [] ->
  glob (fs w) audio_dir ".m4a" = [] ->
  Fs.read (fs w) video_path = Some video ->
  video_path <> output_path ->
  exists w',
    add_random_audio ffmpeg_mux glob video_path output_path audio_dir pick w
    = (inr output_path, w')
    /\ fs w' = Fs.write (fs w) output_path video
    /\ db w' = db w
    /\ log w' = (log w ++ [LogNoAudio audio_dir])%list.
Proof.
  intros Hmp3 Hwav Hm4a Hread Hne.
  unfold add_random_audio, bind, get. rewrite Hmp3, Hwav, Hm4a. cbn.
  unfold shutil_copy. cbn. rewrite Hread.
  destruct (String.eqb_spec video_path output_path) as [Heq | _];
    [contradiction |].
  cbn. eexists. repeat split.
Qed.

Lemma generated_script_shipped (stl_path output_dir : Fs.Path)
    (oc bc : Palette.rgb) :
  shipped (_generate_blender_script stl_path output_dir oc bc).
Proof. split; reflexivity. Qed.

Lemma render_stages_quiet (stl_path : Fs.Path) (start_time : Z)
    (palette : Palette.palette) (r : rand_draws) (job : Z) :
  quietL (render_stages blender ffmpeg_frames ffmpeg_mux glob script_text BASE_DIR
                        stl_path start_time palette r job).
Proof.
  unfold render_stages.
  repeat first
    [ apply quietL_bind; [| intros ?]
    | apply quietL_if
    | apply quietL_ret
    | apply quietL_raise
    | apply quietL_zoom ];
    auto with quiet.
  - apply quiet_subprocess_run. apply generated_script_shipped.
  - apply quiet_add_random_audio.
  - apply quiet_logger. discriminate.
Qed.

(** How the [try] body can end: the file was logged as started; a job
    bound in the locals has its row in the store; and the body ends with
    no job bound only by raising while the file cannot be read. *)
Lemma try_block_outcome (stl_path : Fs.Path) (start_time : Z) (w w1 : world)
    (l : locals) (r : Exn.exn + Fs.Path) :
  try_block blender ffmpeg_frames ffmpeg_mux glob script_text BASE_DIR
            stl_path start_time (w, mkLocals None) = (r, (w1, l)) ->
  processing_names (log w1)
  = (processing_names (log w) ++ [Fs.name stl_path])%list
  /\ (Forall shipped (requests w) -> Forall shipped (requests w1))
  /\ match job_id l with
     | Some j => has_job (db w1) j
     | None => Fs.stat_size (fs w) stl_path = None /\ exists e, r = inl e
     end.
Proof.
  unfold try_block, bind, zoom, logger, modify, next_draws, db_add_stl_file,
    db_create_render_job, bind_job_id.
  cbn -[render_stages Store.add_stl_file Store.create_render_job
        Palette.get_color_palette].
  assert (Hstart : forall a b, processing_names (a ++ [LogProcessing b])
                               = (processing_names a ++ [b])%list)
    by (intros; unfold processing_names; rewrite flat_map_app; reflexivity).
  destruct (Store.add_stl_file (fs w) (clock w) stl_path (db w))
    as [e | [file_id d]] eqn:Eadd.
  - cbn. intros [= <- <- <-]. cbn. repeat split; auto.
    + unfold Store.add_stl_file in Eadd.
      destruct (Fs.stat_size (fs w) stl_path); [discriminate | reflexivity].
    + eexists. reflexivity.
  - unfold Store.create_render_job.
    cbn -[render_stages Palette.get_color_palette].
    match goal with
    | |- render_stages _ _ _ _ _ _ _ _ ?pal ?rd ?jb (?w2, ?loc) = _ -> _ =>
        intros Hrun;
        pose proof (render_stages_quiet stl_path start_time pal rd jb (w2, loc))
          as ((Hlog & Hreq & Hjobs) & Hloc)
    end.
    rewrite Hrun in Hlog, Hreq, Hjobs, Hloc. cbn in Hlog, Hreq, Hjobs, Hloc.
    subst l. cbn. repeat split.
    + rewrite Hlog. apply Hstart.
    + exact Hreq.
    + apply Hjobs. unfold has_job.
      eexists. split; [apply in_or_app; right; left; reflexivity | reflexivity].
Qed.

(** Marking an existing job failed is what a later read of the job
    sees, and the files table is not touched. *)
Lemma job_marked_failed (d : Store.db) (now j : Z) (msg : string) :
  has_job d j ->
  exists d' row,
    Store.update_render_job now j "failed" None None (Some msg) d = inr d'
    /\ Store.job_by_id d' j = Some row
    /\ Store.rj_status row = "failed"%string
    /\ Store.rj_error_message row = Some msg
    /\ Store.stl_files d' = Store.stl_files d.
Proof.
  intros (row & Hin & Hid).
  unfold Store.update_render_job, Store.job_by_id. cbn.
  set (g := fun j0 : Store.render_job => if Store.rj_id j0 =? j then _ else j0).
  assert (Hfind : exists row',
             find (fun j0 => Store.rj_id j0 =? j) (map g (Store.render_jobs d))
             = Some row'
             /\ Store.rj_status row' = "failed"%string
             /\ Store.rj_error_message row' = Some msg).
  { induction (Store.render_jobs d) as [| a jobs IH]; [contradiction |].
    cbn. unfold g at 1.
    destruct (Store.rj_id a =? j) eqn:Ea; cbn.
    - rewrite Ea. eexists. repeat split; unfold g; rewrite Ea; reflexivity.
    - rewrite Ea. apply IH. destruct Hin as [-> | Hin]; [| exact Hin].
      apply Z.eqb_neq in Ea. contradiction. }
  destruct Hfind as (row' & Hf & Hs & Hm).
  eexists. exists row'. repeat split; assumption.
Qed.

(** One file: [render_single_file] returns, never raises; it logs the
    file as started; and when the [try] body raised, the result is
    [None], the error is logged, and the job bound by then is stored as
    failed with the error's text. *)
Lemma render_single_file_outcome (stl_path : Fs.Path) (w : world) :
  exists result w',
    render_single_file blender ffmpeg_frames ffmpeg_mux glob script_text BASE_DIR
                       stl_path w = (inr result, w')
    /\ processing_names (log w')
       = (processing_names (log w) ++ [Fs.name stl_path])%list
    /\ (Forall shipped (requests w) -> Forall shipped (requests w'))
    /\ (forall out w1 l,
          try_block blender ffmpeg_frames ffmpeg_mux glob script_text BASE_DIR
                    stl_path (clock w) (w, mkLocals None) = (inr out, (w1, l)) ->
          result = Some out /\ w' = w1)
    /\ (forall e w1 l,
          try_block blender ffmpeg_frames ffmpeg_mux glob script_text BASE_DIR
                    stl_path (clock w) (w, mkLocals None) = (inl e, (w1, l)) ->
          result = None
          /\ In (LogError (Fs.name stl_path) (Exn.str e)) (log w')
          /\ Store.stl_files (db w') = Store.stl_files (db w1)
          /\ (Fs.stat_size (fs w) stl_path <> None ->
              exists j row,
                job_id l = Some j
                /\ Store.job_by_id (db w') j = Some row
                /\ Store.rj_status row = "failed"%string
                /\ Store.rj_error_message row = Some (Exn.str e))).
Proof.
  unfold render_single_file.
  destruct (try_block blender ffmpeg_frames ffmpeg_mux glob script_text BASE_DIR
                      stl_path (clock w) (w, mkLocals None))
    as [[e | out] [w1 l]] eqn:Etry;
    destruct (try_block_outcome _ _ _ _ _ _ Etry) as (Hlog & Hreq & Hjob).
  - unfold bind, logger, modify, db_update_render_job, ret.
    cbn -[Store.update_render_job].
    destruct (job_id l) as [j |] eqn:Ej.
    + simpl clock. simpl db.
      destruct (job_marked_failed (db w1) (clock w1) j (Exn.str e) Hjob)
        as (d' & row & Hupd & Hfind & Hst & Hmsg & Hfiles).
      rewrite Hupd. cbn. eexists. eexists. split; [reflexivity |].
      cbn. repeat split.
      * unfold processing_names in *. rewrite flat_map_app. cbn.
        rewrite app_nil_r. exact Hlog.
      * exact Hreq.
      * discriminate.
      * discriminate.
      * apply in_or_app. right. left. injection H as <- _ _. reflexivity.
      * injection H as _ <- _. exact Hfiles.
      * intros _. injection H as <- _ <-. exists j, row. repeat split; assumption.
    + cbn. eexists. eexists. split; [reflexivity |].
      cbn. repeat split.
      * unfold processing_names in *. rewrite flat_map_app. cbn.
        rewrite app_nil_r. exact Hlog.
      * exact Hreq.
      * discriminate.
      * discriminate.
      * apply in_or_app. right. left. injection H as <- _ _. reflexivity.
      * injection H as _ <- _. reflexivity.
      * intros Hstat. destruct Hjob as (Hnone & _). contradiction.
  - eexists. eexists. split; [reflexivity |]. repeat split; try assumption.
    + injection H as <- _ _. reflexivity.
    + injection H as _ <- _. reflexivity.
    + discriminate.
    + discriminate.
    + discriminate.
    + discriminate.
Qed.

(** The loop visits every file, whatever the earlier ones did. *)
Lemma process_files_all (files : list Store.stl_file) (count : nat) (w : world) :
  exists count' w',
    process_files blender ffmpeg_frames ffmpeg_mux glob script_text BASE_DIR
                  files count w = (inr count', w')
    /\ processing_names (log w')
       = (processing_names (log w)
          ++ map (fun f => Fs.name (Store.sf_filepath f)) files)%list
    /\ (Forall shipped (requests w) -> Forall shipped (requests w'))
    /\ (count <= count' <= count + List.length files)%nat.
Proof.
  revert count w. induction files as [| f files IH]; intros count w; cbn.
  - exists count, w. unfold ret. rewrite app_nil_r. repeat split; auto; lia.
  - destruct (render_single_file_outcome (Store.sf_filepath f) w)
      as (result & w1 & Hrun & Hlog & Hreq & _).
    unfold bind. rewrite Hrun.
    destruct (IH (match result with Some _ => S count | None => count end) w1)
      as (count' & w' & Hrest & Hlog' & Hreq' & Hcount).
    exists count', w'. split; [exact Hrest |]. repeat split.
    + rewrite Hlog', Hlog, <- app_assoc. reflexivity.
    + auto.
    + destruct result; lia.
    + destruct result; lia.
Qed.

Lemma process_queue_all (limit : option Z) (w : world) :
  exists w',
    process_queue blender ffmpeg_frames ffmpeg_mux glob script_text BASE_DIR limit w
    = (inr tt, w')
    /\ processing_names (log w')
       = (processing_names (log w)
          ++ map (fun f => Fs.name (Store.sf_filepath f))
                 (Store.get_pending_files limit (db w)))%list
    /\ (Forall shipped (requests w) -> Forall shipped (requests w')).
Proof.
  unfold process_queue, bind, get.
  destruct (Store.get_pending_files limit (db w)) as [| f files] eqn:Ep.
  - exists w. cbn. rewrite app_nil_r. repeat split; auto.
  - destruct (process_files_all (f :: files) 0 w)
      as (count & w1 & Hrun & Hlog & Hreq & _).
    rewrite Hrun. unfold logger, modify. eexists. split; [reflexivity |].
    cbn [log requests]. split; [| exact Hreq].
    unfold processing_names in *. rewrite flat_map_app. cbn [flat_map].
    rewrite app_nil_r. exact Hlog.
Qed.

(** The rendering stage: when Blender exits with a non-zero code on the
    request generated for a readable file, the file's result is [None] and
    its job is stored as failed with Blender's diagnostic. *)
Lemma blender_failure_recorded (stl_path : Fs.Path) (w : world)
    (returncode : Z) (stderr : string) (elapsed : Z) :
  let palette := Palette.get_color_palette (palette_draws (rand w (rand_pos w))) in
  let rq := _generate_blender_script stl_path
              (Fs.join (RENDERS_DIR BASE_DIR) (Fs.stem stl_path))
              (Palette.object_rgb palette) (Palette.background_rgb palette) in
  Fs.stat_size (fs w) stl_path <> None ->
  blender rq = Exited returncode stderr elapsed ->
  returncode <> 0 ->
  exists w' j row,
    render_single_file blender ffmpeg_frames ffmpeg_mux glob script_text BASE_DIR
                       stl_path w = (inr None, w')
    /\ Store.job_by_id (db w') j = Some row
    /\ Store.rj_status row = "failed"%string
    /\ Store.rj_error_message row
       = Some ("Blender render failed: " ++ stderr)%string.
Proof.
  intros palette rq Hstat Hrun Hcode.
  destruct (render_single_file_outcome stl_path w)
    as (result & w' & Hfile & _ & _ & _ & Hfail).
  assert (Htry : exists w1 l,
             try_block blender ffmpeg_frames ffmpeg_mux glob script_text BASE_DIR
                       stl_path (clock w) (w, mkLocals None)
             = (inl (Exn.mk "RuntimeError" ("Blender render failed: " ++ stderr)),
                (w1, l))).
  { unfold try_block, bind, zoom, logger, modify, next_draws, db_add_stl_file,
      db_create_render_job, bind_job_id.
    cbn -[render_stages Store.add_stl_file Store.create_render_job
          Palette.get_color_palette].
    destruct (Store.add_stl_file (fs w) (clock w) stl_path (db w))
      as [e | [file_id d]] eqn:Eadd.
    - exfalso. apply Hstat. unfold Store.add_stl_file in Eadd.
      destruct (Fs.stat_size (fs w) stl_path); [discriminate | reflexivity].
    - unfold Store.create_render_job, render_stages, bind, zoom, modify,
        subprocess_run.
      cbn -[Palette.get_color_palette _generate_blender_script].
      fold palette. fold rq. rewrite Hrun.
      cbn -[Palette.get_color_palette _generate_blender_script].
      destruct (Z.eqb_spec returncode 0) as [Hz | _]; [contradiction |].
      cbn. eexists. eexists. reflexivity. }
  destruct Htry as (w1 & l & Htry).
  destruct (Hfail _ w1 l Htry) as (-> & _ & _ & Hjob).
  destruct (Hjob Hstat) as (j & row & _ & Hfind & Hst & Hmsg).
  exists w', j, row. repeat split; assumption.
Qed.

(** The compositing stage: when Blender succeeded and ffmpeg fails to
    assemble the frames, the file's result is [None] and its job is stored
    as failed with ffmpeg's error. *)
Lemma compositing_failure_recorded (stl_path : Fs.Path) (w : world)
    (stderr : string) (elapsed : Z) (e : Exn.exn) :
  let palette := Palette.get_color_palette (palette_draws (rand w (rand_pos w))) in
  let render_dir := Fs.join (RENDERS_DIR BASE_DIR) (Fs.stem stl_path) in
  let rq := _generate_blender_script stl_path render_dir
              (Palette.object_rgb palette) (Palette.background_rgb palette) in
  let fs1 := Fs.write (fs w) (Fs.join BASE_DIR "temp_render_script.py")
                      (script_text rq) in
  Fs.stat_size (fs w) stl_path <> None ->
  blender rq = Exited 0 stderr elapsed ->
  ffmpeg_frames fs1 render_dir Config.VIDEO_WIDTH Config.VIDEO_HEIGHT Config.FPS
  = inl e ->
  exists w' j row,
    render_single_file blender ffmpeg_frames ffmpeg_mux glob script_text BASE_DIR
                       stl_path w = (inr None, w')
    /\ Store.job_by_id (db w') j = Some row
    /\ Store.rj_status row = "failed"%string
    /\ Store.rj_error_message row = Some (Exn.str e).
Proof.
  intros palette render_dir rq fs1 Hstat Hrun Hframes.
  destruct (render_single_file_outcome stl_path w)
    as (result & w' & Hfile & _ & _ & _ & Hfail).
  assert (Htry : exists w1 l,
             try_block blender ffmpeg_frames ffmpeg_mux glob script_text BASE_DIR
                       stl_path (clock w) (w, mkLocals None)
             = (inl e, (w1, l))).
  { unfold try_block, bind, zoom, logger, modify, next_draws, db_add_stl_file,
      db_create_render_job, bind_job_id.
    cbn -[render_stages Store.add_stl_file Store.create_render_job
          Palette.get_color_palette].
    destruct (Store.add_stl_file (fs w) (clock w) stl_path (db w))
      as [e0 | [file_id d]] eqn:Eadd.
    - exfalso. apply Hstat. unfold Store.add_stl_file in Eadd.
      destruct (Fs.stat_size (fs w) stl_path); [discriminate | reflexivity].
    - unfold Store.create_render_job, render_stages, bind, zoom, modify,
        subprocess_run, create_video_from_frames.
      cbn -[Palette.get_color_palette _generate_blender_script Fs.write].
      fold palette. fold render_dir. fold rq. rewrite Hrun.
      cbn -[Palette.get_color_palette _generate_blender_script Fs.write].
      fold fs1. rewrite Hframes.
      eexists. eexists. reflexivity. }
  destruct Htry as (w1 & l & Htry).
  destruct (Hfail _ w1 l Htry) as (-> & _ & _ & Hjob).
  destruct (Hjob Hstat) as (j & row & _ & Hfind & Hst & Hmsg).
  exists w', j, row. repeat split; assumption.
Qed.


(** C9.  In the audio step as the orchestrator runs it, after the frames
    were assembled into the temporary video: when the audio directory
    holds no .mp3, .wav or .m4a file, [add_random_audio] returns the final
    output path without raising, and the file at that path is then the
    temporary video, byte for byte. *)
Theorem audio_passthrough (fps width height : Z) (render_dir : Fs.Path)
    (stem : string) (pick : nat) (w0 w1 : world) :
  let temp_video := Fs.join (OUTPUT_DIR BASE_DIR) (stem ++ "_temp.mp4") in
  let final_video := Fs.join (OUTPUT_DIR BASE_DIR) (stem ++ ".mp4") in
  create_video_from_frames ffmpeg_frames fps render_dir temp_video width height w0
  = (inr temp_video, w1) ->
  glob (fs w1) (AUDIO_DIR BASE_DIR) ".mp3" = [] ->
  glob (fs w1) (AUDIO_DIR BASE_DIR) ".wav" = [] ->
  glob (fs w1) (AUDIO_DIR BASE_DIR) ".m4a" = [] ->
  exists video w2,
    Fs.read (fs w1) temp_video = Some video
    /\ add_random_audio ffmpeg_mux glob temp_video final_video (AUDIO_DIR BASE_DIR)
                        pick w1 = (inr final_video, w2)
    /\ Fs.read (fs w2) final_video = Some video
    /\ Fs.read (fs w2) temp_video = Some video
    /\ db w2 = db w1.
Proof.
  intros temp_video final_video Hvideo Hmp3 Hwav Hm4a.
  unfold create_video_from_frames in Hvideo.
  destruct (ffmpeg_frames (fs w0) render_dir width height fps) as [e | video];
    [discriminate |].
  injection Hvideo as <-.
  assert (Hread : Fs.read (Fs.write (fs w0) temp_video video) temp_video
                  = Some video) by apply FsFacts.read_write_same.
  assert (Hne : temp_video <> final_video) by apply FsFacts.temp_video_distinct.
  destruct (add_random_audio_copy temp_video final_video (AUDIO_DIR BASE_DIR)
              pick _ video Hmp3 Hwav Hm4a Hread Hne)
    as (w2 & Hrun & Hfs & Hdb & _).
  exists video, w2. cbn [fs with_fs] in *. repeat split.
  - exact Hread.
  - exact Hrun.
  - rewrite Hfs. apply FsFacts.read_write_same.
  - rewrite Hfs. rewrite FsFacts.read_write_other by exact Hne. exact Hread.
  - exact Hdb.
Qed.

(** C10.  [TOTAL_FRAMES] is 5 * 10 = 50, not 750; the script generated
    for any file asks for 50 frames at 10 frames per second; the planner
    run by that script works with 50 // 6 = 8 frames per segment and puts
    its keyframes at frames 1, 8, 16, 24, 32, 40, 48 and, the forced last
    one, 50; and a batch hands Blender no other kind of request. *)
Theorem shipped_configuration_orbit (stl_path output_dir : Fs.Path)
    (oc bc : Palette.rgb) (scene : Orbit.scene_state) (limit : option Z)
    (w : world) :
  let rq := _generate_blender_script stl_path output_dir oc bc in
  Config.TOTAL_FRAMES = Config.VIDEO_DURATION * Config.FPS
  /\ Config.TOTAL_FRAMES = 50
  /\ Config.TOTAL_FRAMES <> 750
  /\ rq_total_frames rq = 50
  /\ rq_fps rq = 10
  /\ rq_total_frames rq / 6 = 8
  /\ fst (Renderer.render_video rq scene) = None
  /\ Orbit.emitted (Renderer.render_video rq scene) =
       [ (1, (0, 0, 0)); (8, (0, 0, 60)); (16, (60, 0, 120));
         (24, (120, 0, 120)); (32, (180, 60, 120)); (40, (180, 120, 120));
         (48, (180, 180, 180)); (50, (360, 360, 360)) ]
  /\ map Orbit.kp_frame (Orbit.curve (Renderer.render_video rq scene))
     = [1; 8; 16; 24; 32; 40; 48; 50]
  /\ (requests w = [] ->
      Forall shipped
        (requests (snd (process_queue blender ffmpeg_frames ffmpeg_mux glob
                                      script_text BASE_DIR limit w)))).
Proof.
  intros rq. repeat split; try reflexivity; try discriminate.
  intros Hnone. destruct (process_queue_all limit w) as (w' & Hrun & _ & Hreq).
  rewrite Hrun. cbn [snd]. apply Hreq. rewrite Hnone. constructor.
Qed.

End Collaborators.

Lemma audio_passthrough_witness :
  exists video w2,
    add_random_audio sample_ffmpeg_mux Fs.glob_ext gear_temp_video gear_video
      (AUDIO_DIR base) 0
      (with_fs (Fs.write (fs sample_world) gear_temp_video "video"%string)
               sample_world)
    = (inr gear_video, w2)
    /\ Fs.read (fs w2) gear_video = Some video.
Proof.
  destruct (audio_passthrough sample_ffmpeg_frames sample_ffmpeg_mux Fs.glob_ext
              base 10 640 740 (Fs.join (RENDERS_DIR base) "gear") "gear" 0
              sample_world _ eq_refl eq_refl eq_refl eq_refl)
    as (video & w2 & _ & Hrun & Hout & _).
  exists video, w2. split; assumption.
Defined.


(** The sample batch: Blender fails on the cube, which is processed
    first; its job is stored as failed with Blender's message and the
    file stays pending; the gear is still rendered, and completed. *)
Example sample_batch_isolated :
  fst sample_run = inr tt
  /\ map (fun j => (Store.rj_id j, Store.rj_stl_file_id j, Store.rj_status j,
                    Store.rj_error_message j, Store.rj_output_path j))
         (Store.render_jobs (db (snd sample_run)))
     = [ (1, Some 2, "failed", Some "Blender render failed: no GPU", None);
         (2, Some 1, "completed", None, Some "./data/output_videos/gear.mp4") ]%string
  /\ map (fun f => (Store.sf_id f, Store.sf_status f))
         (Store.stl_files (db (snd sample_run)))
     = [ (1, "completed"); (2, "pending") ]%string
  /\ log (snd sample_run)
     = [ LogProcessing "cube.stl";
         LogError "cube.stl" "Blender render failed: no GPU";
         LogProcessing "gear.stl";
         LogNoAudio "./data/audio-assets"%string;
         LogCompleted "./data/output_videos/gear.mp4"%string;
         LogBatchDone 1 2 ].
Proof. vm_compute. repeat split. Qed.

End PipelineFacts.

(** ** The store as a whole *)

Module StoreStateFacts.

Import Store StoreState Samples MoreSamples.

Lemma NoDup_snoc {A : Type} (l : list A) (x : A) :
  NoDup l -> ~ In x l -> NoDup (l ++ [x]).
Proof.
  intros Hl Hx. induction l as [| a l IH]; cbn.
  - constructor; [intros [] | constructor].
  - inversion Hl as [| ? ? Ha Hl']; subst. constructor.
    + intros Hin. apply in_app_or in Hin. destruct Hin as [Hin | [<- | []]].
      * contradiction.
      * apply Hx. left. reflexivity.
    + apply IH; [exact Hl' |]. intros Hin. apply Hx. right. exact Hin.
Qed.

Lemma ids_below_not_in {A : Type} (key : A -> Z) (l : list A) (top : Z) :
  Forall (fun x => 0 < key x <= top) l -> ~ In (top + 1) (map key l).
Proof.
  intros Hall Hin. apply in_map_iff in Hin. destruct Hin as (x & Hk & Hx).
  rewrite Forall_forall in Hall. specialize (Hall x Hx). lia.
Qed.

Lemma name_not_in (d : db) (filename : string) :
  file_by_name d filename = None ->
  ~ In filename (map sf_filename (stl_files d)).
Proof.
  intros Hnone Hin. apply in_map_iff in Hin. destruct Hin as (f & Hname & Hf).
  pose proof (find_none _ _ Hnone f Hf) as Htest. cbn in Htest.
  rewrite Hname, String.eqb_refl in Htest. discriminate.
Qed.

(** What [add_stl_file] does to the store when it returns. *)
Lemma add_stl_file_cases (fs : Fs.t) (now : Z) (p : Fs.Path) (d d' : db)
    (id : option Z) :
  add_stl_file fs now p d = inr (id, d') ->
  d' = ignored_insert d
  \/ (file_by_name d (Fs.name p) = None
      /\ exists sz,
          d' = mkDb (stl_files d ++
                       [mkFile (stl_files_seq d + 1) (Fs.name p) p now (Some sz)
                               "pending"])
                    (render_jobs d) (stl_files_seq d + 1) (render_jobs_seq d)).
Proof.
  unfold add_stl_file, insert_or_ignore_file.
  destruct (Fs.stat_size fs p) as [sz |]; [| discriminate].
  destruct (file_by_name d (Fs.name p)) eqn:E; intros [= _ <-].
  - left. reflexivity.
  - right. split; [reflexivity |]. exists sz. reflexivity.
Qed.

Lemma well_formed_add_stl_file (fs : Fs.t) (now : Z) (p : Fs.Path) (d d' : db)
    (id : option Z) :
  well_formed d -> add_stl_file fs now p d = inr (id, d') -> well_formed d'.
Proof.
  intros (Hn & Hi & Hj & Hfb & Hjb & Hfs & Hjs) Hrun.
  destruct (add_stl_file_cases _ _ _ _ _ _ Hrun) as [-> | (Hnew & sz & ->)].
  - unfold well_formed, ignored_insert.
    cbn [stl_files render_jobs stl_files_seq render_jobs_seq].
    repeat split; try assumption; try lia.
    eapply Forall_impl; [| exact Hfb]. cbn. intros f Hf. lia.
  - unfold well_formed. cbn [stl_files render_jobs stl_files_seq render_jobs_seq].
    rewrite !map_app. cbn [map sf_filename sf_id].
    repeat split; try assumption; try lia.
    + apply NoDup_snoc; [exact Hn | apply name_not_in; exact Hnew].
    + apply NoDup_snoc; [exact Hi | apply ids_below_not_in; exact Hfb].
    + apply Forall_app. split.
      * eapply Forall_impl; [| exact Hfb]. cbn. intros f Hf. lia.
      * constructor; [cbn; lia | constructor].
Qed.

Lemma well_formed_create_render_job (file_id : option Z) (oc bc : Palette.rgb)
    (d : db) :
  well_formed d -> well_formed (snd (create_render_job file_id oc bc d)).
Proof.
  intros (Hn & Hi & Hj & Hfb & Hjb & Hfs & Hjs).
  unfold well_formed, create_render_job.
  cbn [snd stl_files render_jobs stl_files_seq render_jobs_seq].
  rewrite !map_app. cbn [map rj_id].
  repeat split; try assumption; try lia.
  - apply NoDup_snoc; [exact Hj | apply ids_below_not_in; exact Hjb].
  - apply Forall_app. split.
    + eapply Forall_impl; [| exact Hjb]. cbn. intros j Hjx. lia.
    + constructor; [cbn; lia | constructor].
Qed.

(** What [update_render_job] leaves alone: the identity of every job, and
    every column of a file but its status. *)
Lemma update_render_job_frame (now job : Z) (status : string)
    (out : option string) (dur : option Z) (err : option string) (d d' : db) :
  update_render_job now job status out dur err d = inr d' ->
  map job_identity (render_jobs d') = map job_identity (render_jobs d)
  /\ map sf_id (stl_files d') = map sf_id (stl_files d)
  /\ map sf_filename (stl_files d') = map sf_filename (stl_files d)
  /\ map sf_filepath (stl_files d') = map sf_filepath (stl_files d)
  /\ map sf_added_date (stl_files d') = map sf_added_date (stl_files d)
  /\ map sf_file_size (stl_files d') = map sf_file_size (stl_files d)
  /\ stl_files_seq d' = stl_files_seq d
  /\ render_jobs_seq d' = render_jobs_seq d.
Proof.
  unfold update_render_job. intros [= <-].
  assert (Hjobs : forall g : render_job -> render_job,
             (forall j, job_identity (g j) = job_identity j) ->
             map job_identity (map g (render_jobs d))
             = map job_identity (render_jobs d)).
  { intros g Hg. rewrite map_map. apply map_ext. exact Hg. }
  assert (Hfiles : forall (B : Type) (proj : stl_file -> B) (g : stl_file -> stl_file),
             (forall f, proj (g f) = proj f) ->
             map proj (map g (stl_files d)) = map proj (stl_files d)).
  { intros B proj g Hg. rewrite map_map. apply map_ext. exact Hg. }
  destruct (String.eqb status "completed");
    cbn [stl_files render_jobs stl_files_seq render_jobs_seq];
    repeat split;
    try (apply Hjobs; intros j; destruct (rj_id j =? job); reflexivity);
    try (apply Hfiles; intros f;
         match goal with |- context [if ?c then _ else _] => destruct c end;
         reflexivity).
Qed.

Lemma well_formed_update_render_job (now job : Z) (status : string)
    (out : option string) (dur : option Z) (err : option string) (d d' : db) :
  well_formed d ->
  update_render_job now job status out dur err d = inr d' ->
  well_formed d'.
Proof.
  intros (Hn & Hi & Hj & Hfb & Hjb & Hfs & Hjs) Hrun.
  destruct (update_render_job_frame _ _ _ _ _ _ _ _ Hrun)
    as (Hid & Hfi & Hfn & _ & _ & _ & Hs1 & Hs2).
  assert (Hjid : map rj_id (render_jobs d') = map rj_id (render_jobs d)).
  { assert (H : map (fun x => fst (fst (fst x))) (map job_identity (render_jobs d'))
                = map (fun x => fst (fst (fst x))) (map job_identity (render_jobs d)))
      by (rewrite Hid; reflexivity).
    rewrite !map_map in H. exact H. }
  unfold well_formed. rewrite Hfn, Hfi, Hjid, Hs1, Hs2.
  repeat split; try assumption.
  - apply Forall_forall. intros f Hf.
    assert (Hin : In (sf_id f) (map sf_id (stl_files d)))
      by (rewrite <- Hfi; apply in_map; exact Hf).
    apply in_map_iff in Hin. destruct Hin as (f0 & Heq & Hf0).
    rewrite Forall_forall in Hfb. specialize (Hfb f0 Hf0). lia.
  - apply Forall_forall. intros j Hjx.
    assert (Hin : In (rj_id j) (map rj_id (render_jobs d)))
      by (rewrite <- Hjid; apply in_map; exact Hjx).
    apply in_map_iff in Hin. destruct Hin as (j0 & Heq & Hj0).
    rewrite Forall_forall in Hjb. specialize (Hjb j0 Hj0). lia.
Qed.

Lemma two_state_update_render_job (now job : Z) (status : string)
    (out : option string) (dur : option Z) (err : option string) (d d' : db) :
  two_state d ->
  update_render_job now job status out dur err d = inr d' ->
  two_state d'.
Proof.
  unfold two_state, update_render_job. intros Hd [= <-].
  destruct (String.eqb status "completed"); cbn [stl_files]; [| exact Hd].
  apply Forall_forall. intros f Hf. apply in_map_iff in Hf.
  destruct Hf as (f0 & <- & Hf0).
  rewrite Forall_forall in Hd. specialize (Hd f0 Hf0).
  destruct (sql_eq (sf_id f0) _); [right; reflexivity | exact Hd].
Qed.

Lemma two_state_add_stl_file (fs : Fs.t) (now : Z) (p : Fs.Path) (d d' : db)
    (id : option Z) :
  two_state d -> add_stl_file fs now p d = inr (id, d') -> two_state d'.
Proof.
  intros Hd Hrun.
  destruct (add_stl_file_cases _ _ _ _ _ _ Hrun) as [-> | (_ & sz & ->)];
    [exact Hd |].
  unfold two_state. cbn [stl_files]. apply Forall_app. split; [exact Hd |].
  constructor; [left; reflexivity | constructor].
Qed.

Lemma reachable_keeps (d : db) :
  reachable d -> well_formed d /\ two_state d.
Proof.
  induction 1 as [| d d' fs now p id _ (Hw & Ht) Hrun
                  | d file_id oc bc _ (Hw & Ht)
                  | d d' now job status out dur err _ (Hw & Ht) Hrun].
  - split; [| constructor].
    unfold well_formed. cbn. repeat split; try constructor; lia.
  - split; [eapply well_formed_add_stl_file | eapply two_state_add_stl_file];
      eassumption.
  - split; [apply well_formed_create_render_job; exact Hw | exact Ht].
  - split; [eapply well_formed_update_render_job
           | eapply two_state_update_render_job]; eassumption.
Qed.

(** X1.  Whatever sequence of calls built the store, names and ids are unique,
    ids are positive and below the counters, and every file is pending or
    completed: no call ever marks a file failed. *)
Theorem reachable_invariant (d : db) :
  reachable d -> well_formed d /\ two_state d.
Proof. exact (reachable_keeps d). Qed.

Lemma reachable_invariant_witness :
  well_formed (snd (create_render_job (Some 1) (0, 0, 0)%Q (1, 1, 1)%Q
                                      (init_database None))).
Proof.
  apply (reachable_invariant _
           (reach_create_render_job _ (Some 1) (0, 0, 0)%Q (1, 1, 1)%Q reach_init)).
Defined.

(** X2.  The store only grows: a call never removes a row, never renumbers,
    renames or re-measures a file, never re-colours or re-assigns a job;
    it adds at most one row, and the one thing it changes in a file is
    the status, to 'completed'. *)
Theorem store_append_only (d d' : db) :
  step d d' ->
  (exists extra,
      map file_identity (stl_files d') = map file_identity (stl_files d) ++ extra
      /\ (List.length extra <= 1)%nat)
  /\ (exists extra,
        map job_identity (render_jobs d') = map job_identity (render_jobs d) ++ extra
        /\ (List.length extra <= 1)%nat)
  /\ (forall i f f',
        nth_error (stl_files d) i = Some f ->
        nth_error (stl_files d') i = Some f' ->
        sf_status f' = sf_status f \/ sf_status f' = "completed"%string).
Proof.
  intros [d0 d1 fs now p id Hrun | d0 file_id oc bc
          | d0 d1 now job status out dur err Hrun].
  - destruct (add_stl_file_cases _ _ _ _ _ _ Hrun) as [-> | (_ & sz & ->)].
    + unfold ignored_insert. cbn [stl_files render_jobs].
      split; [exists []; rewrite app_nil_r; split; [reflexivity | cbn; lia] |].
      split; [exists []; rewrite app_nil_r; split; [reflexivity | cbn; lia] |].
      intros i f f' H1 H2. left. congruence.
    + cbn [stl_files render_jobs]. split.
      { eexists. rewrite map_app. split; [reflexivity | cbn; lia]. }
      split; [exists []; rewrite app_nil_r; split; [reflexivity | cbn; lia] |].
      intros i f f' H1 H2. left.
      rewrite nth_error_app1 in H2 by (apply nth_error_Some; congruence).
      congruence.
  - cbn [snd create_render_job stl_files render_jobs]. split.
    { exists []. rewrite app_nil_r. split; [reflexivity | cbn; lia]. }
    split.
    { eexists. rewrite map_app. split; [reflexivity | cbn; lia]. }
    intros i f f' H1 H2. left. congruence.
  - destruct (update_render_job_frame _ _ _ _ _ _ _ _ Hrun)
      as (Hid & _).
    split.
    { exists []. rewrite app_nil_r. split; [| cbn; lia].
      unfold update_render_job in Hrun. injection Hrun as <-.
      destruct (String.eqb status "completed"); cbn [stl_files];
        [| reflexivity].
      rewrite map_map. apply map_ext. intros f.
      destruct (sql_eq (sf_id f) _); reflexivity. }
    split.
    { exists []. rewrite app_nil_r. split; [exact Hid | cbn; lia]. }
    intros i f f' H1 H2.
    unfold update_render_job in Hrun. injection Hrun as <-.
    destruct (String.eqb status "completed"); cbn [stl_files] in H2;
      [| left; congruence].
    rewrite nth_error_map, H1 in H2. cbn in H2. injection H2 as <-.
    destruct (sql_eq (sf_id f) _); [right | left]; reflexivity.
Qed.

Lemma store_append_only_witness :
  exists extra,
    map job_identity
        (render_jobs (snd (create_render_job (Some 2) (0, 0, 0)%Q (1, 1, 1)%Q
                                             sample_db)))
    = map job_identity (render_jobs sample_db) ++ extra
    /\ (List.length extra <= 1)%nat.
Proof.
  exact (proj1 (proj2 (store_append_only sample_db _
                         (step_create_render_job sample_db (Some 2)
                            (0, 0, 0)%Q (1, 1, 1)%Q)))).
Defined.

Lemma find_map_same_key {A : Type} (test : A -> bool) (g : A -> A) (l : list A) :
  (forall x, test (g x) = test x) ->
  find test (map g l) = option_map g (find test l).
Proof.
  intros Hg. induction l as [| a l IH]; cbn; [reflexivity |].
  rewrite Hg. destruct (test a); [reflexivity | exact IH].
Qed.

Lemma find_append {A : Type} (test : A -> bool) (l1 l2 : list A) :
  find test (l1 ++ l2)
  = match find test l1 with Some x => Some x | None => find test l2 end.
Proof.
  induction l1 as [| a l1 IH]; cbn; [reflexivity |].
  destruct (test a); [reflexivity | exact IH].
Qed.

Lemma option_map_id_when {A : Type} (g : A -> A) (o : option A) :
  (forall x, o = Some x -> g x = x) -> option_map g o = o.
Proof.
  intros H. destruct o as [x |]; cbn; [| reflexivity].
  rewrite (H x eq_refl). reflexivity.
Qed.

(** X3.  With a file id that SQLite can store and a job counter below
    the largest rowid, [create_render_job] adds a job: its id was not in
    use, the new row is pending and carries the arguments, and every
    other job and every file reads as before, also when the file already
    has jobs. *)
Theorem create_render_job_fresh (d : db) (file_id : option Z)
    (oc bc : Palette.rgb) :
  well_formed d ->
  (forall i, file_id = Some i -> INT64_MIN <= i <= INT64_MAX) ->
  render_jobs_seq d < INT64_MAX ->
  let id := fst (create_render_job file_id oc bc d) in
  let d' := snd (create_render_job file_id oc bc d) in
  job_by_id d id = None
  /\ job_by_id d' id
     = Some (mkJob id file_id None oc bc None None "pending" None)
  /\ (forall k, k <> id -> job_by_id d' k = job_by_id d k)
  /\ List.length (render_jobs d') = S (List.length (render_jobs d))
  /\ stl_files d' = stl_files d.
Proof.
  intros (_ & _ & _ & _ & Hjb & _ & _) _ _ id d'.
  unfold id, d', create_render_job. cbn [fst snd].
  assert (Hnone : job_by_id d (render_jobs_seq d + 1) = None).
  { unfold job_by_id. destruct (find _ (render_jobs d)) as [j |] eqn:E;
      [| reflexivity].
    apply find_some in E. destruct E as (Hin & Hid).
    rewrite Forall_forall in Hjb. specialize (Hjb j Hin).
    apply Z.eqb_eq in Hid. lia. }
  split; [exact Hnone |]. unfold job_by_id in *. cbn [render_jobs stl_files].
  split; [| split; [| split]].
  - rewrite StoreFacts.find_app_last by exact Hnone. cbn [rj_id].
    rewrite Z.eqb_refl. reflexivity.
  - intros k Hk. rewrite find_append.
    destruct (find (fun j => rj_id j =? k) (render_jobs d)); [reflexivity |].
    cbn. destruct (Z.eqb_spec (render_jobs_seq d + 1) k); [lia | reflexivity].
  - rewrite length_app. cbn. lia.
  - reflexivity.
Qed.

Lemma sample_db_well_formed : well_formed sample_db.
Proof.
  unfold well_formed. cbn.
  repeat split; try lia;
    repeat (constructor; cbn; try lia;
            try (intros H; repeat destruct H as [H | H]; try discriminate H;
                 try contradiction)).
Qed.

Lemma create_render_job_fresh_witness :
  job_by_id sample_db (fst (create_render_job (Some 2) (0, 0, 0)%Q (1, 1, 1)%Q
                                              sample_db)) = None.
Proof.
  exact (proj1 (create_render_job_fresh sample_db (Some 2) (0, 0, 0)%Q (1, 1, 1)%Q
                  sample_db_well_formed
                  ltac:(intros i [= <-]; unfold INT64_MIN, INT64_MAX; lia)
                  ltac:(unfold INT64_MAX; cbn; lia))).
Defined.

Lemma update_read_back (d d' : db) (now job : Z) (status : string)
    (out : option string) (dur : option Z) (err : option string)
    (row : render_job) :
  job_by_id d job = Some row ->
  update_render_job now job status out dur err d = inr d' ->
  job_by_id d' job
  = Some (mkJob job (rj_stl_file_id row) out (rj_object_color row)
                (rj_background_color row) (Some now) dur status err)
  /\ forall k, k <> job -> job_by_id d' k = job_by_id d k.
Proof.
  intros Hrow Hrun. unfold update_render_job in Hrun. injection Hrun as <-.
  set (g := fun j : render_job =>
              if rj_id j =? job
              then mkJob (rj_id j) (rj_stl_file_id j) out (rj_object_color j)
                         (rj_background_color j) (Some now) dur status err
              else j).
  assert (Hkey : forall k j, (rj_id (g j) =? k) = (rj_id j =? k))
    by (intros k j; unfold g; destruct (rj_id j =? job); reflexivity).
  assert (Hjobs : forall k,
             find (fun j => rj_id j =? k) (map g (render_jobs d))
             = option_map g (find (fun j => rj_id j =? k) (render_jobs d)))
    by (intros k; apply find_map_same_key; intros j; apply Hkey).
  assert (Hsame : forall k,
             job_by_id (if String.eqb status "completed"
                        then mkDb (map (fun f =>
                                          if sql_eq (sf_id f)
                                               (owner_of (mkDb (stl_files d)
                                                  (map g (render_jobs d))
                                                  (stl_files_seq d)
                                                  (render_jobs_seq d)) job)
                                          then set_file_status "completed" f
                                          else f) (stl_files d))
                                  (map g (render_jobs d)) (stl_files_seq d)
                                  (render_jobs_seq d)
                        else mkDb (stl_files d) (map g (render_jobs d))
                                  (stl_files_seq d) (render_jobs_seq d)) k
             = option_map g (job_by_id d k)).
  { intros k. unfold job_by_id.
    destruct (String.eqb status "completed"); cbn [render_jobs]; apply Hjobs. }
  split.
  - fold g. rewrite Hsame, Hrow. cbn. unfold g.
    unfold job_by_id in Hrow. apply find_some in Hrow.
    destruct Hrow as (_ & Hid). rewrite Hid.
    apply Z.eqb_eq in Hid. rewrite Hid. reflexivity.
  - intros k Hk. fold g. rewrite Hsame.
    apply option_map_id_when. intros j Hj.
    unfold job_by_id in Hj. apply find_some in Hj. destruct Hj as (_ & Hid).
    apply Z.eqb_eq in Hid. unfold g.
    destruct (Z.eqb_spec (rj_id j) job); [lia | reflexivity].
Qed.

(** X4.  Reading a job back after [update_render_job]: the row holds exactly
    what the call passed, so an output path, duration or error message
    left out is erased; its colours and file are kept; every other job
    reads as before. *)
Theorem update_render_job_read_back (d d' : db) (now job : Z) (status : string)
    (out : option string) (dur : option Z) (err : option string)
    (row : render_job) :
  job_by_id d job = Some row ->
  update_render_job now job status out dur err d = inr d' ->
  job_by_id d' job
  = Some (mkJob job (rj_stl_file_id row) out (rj_object_color row)
                (rj_background_color row) (Some now) dur status err)
  /\ forall k, k <> job -> job_by_id d' k = job_by_id d k.
Proof. exact (update_read_back d d' now job status out dur err row). Qed.

Lemma update_render_job_read_back_witness :
  job_by_id sample_db 1
  = Some (mkJob 1 (Some 2) None (0, 0, 0)%Q (1, 1, 1)%Q None None "pending" None)
  /\ exists d',
      update_render_job 200 1 "failed" None None (Some "boom"%string) sample_db
      = inr d'
      /\ job_by_id d' 1
         = Some (mkJob 1 (Some 2) None (0, 0, 0)%Q (1, 1, 1)%Q (Some 200) None
                       "failed" (Some "boom"%string)).
Proof.
  split; [reflexivity |]. eexists. split; [reflexivity |].
  exact (proj1 (update_render_job_read_back sample_db _ 200 1 "failed" None None
                  (Some "boom"%string) _ eq_refl eq_refl)).
Defined.

(** X5.  A completed file stays completed: no call of the store, with
    whatever arguments, brings a file back to pending, and a later failed
    job of the file does not touch it. *)
Theorem completed_is_final (d d' : db) (id : Z) (f : stl_file) :
  step d d' ->
  file_by_id d id = Some f ->
  sf_status f = "completed"%string ->
  file_by_id d' id = Some f.
Proof.
  intros Hstep Hf Hdone. unfold file_by_id in *.
  destruct Hstep as [d0 d1 fs now p pid Hrun | d0 file_id oc bc
                     | d0 d1 now job status out dur err Hrun].
  - destruct (add_stl_file_cases _ _ _ _ _ _ Hrun) as [-> | (_ & sz & ->)];
      [exact Hf |].
    cbn [stl_files]. rewrite find_append, Hf. reflexivity.
  - exact Hf.
  - unfold update_render_job in Hrun. injection Hrun as <-.
    destruct (String.eqb status "completed"); cbn [stl_files]; [| exact Hf].
    rewrite find_map_same_key, Hf.
    + cbn. f_equal. destruct (sql_eq (sf_id f) _); [| reflexivity].
      destruct f. cbn in *. subst. reflexivity.
    + intros x. destruct (sql_eq (sf_id x) _); reflexivity.
Qed.

Lemma completed_is_final_witness :
  exists d',
    update_render_job 300 1 "failed" None None (Some "late"%string)
      (mkDb [sample_file 2 "cube.stl" 90 "completed"]
            [mkJob 1 (Some 2) None (0, 0, 0)%Q (1, 1, 1)%Q None None "completed" None]
            2 1) = inr d'
    /\ file_by_id d' 2 = Some (sample_file 2 "cube.stl" 90 "completed").
Proof.
  eexists. split; [reflexivity |].
  apply (completed_is_final _ _ 2 _
           (step_update_render_job _ _ 300 1 "failed" None None
                                   (Some "late"%string) eq_refl));
    reflexivity.
Defined.

(** *** [get_statistics] *)

Lemma count_two_states (l : list stl_file) :
  Forall (fun f => sf_status f = "pending"%string
                   \/ sf_status f = "completed"%string) l ->
  List.length l
  = (List.length (filter (fun f => String.eqb (sf_status f) "completed") l)
     + List.length (filter (fun f => String.eqb (sf_status f) "pending") l))%nat.
Proof.
  induction 1 as [| f l [Hf | Hf] _ IH]; cbn; [reflexivity | |];
    rewrite Hf; cbn; rewrite IH; lia.
Qed.

(** X6.  In a store built by the class, every file is counted once: the
    total is the completed count plus the pending count. *)
Theorem statistics_partition (d : db) :
  reachable d ->
  total_files (get_statistics d)
  = completed_files (get_statistics d) + pending_files (get_statistics d).
Proof.
  intros Hr. destruct (reachable_keeps d Hr) as (_ & Ht).
  unfold get_statistics, count_status. cbn [total_files completed_files pending_files].
  rewrite (count_two_states _ Ht). lia.
Qed.

Lemma statistics_partition_witness :
  exists d,
    add_stl_file sample_fs 300 vase (init_database None) = inr (Some 1, d)
    /\ total_files (get_statistics d) = 1
    /\ total_files (get_statistics d)
       = completed_files (get_statistics d) + pending_files (get_statistics d).
Proof.
  eexists. split; [reflexivity |]. split; [reflexivity |].
  exact (statistics_partition _
           (reach_add_stl_file _ _ sample_fs 300 vase _ reach_init eq_refl)).
Defined.

Local Open Scope Q_scope.

(** X8.  With no completed job the average is 0, whatever the other jobs
    hold; and creating a job changes no statistic. *)
Theorem statistics_ignore_unfinished (d : db) (file_id : option Z)
    (oc bc : Palette.rgb) :
  ((forall j, In j (render_jobs d) -> rj_status j <> "completed"%string) ->
   average_render_time (get_statistics d) == 0)
  /\ get_statistics (snd (create_render_job file_id oc bc d)) = get_statistics d.
Proof.
  split.
  - intros Hnone. unfold get_statistics, completed_durations.
    cbn [average_render_time].
    assert (Hf : filter (fun j => String.eqb (rj_status j) "completed")
                        (render_jobs d) = []).
    { induction (render_jobs d) as [| j l IH]; [reflexivity |]. cbn.
      destruct (String.eqb_spec (rj_status j) "completed") as [Hc | _].
      - exfalso. apply (Hnone j); [left; reflexivity | exact Hc].
      - apply IH. intros k Hk. apply Hnone. right. exact Hk. }
    rewrite Hf. reflexivity.
  - unfold get_statistics, completed_durations, count_status, create_render_job.
    cbn [snd stl_files render_jobs]. rewrite filter_app. cbn. rewrite app_nil_r.
    reflexivity.
Qed.

End StoreStateFacts.

(** ** The pending queue *)

Module PendingFacts.

Import Store Samples.

Lemma firstn_skipn_sorted (n : nat) (l : list stl_file) :
  Sorted older_or_same l ->
  forall f g, In f (firstn n l) -> In g (skipn n l) -> older_or_same f g.
Proof.
  intros Hs. apply Sorted_StronglySorted in Hs;
    [| intros a b c Hab Hbc; unfold older_or_same in *; lia].
  revert n. induction Hs as [| a l Hl IH Ha]; intros n f g Hf Hg.
  - destruct n; contradiction.
  - destruct n as [| n]; [contradiction |]. cbn in Hf, Hg.
    destruct Hf as [<- | Hf].
    + rewrite Forall_forall in Ha. apply Ha.
      rewrite <- (firstn_skipn n l). apply in_or_app. right. exact Hg.
    + apply (IH n); assumption.
Qed.

(** X9.  FIFO: what a call returns are the oldest pending files.  The pending
    rows split into the rows returned and the rows left, and no row left
    was discovered before a row returned. *)
Theorem get_pending_files_oldest_first (limit : option Z) (d : db) :
  exists left_out,
    Permutation (filter (fun f => String.eqb (sf_status f) "pending") (stl_files d))
                (get_pending_files limit d ++ left_out)
    /\ forall f g,
         In f (get_pending_files limit d) -> In g left_out ->
         sf_added_date f <= sf_added_date g.
Proof.
  destruct (StoreFacts.get_pending_files_prefix limit d) as (n & ->).
  destruct (StoreFacts.order_by_added_date_spec
              (filter (fun f => String.eqb (sf_status f) "pending") (stl_files d)))
    as (Hs & Hp).
  set (rows := order_by_added_date _) in *.
  exists (skipn n rows). split.
  - rewrite firstn_skipn. exact Hp.
  - intros f g Hf Hg. apply (firstn_skipn_sorted n rows Hs f g Hf Hg).
Qed.

(** X10.  Only pending rows of the table are returned, in ascending order of
    discovery time. *)
Theorem get_pending_files_pending_sorted (limit : option Z) (d : db) :
  Sorted older_or_same (get_pending_files limit d)
  /\ forall f, In f (get_pending_files limit d) ->
               In f (stl_files d) /\ sf_status f = "pending"%string.
Proof. exact (StoreFacts.get_pending_files_sound limit d). Qed.

(** X11.  Inside SQLite's integer range, a limit above zero caps the
    result and a negative limit returns what no limit returns; with no
    limit every pending row is returned. *)
Theorem get_pending_files_limits (limit : option Z) (d : db) :
  match limit with
  | Some k =>
      (0 < k <= INT64_MAX ->
       Z.of_nat (List.length (get_pending_files limit d)) <= k)
      /\ (INT64_MIN <= k < 0 ->
          get_pending_files limit d = get_pending_files None d)
  | None =>
      Permutation (filter (fun f => String.eqb (sf_status f) "pending")
                          (stl_files d))
                  (get_pending_files None d)
  end.
Proof.
  destruct limit as [k |].
  - split.
    + intros Hk. apply StoreFacts.get_pending_files_capped. lia.
    + intros Hk. unfold get_pending_files, truthy, sql_limit.
      destruct (Z.eqb_spec k 0); [lia |]. cbn.
      destruct (Z.ltb_spec k 0); [reflexivity | lia].
  - apply StoreFacts.get_pending_files_unbounded.
Qed.

End PendingFacts.

(** ** The palette as a whole *)

Module PaletteRangeFacts.

Import Palette Hex PaletteFacts.
Local Open Scope Q_scope.

(** Every channel [hsv_to_rgb] returns lies between 0 and the value. *)
Lemma hsv_to_rgb_range (h s v : Q) :
  0 <= h -> 0 <= s -> s <= 1 -> 0 <= v ->
  let '(r, g, b) := hsv_to_rgb (h, s, v) in
  (0 <= r /\ r <= v) /\ (0 <= g /\ g <= v) /\ (0 <= b /\ b <= v).
Proof.
  intros Hh Hs0 Hs1 Hv. unfold hsv_to_rgb.
  destruct (Qeq_bool s 0); [repeat split; lra |].
  rewrite py_int_floor by lra.
  pose proof (Qfloor_le (h * 6)) as H1. pose proof (Qlt_floor (h * 6)) as H2.
  rewrite inject_Z_plus in H2. change (inject_Z 1) with 1 in H2.
  set (f := h * 6 - inject_Z (Qfloor (h * 6))).
  assert (Hf0 : 0 <= f) by (unfold f; lra).
  assert (Hf1 : f < 1) by (unfold f; lra).
  assert (Hp : 0 <= v * (1 - s) /\ v * (1 - s) <= v) by (split; nra).
  assert (Hq : 0 <= v * (1 - s * f) /\ v * (1 - s * f) <= v).
  { assert (0 <= s * f /\ s * f <= 1) by (split; nra). split; nra. }
  assert (Ht : 0 <= v * (1 - s * (1 - f)) /\ v * (1 - s * (1 - f)) <= v).
  { assert (0 <= s * (1 - f) /\ s * (1 - f) <= 1) by (split; nra). split; nra. }
  repeat match goal with
         | |- context [if ?c then _ else _] => destruct c
         end;
    repeat split; lra.
Qed.

(** What [rgb_to_hsv] returns for channels in [0, 1]. *)
Lemma rgb_to_hsv_range (r g b : Q) :
  in_unit r -> in_unit g -> in_unit b ->
  (0 <= hue (rgb_to_hsv (r, g, b)) /\ hue (rgb_to_hsv (r, g, b)) < 1)
  /\ (0 <= sat (rgb_to_hsv (r, g, b)) /\ sat (rgb_to_hsv (r, g, b)) <= 1)
  /\ (0 <= val (rgb_to_hsv (r, g, b)) /\ val (rgb_to_hsv (r, g, b)) <= 1).
Proof.
  intros (Hr0 & Hr1) (Hg0 & Hg1) (Hb0 & Hb1).
  destruct (rgb_to_hsv_spec r g b) as (h & s & Hrun & Hcases).
  destruct (max3_spec r g b) as (HM1 & HM2 & HM3 & HM4).
  destruct (min3_spec r g b) as (Hm1 & Hm2 & Hm3 & Hm4).
  rewrite Hrun. unfold hue, sat, val. cbn [fst snd].
  set (M := max3 r g b) in *. set (m := min3 r g b) in *.
  assert (HM : 0 <= M /\ M <= 1) by lra.
  assert (Hm : 0 <= m /\ m <= M) by lra.
  destruct Hcases as [(_ & -> & ->) | (Hne & -> & Hh)].
  - repeat split; lra.
  - assert (Hpos : 0 < M) by lra.
    split; [| split; [| lra]].
    + destruct Hh as [(_ & ->) | [(_ & _ & ->) | (_ & _ & ->)]];
        apply py_mod_1_range.
    + split.
      * apply Qle_shift_div_l; [exact Hpos | lra].
      * apply Qle_shift_div_r; [exact Hpos | lra].
Qed.

Lemma max2_floor_range (s k : Q) :
  0 <= s -> s <= 1 -> 0 <= k -> k <= 1 ->
  0 <= max2 (1#10) (s * k) /\ max2 (1#10) (s * k) <= 1.
Proof.
  intros Hs0 Hs1 Hk0 Hk1.
  destruct (max2_spec (1#10) (s * k)) as (H1 & H2 & H3).
  assert (0 <= s * k /\ s * k <= 1) by (split; nra).
  split; lra.
Qed.

Lemma contrasting_in_range (c : rgb) (level : string) (d : draws) :
  unit_rgb c -> unit_rgb (generate_contrasting_color c level d).
Proof.
  destruct c as [[r g] b]. intros (Hr & Hg & Hb). cbn [fst snd] in Hr, Hg, Hb.
  destruct (rgb_to_hsv_range r g b Hr Hg Hb) as (_ & (Hs0 & Hs1) & _).
  unfold generate_contrasting_color.
  destruct (rgb_to_hsv (r, g, b)) as [[h s] v].
  unfold sat in Hs0, Hs1. cbn [fst snd] in Hs0, Hs1.
  assert (Hgoal : forall nh ns nv,
             0 <= nh -> 0 <= ns -> ns <= 1 -> 0 <= nv -> nv <= 1 ->
             unit_rgb (hsv_to_rgb (nh, ns, nv))).
  { intros nh ns nv H1 H2 H3 H4 H5.
    pose proof (hsv_to_rgb_range nh ns nv H1 H2 H3 H4) as H.
    destruct (hsv_to_rgb (nh, ns, nv)) as [[x y] z].
    unfold unit_rgb, in_unit. cbn [fst snd]. repeat split; lra. }
  destruct (String.eqb level "high"); [| destruct (String.eqb level "medium")];
    (apply Hgoal;
     [ apply py_mod_1_range
     | apply max2_floor_range; lra
     | apply max2_floor_range; lra
     | destruct (Qlt_bool v (5#10)); lra
     | destruct (Qlt_bool v (5#10)); lra ]).
Qed.

(** X12.  The background derived from a colour with channels in [0, 1] has its
    channels in [0, 1], at every contrast level and whatever is drawn. *)
Theorem contrasting_color_in_range (c : rgb) (level : string) (d : draws) :
  unit_rgb c -> unit_rgb (generate_contrasting_color c level d).
Proof. exact (contrasting_in_range c level d). Qed.

Lemma contrasting_color_in_range_witness :
  unit_rgb (generate_contrasting_color (1#2, 1#4, 3#4) "low"
                                       (mkDraws 0 0 0 0 0 0 (1#3))).
Proof.
  apply contrasting_color_in_range.
  unfold unit_rgb, in_unit. cbn [fst snd]. repeat split; lra.
Defined.

(** *** The random colour *)

Lemma all_profiles_soft : Forall soft_profile (map snd SOOTHING_PALETTES).
Proof.
  unfold SOOTHING_PALETTES, soft_profile. cbn.
  repeat constructor; cbn; try lra; try discriminate.
Qed.

Lemma choice_In {A : Type} (l : list A) (k : nat) (dflt : A) :
  l <> [] -> In (choice l k dflt) l.
Proof.
  intros Hl. unfold choice. apply nth_In.
  apply Nat.mod_upper_bound. destruct l; [contradiction | discriminate].
Qed.

Lemma uniform_range (a b u : Q) :
  a <= b -> 0 <= u -> u <= 1 -> a <= uniform a b u /\ uniform a b u <= b.
Proof. intros Hab Hu0 Hu1. unfold uniform. split; nra. Qed.

Lemma uniform_below (a b u : Q) :
  a < b -> u < 1 -> uniform a b u < b.
Proof. intros Hab Hu1. unfold uniform. nra. Qed.

(** The HSV triple the random colour is made from. *)
Lemma random_color_hsv (d : draws) :
  unit_draws d ->
  exists h s v,
    generate_random_soothing_color d = hsv_to_rgb (h, s, v)
    /\ 0 <= h /\ h < 1
    /\ (25#100) <= s /\ s <= (60#100)
    /\ (60#100) <= v /\ v <= (95#100).
Proof.
  intros (Hh0 & Hh1 & Hs0 & Hs1 & Hv0 & Hv1).
  unfold generate_random_soothing_color.
  set (pr := choice (map snd SOOTHING_PALETTES) (pick_palette d) _).
  assert (Hpr : soft_profile pr).
  { pose proof all_profiles_soft as Hall. rewrite Forall_forall in Hall.
    apply Hall. apply choice_In. discriminate. }
  destruct Hpr as (Hne & Hranges & Hp1 & Hp2 & Hp3 & Hp4 & Hp5 & Hp6).
  set (hr := choice (hue_ranges pr) (pick_range d) (0, 1)).
  assert (Hhr : 0 <= fst hr /\ fst hr < snd hr /\ snd hr <= 1).
  { rewrite Forall_forall in Hranges. apply Hranges. apply choice_In. exact Hne. }
  destruct Hhr as (Ha & Hab & Hb).
  do 3 eexists. split; [reflexivity |].
  assert (Hu1 := uniform_range (fst hr) (snd hr) (u_hue d)
                   ltac:(lra) ltac:(lra) ltac:(lra)).
  assert (Hu2 := uniform_below (fst hr) (snd hr) (u_hue d) Hab Hh1).
  assert (Hu3 := uniform_range (fst (saturation pr)) (snd (saturation pr))
                   (u_saturation d) ltac:(lra) ltac:(lra) ltac:(lra)).
  assert (Hu4 := uniform_range (fst (value pr)) (snd (value pr)) (u_value d)
                   ltac:(lra) ltac:(lra) ltac:(lra)).
  repeat split; lra.
Qed.

(** X13.  Both colours of a palette have their channels in [0, 1]. *)
Theorem palette_in_range (d : draws) :
  unit_draws d ->
  unit_rgb (Hex.object_rgb (Hex.get_color_palette d))
  /\ unit_rgb (Hex.background_rgb (Hex.get_color_palette d)).
Proof.
  intros Hd. unfold Hex.get_color_palette, Palette.get_color_palette.
  cbn [Hex.object_rgb Hex.background_rgb Palette.object_rgb Palette.background_rgb].
  assert (Hobj : unit_rgb (generate_random_soothing_color d)).
  { destruct (random_color_hsv d Hd)
      as (h & s & v & -> & Hh0 & Hh1 & Hs0 & Hs1 & Hv0 & Hv1).
    pose proof (hsv_to_rgb_range h s v ltac:(lra) ltac:(lra) ltac:(lra) ltac:(lra))
      as H.
    destruct (hsv_to_rgb (h, s, v)) as [[x y] z].
    unfold unit_rgb, in_unit. cbn [fst snd]. repeat split; lra. }
  split; [exact Hobj | apply contrasting_in_range; exact Hobj].
Qed.

Lemma mid_draws_unit : unit_draws mid_draws.
Proof. unfold unit_draws, mid_draws. cbn. repeat split; lra. Qed.

Lemma palette_in_range_witness :
  unit_rgb (Hex.object_rgb (Hex.get_color_palette mid_draws)).
Proof. exact (proj1 (palette_in_range mid_draws mid_draws_unit)). Defined.

(** *** Reading a background back *)

(** The HSV reading of the background, level by level, as the code
    branches. *)
Lemma contrast_read_back (c : rgb) (level : string) (d : draws) :
  let base := rgb_to_hsv c in
  triple_eq
    (rgb_to_hsv (generate_contrasting_color c level d))
    (if String.eqb level "high" then
       (py_mod (hue base + (5#10)) 1,
        max2 (1#10) (sat base * (5#10)),
        if Qlt_bool (val base) (5#10) then (95#100) else (15#100))
     else if String.eqb level "medium" then
       (py_mod (hue base + choice [(4#10); (6#10)] (pick_shift d) (4#10)) 1,
        max2 (1#10) (sat base * (6#10)),
        if Qlt_bool (val base) (5#10) then (85#100) else (25#100))
     else
       (py_mod (hue base + uniform (-1#10) (1#10) (u_jitter d)) 1,
        max2 (1#10) (sat base * (7#10)),
        if Qlt_bool (val base) (5#10) then (75#100) else (35#100))).
Proof.
  intros base. unfold generate_contrasting_color. fold base.
  destruct base as [[h s] v]. unfold hue, sat, val. cbn [fst snd].
  destruct (String.eqb level "high"); [| destruct (String.eqb level "medium")];
    (apply hsv_round_trip;
     [ apply py_mod_1_range
     | apply py_mod_1_range
     | match goal with
       | |- 0 < max2 ?a ?b => destruct (max2_spec a b) as (? & _); lra
       end
     | destruct (Qlt_bool v (5#10)); lra ]).
Qed.

Lemma value_flips (v lo hi out : Q) :
  lo < (5#10) -> (5#10) < hi ->
  out == (if Qlt_bool v (5#10) then hi else lo) ->
  (v < (5#10) -> (5#10) < out) /\ ((5#10) <= v -> out < (5#10)).
Proof.
  intros Hlo Hhi Hout. rewrite Hout. split.
  - intros Hv. apply Qlt_bool_iff in Hv. rewrite Hv. exact Hhi.
  - intros Hv. destruct (Qlt_bool v (5#10)) eqn:E; [| exact Hlo].
    apply Qlt_bool_iff in E. lra.
Qed.

(** X14.  At level 'medium' the background, read back as HSV, has the hue of
    the base plus 0.4 or plus 0.6 modulo 1, the value 0.85 below a base
    value of 0.5 and 0.25 from there on, and the saturation
    max(0.1, 0.6 times the base's). *)
Theorem contrast_medium (c : rgb) (d : draws) :
  let base := rgb_to_hsv c in
  let out := rgb_to_hsv (generate_contrasting_color c "medium" d) in
  (hue out == py_mod (hue base + (4#10)) 1
   \/ hue out == py_mod (hue base + (6#10)) 1)
  /\ val out == (if Qlt_bool (val base) (5#10) then (85#100) else (25#100))
  /\ sat out == max2 (1#10) (sat base * (6#10))
  /\ (val base < (5#10) -> (5#10) < val out)
  /\ ((5#10) <= val base -> val out < (5#10)).
Proof.
  intros base out.
  destruct (contrast_read_back c "medium" d) as (Hh & Hs & Hv).
  cbn [String.eqb Ascii.eqb Bool.eqb fst snd] in Hh, Hs, Hv. cbv iota in Hh, Hs, Hv.
  cbn [fst snd] in Hh, Hs, Hv.
  fold base in Hh, Hs, Hv. fold out in Hh, Hs, Hv.
  fold (hue out) in Hh. fold (sat out) in Hs. fold (val out) in Hv.
  split; [| split; [exact Hv | split; [exact Hs |]]].
  - assert (Hpick : In (choice [(4#10); (6#10)] (pick_shift d) (4#10))
                       [(4#10); (6#10)])
      by (apply choice_In; discriminate).
    destruct Hpick as [Hp | [Hp | []]]; rewrite <- Hp in Hh; [left | right];
      exact Hh.
  - apply (value_flips (val base) (25#100) (85#100) (val out)); [lra | lra | exact Hv].
Qed.

(** X15.  Any level other than 'high' and 'medium' is the low one: the hue of
    the base moves by at most 0.1 either way, modulo 1, the value is
    0.75 below a base value of 0.5 and 0.35 from there on, and the
    saturation is max(0.1, 0.7 times the base's). *)
Theorem contrast_low_or_unknown (c : rgb) (level : string) (d : draws) :
  level <> "high"%string ->
  level <> "medium"%string ->
  0 <= u_jitter d -> u_jitter d <= 1 ->
  let base := rgb_to_hsv c in
  let out := rgb_to_hsv (generate_contrasting_color c level d) in
  generate_contrasting_color c level d = generate_contrasting_color c "low" d
  /\ (exists jitter,
        -(1#10) <= jitter /\ jitter <= (1#10)
        /\ hue out == py_mod (hue base + jitter) 1)
  /\ val out == (if Qlt_bool (val base) (5#10) then (75#100) else (35#100))
  /\ sat out == max2 (1#10) (sat base * (7#10))
  /\ (val base < (5#10) -> (5#10) < val out)
  /\ ((5#10) <= val base -> val out < (5#10)).
Proof.
  intros Hhigh Hmedium Hu0 Hu1 base out.
  apply String.eqb_neq in Hhigh. apply String.eqb_neq in Hmedium.
  assert (Hsame : generate_contrasting_color c level d
                  = generate_contrasting_color c "low" d).
  { unfold generate_contrasting_color. rewrite Hhigh, Hmedium. reflexivity. }
  split; [exact Hsame |].
  destruct (contrast_read_back c level d) as (Hh & Hs & Hv).
  rewrite Hhigh, Hmedium in Hh, Hs, Hv. cbn [fst snd] in Hh, Hs, Hv.
  fold base in Hh, Hs, Hv. fold out in Hh, Hs, Hv.
  fold (hue out) in Hh. fold (sat out) in Hs. fold (val out) in Hv.
  split; [| split; [exact Hv | split; [exact Hs |]]].
  - exists (uniform (-1#10) (1#10) (u_jitter d)).
    destruct (uniform_range (-1#10) (1#10) (u_jitter d)) as (H1 & H2);
      [lra | exact Hu0 | exact Hu1 |].
    split; [lra | split; [lra | exact Hh]].
  - apply (value_flips (val base) (35#100) (75#100) (val out)); [lra | lra | exact Hv].
Qed.

Lemma contrast_low_or_unknown_witness :
  generate_contrasting_color (1#2, 1#4, 3#4) "hihg" (mkDraws 0 0 0 0 0 0 (1#3))
  = generate_contrasting_color (1#2, 1#4, 3#4) "low" (mkDraws 0 0 0 0 0 0 (1#3)).
Proof.
  exact (proj1 (contrast_low_or_unknown (1#2, 1#4, 3#4) "hihg"
                  (mkDraws 0 0 0 0 0 0 (1#3))
                  ltac:(discriminate) ltac:(discriminate)
                  ltac:(cbn; lra) ltac:(cbn; lra))).
Defined.

(** X16.  The object colour of a palette is soft, saturation between 0.25 and
    0.60 and value between 0.60 and 0.95, and so its background is always
    the dark one: value 0.15, never 0.95, at half the object's
    saturation and the opposite hue. *)
Theorem palette_soft_on_dark (d : draws) :
  unit_draws d ->
  let object := rgb_to_hsv (Hex.object_rgb (Hex.get_color_palette d)) in
  let background := rgb_to_hsv (Hex.background_rgb (Hex.get_color_palette d)) in
  ((25#100) <= sat object /\ sat object <= (60#100))
  /\ ((60#100) <= val object /\ val object <= (95#100))
  /\ val background == (15#100)
  /\ sat background == sat object * (5#10)
  /\ hue background == py_mod (hue object + (5#10)) 1.
Proof.
  intros Hd object background.
  unfold Hex.get_color_palette, Palette.get_color_palette in object, background.
  cbn [Hex.object_rgb Hex.background_rgb Palette.object_rgb Palette.background_rgb]
    in object, background.
  destruct (random_color_hsv d Hd)
    as (h & s & v & Hobj & Hh0 & Hh1 & Hs0 & Hs1 & Hv0 & Hv1).
  destruct (hsv_round_trip h s v Hh0 Hh1 ltac:(lra) ltac:(lra)) as (Rh & Rs & Rv).
  rewrite <- Hobj in Rh, Rs, Rv. cbn [fst snd] in Rh, Rs, Rv.
  fold object in Rh, Rs, Rv.
  fold (hue object) in Rh. fold (sat object) in Rs. fold (val object) in Rv.
  destruct (contrast_read_back (generate_random_soothing_color d) "high" d)
    as (Bh & Bs & Bv).
  cbn [String.eqb Ascii.eqb Bool.eqb] in Bh, Bs, Bv. cbv iota in Bh, Bs, Bv.
  cbn [fst snd] in Bh, Bs, Bv.
  fold object in Bh, Bs, Bv. fold background in Bh, Bs, Bv.
  fold (hue background) in Bh. fold (sat background) in Bs.
  fold (val background) in Bv.
  split; [lra |]. split; [lra |]. split; [| split; [| exact Bh]].
  - rewrite Bv. destruct (Qlt_bool (val object) (5#10)) eqn:E; [| reflexivity].
    apply Qlt_bool_iff in E. lra.
  - rewrite Bs. destruct (max2_spec (1#10) (sat object * (5#10))) as (H1 & H2 & H3).
    lra.
Qed.

Lemma palette_soft_on_dark_witness :
  val (rgb_to_hsv (Hex.background_rgb (Hex.get_color_palette mid_draws)))
  == (15#100).
Proof.
  exact (proj1 (proj2 (proj2 (palette_soft_on_dark mid_draws mid_draws_unit)))).
Defined.

(** *** [rgb_to_hex] *)

Local Close Scope Q_scope.
Local Open Scope Z_scope.

Lemma format_02x_byte (n : Z) :
  0 <= n <= 255 ->
  format_02x n
  = String (hex_digit (n / 16)) (String (hex_digit (n mod 16)) EmptyString).
Proof.
  intros Hn. unfold format_02x, hex.
  destruct (Z.ltb_spec n 0) as [Hneg | _]; [lia |].
  destruct (Z.eqb_spec (n / 16) 0) as [Hsmall | Hbig].
  - cbn [hex_digits]. rewrite Hsmall. cbn. reflexivity.
  - assert (H16 : 16 <= n).
    { destruct (Z.lt_ge_cases n 16) as [Hlt | Hge]; [| exact Hge].
      exfalso. apply Hbig. apply Z.div_small. lia. }
    assert (Hlog : 4 <= Z.log2 n)
      by (change 4 with (Z.log2 16); apply Z.log2_le_mono; exact H16).
    destruct (Z.to_nat (Z.log2 n)) as [| fuel] eqn:Ef; [lia |].
    cbn [hex_digits].
    destruct (Z.eqb_spec (n / 16) 0) as [Hz | _]; [contradiction |].
    assert (Hq : 0 <= n / 16 < 16).
    { split; [apply Z.div_pos; lia |]. apply Z.div_lt_upper_bound; lia. }
    rewrite (Z.div_small (n / 16) 16) by exact Hq.
    rewrite (Z.mod_small (n / 16) 16) by exact Hq.
    cbn. reflexivity.
Qed.

Local Open Scope Q_scope.

Lemma channel_byte (c : Q) :
  in_unit c ->
  (0 <= py_int (c * 255) <= 255)%Z
  /\ (c < 1 -> (py_int (c * 255) <= 254)%Z)
  /\ (c == 1 -> py_int (c * 255) = 255%Z).
Proof.
  intros (H0 & H1). rewrite py_int_floor by lra.
  pose proof (Qfloor_le (c * 255)) as Hf1. pose proof (Qlt_floor (c * 255)) as Hf2.
  rewrite inject_Z_plus in Hf2. change (inject_Z 1) with 1 in Hf2.
  set (n := Qfloor (c * 255)) in *.
  split; [split |]; [| | split].
  - assert ((-1 < n)%Z); [| lia].
    rewrite Zlt_Qlt. change (inject_Z (-1)) with (-1). lra.
  - rewrite Zle_Qle. change (inject_Z 255) with 255. lra.
  - intros Hc. assert ((n < 255)%Z); [| lia].
    rewrite Zlt_Qlt. change (inject_Z 255) with 255. lra.
  - intros Hc. assert ((254 < n)%Z /\ (n <= 255)%Z); [| lia].
    rewrite Zlt_Qlt, Zle_Qle. change (inject_Z 254) with 254.
    change (inject_Z 255) with 255. split; lra.
Qed.

(** X17.  For channels in [0, 1] the hex code is '#' and six lower-case hex
    digits, two per channel, of the channel times 255 cut to an integer:
    below 255 for every channel short of 1. *)
Theorem rgb_to_hex_format (r g b : Q) :
  in_unit r -> in_unit g -> in_unit b ->
  let byte (c : Q) := py_int (c * 255) in
  rgb_to_hex (r, g, b)
  = String "#"
      (String (hex_digit (byte r / 16)) (String (hex_digit (byte r mod 16))
      (String (hex_digit (byte g / 16)) (String (hex_digit (byte g mod 16))
      (String (hex_digit (byte b / 16)) (String (hex_digit (byte b mod 16))
       EmptyString))))))
  /\ String.length (rgb_to_hex (r, g, b)) = 7%nat
  /\ (0 <= byte r <= 255 /\ 0 <= byte g <= 255 /\ 0 <= byte b <= 255)%Z
  /\ (r < 1 -> (byte r <= 254)%Z).
Proof.
  intros Hr Hg Hb byte.
  destruct (channel_byte r Hr) as (Br & Br1 & _).
  destruct (channel_byte g Hg) as (Bg & _).
  destruct (channel_byte b Hb) as (Bb & _).
  assert (Hcode : rgb_to_hex (r, g, b)
                  = String "#"
                      (String (hex_digit (byte r / 16)) (String (hex_digit (byte r mod 16))
                      (String (hex_digit (byte g / 16)) (String (hex_digit (byte g mod 16))
                      (String (hex_digit (byte b / 16)) (String (hex_digit (byte b mod 16))
                       EmptyString))))))).
  { unfold rgb_to_hex. fold (byte r). fold (byte g). fold (byte b).
    rewrite (format_02x_byte (byte r) Br), (format_02x_byte (byte g) Bg),
      (format_02x_byte (byte b) Bb). reflexivity. }
  split; [exact Hcode |]. split; [rewrite Hcode; reflexivity |].
  split; [exact (conj Br (conj Bg Bb)) | exact Br1].
Qed.

Lemma rgb_to_hex_format_witness :
  String.length (rgb_to_hex (1, 1#2, 0)) = 7%nat.
Proof.
  exact (proj1 (proj2 (rgb_to_hex_format 1 (1#2) 0
                         ltac:(unfold in_unit; lra) ltac:(unfold in_unit; lra)
                         ltac:(unfold in_unit; lra)))).
Defined.

End PaletteRangeFacts.

(** ** The orbit planner at its edges *)

Module OrbitEdgeFacts.

Import Orbit OrbitFacts.

(** X18.  Fewer than six frames, the frame rate fitting a C int: the
    segment length is 0, so the six segment keyframes all go to frame 0,
    before the first frame of the scene, each replacing the one before;
    the curve is left with the last of them, the start point unless the
    end point replaced it, and the end point. *)
Theorem short_animation (total_frames fps : Z) (scene : scene_state) :
  1 <= total_frames <= 5 ->
  INT_MIN <= fps <= INT_MAX ->
  camera_ready scene ->
  let r := animate_camera_orbit total_frames fps scene in
  fst r = None
  /\ map fst (emitted r) = [1; 0; 0; 0; 0; 0; 0; total_frames]
  /\ frame_start (snd r) = 1
  /\ curve r =
       if total_frames =? 1
       then [mkPoint 0 (180, 180, 180) LINEAR; mkPoint 1 (360, 360, 360) LINEAR]
       else [mkPoint 0 (180, 180, 180) LINEAR; mkPoint 1 (0, 0, 0) LINEAR;
             mkPoint total_frames (360, 360, 360) LINEAR].
Proof.
  intros Hshort Hfps Hready r.
  assert (Htf : 1 <= total_frames <= MAXFRAME) by (unfold MAXFRAME; lia).
  assert (Hseg : total_frames / 6 = 0) by (apply Z.div_small; lia).
  assert (Hem : emitted r = planned total_frames)
    by (unfold r; rewrite (emitted_planned _ _ _ fresh_empty Htf Hfps Hready);
        reflexivity).
  split; [| split; [| split]].
  - unfold r. destruct (animate_with_empty total_frames fps scene _ Htf Hfps Hready)
      as (e' & ->). reflexivity.
  - rewrite Hem. unfold planned. rewrite Hseg. reflexivity.
  - unfold r. destruct (animate_with_empty total_frames fps scene _ Htf Hfps Hready)
      as (e' & ->). reflexivity.
  - unfold r. enter_orbit Htf Hfps. unfold curve. cbn [orbit_empty snd].
    unfold camera_ready in Hready. rewrite Hready. rewrite Hseg.
    cbn -[Z.eqb Z.ltb insert_point clamp].
    destruct (Z.eqb_spec total_frames 1) as [-> | Hne].
    + reflexivity.
    + place_points. reflexivity.
Qed.

Lemma short_animation_witness :
  map fst (emitted (animate_camera_orbit 4 10 ready_scene)) = [1; 0; 0; 0; 0; 0; 0; 4].
Proof.
  exact (proj1 (proj2 (short_animation 4 10 ready_scene ltac:(lia)
                         ltac:(unfold INT_MIN, INT_MAX; lia) eq_refl))).
Defined.

(** X19.  Inside Blender's ranges (at least one frame, at most its last
    frame; a frame rate from 1 to its largest), without the camera's
    empty the planner raises ValueError and inserts nothing, but it has
    already overwritten the scene's frame range and frame rate. *)
Theorem missing_camera (total_frames fps : Z) (scene : scene_state) :
  1 <= total_frames <= MAXFRAME ->
  1 <= fps <= FPS_MAX ->
  orbit_empty scene = None ->
  exists msg,
    animate_camera_orbit total_frames fps scene
    = (Some (ValueError msg), mkScene 1 total_frames fps None)
    /\ emitted (animate_camera_orbit total_frames fps scene) = [].
Proof.
  intros Htf Hfps He.
  destruct (animate_without_empty total_frames fps scene Htf
              ltac:(unfold INT_MIN, INT_MAX, FPS_MAX in *; lia) He) as (msg & H).
  rewrite clamp_inside in H by exact Hfps.
  exists msg. split; [exact H |]. rewrite H. reflexivity.
Qed.

Lemma missing_camera_witness :
  exists msg,
    animate_camera_orbit 50 10 (mkScene 1 250 24 None)
    = (Some (ValueError msg), mkScene 1 50 10 None).
Proof.
  destruct (missing_camera 50 10 (mkScene 1 250 24 None)
              ltac:(unfold MAXFRAME; lia) ltac:(unfold FPS_MAX; lia) eq_refl)
    as (msg & H & _).
  exists msg. exact H.
Defined.

(** X20.  From six frames up to Blender's last frame, the frame rate
    fitting a C int: the keyframes are emitted in frame order, all inside
    the scene's frame range; the six segments cover 180 degrees on every
    axis, 60 at a time, and the forced last keyframe turns every axis by
    the other 180 within at most 5 frames. *)
Theorem segments_then_jump (total_frames fps : Z) (scene : scene_state) :
  6 <= total_frames <= MAXFRAME ->
  INT_MIN <= fps <= INT_MAX ->
  camera_ready scene ->
  let r := animate_camera_orbit total_frames fps scene in
  Sorted Z.le (map fst (emitted r))
  /\ Forall (fun k => frame_start (snd r) <= fst k <= frame_end (snd r)) (emitted r)
  /\ nth 6 (emitted r) (0, (0, 0, 0)) = (6 * (total_frames / 6), (180, 180, 180))
  /\ nth 7 (emitted r) (0, (0, 0, 0)) = (total_frames, (360, 360, 360))
  /\ 0 <= total_frames - 6 * (total_frames / 6) <= 5.
Proof.
  intros Hge Hfps Hready r.
  assert (Htf : 1 <= total_frames <= MAXFRAME) by lia.
  assert (Hem : emitted r = planned total_frames)
    by (unfold r; rewrite (emitted_planned _ _ _ fresh_empty Htf Hfps Hready);
        reflexivity).
  assert (Hscene : frame_start (snd r) = 1 /\ frame_end (snd r) = total_frames).
  { unfold r. destruct (animate_with_empty total_frames fps scene _ Htf Hfps Hready)
      as (e' & ->). split; reflexivity. }
  destruct Hscene as (-> & ->). rewrite Hem. unfold planned.
  pose proof (Z.div_mod total_frames 6 ltac:(lia)) as Hdm.
  pose proof (Z.mod_pos_bound total_frames 6 ltac:(lia)) as Hmod.
  set (f := total_frames / 6) in *.
  assert (Hf : 1 <= f) by lia.
  split; [| split; [| split; [| split]]].
  - cbn [map fst]. repeat constructor; lia.
  - repeat constructor; cbn [fst]; lia.
  - reflexivity.
  - reflexivity.
  - lia.
Qed.

Lemma segments_then_jump_witness :
  nth 6 (emitted (animate_camera_orbit 50 10 ready_scene)) (0, (0, 0, 0))
  = (6 * (50 / 6), (180, 180, 180)).
Proof.
  exact (proj1 (proj2 (proj2 (segments_then_jump 50 10 ready_scene
                                ltac:(unfold MAXFRAME; lia)
                                ltac:(unfold INT_MIN, INT_MAX; lia) eq_refl)))).
Defined.

End OrbitEdgeFacts.

(** ** One file through the pipeline *)

Module LifecycleFacts.

Import Mon Pipeline Cli Samples.


Lemma read_remove_other (fs : Fs.t) (p q : Fs.Path) :
  q <> p -> Fs.read (Fs.remove fs p) q = Fs.read fs q.
Proof.
  intros Hne. induction fs as [| [r c] fs IH]; cbn; [reflexivity |].
  destruct (String.eqb_spec r p) as [-> | Hrp]; cbn.
  - destruct (String.eqb_spec p q); [congruence | exact IH].
  - destruct (String.eqb r q); [reflexivity | exact IH].
Qed.


Lemma append_assoc (a b c : string) :
  ((a ++ b) ++ c)%string = (a ++ (b ++ c))%string.
Proof. induction a as [| x a IH]; cbn; [reflexivity | rewrite IH; reflexivity]. Qed.

(** The temporary script is neither of the two videos. *)
Lemma temp_script_distinct (BASE_DIR : Fs.Path) (file : string) :
  Fs.join BASE_DIR "temp_render_script.py" <> Fs.join (OUTPUT_DIR BASE_DIR) file.
Proof.
  unfold OUTPUT_DIR, DATA_DIR, Fs.join. rewrite !append_assoc. intros H.
  apply FsFacts.append_cancel in H. discriminate.
Qed.



Section Collaborators.

Variable blender : render_request -> proc_outcome.
Variable ffmpeg_frames : Fs.t -> Fs.Path -> Z -> Z -> Z -> Exn.exn + Fs.content.
Variable ffmpeg_mux : Fs.t -> Fs.Path -> Fs.Path -> Exn.exn + Fs.content.
Variable glob : Fs.t -> Fs.Path -> string -> list Fs.Path.
Variable script_text : render_request -> Fs.content.
Variable BASE_DIR : Fs.Path.

(** X26.  A file that cannot be read, say a pending file deleted from disk:
    the result is [None], the failure is logged, and nothing else
    happened: no job row was created, no row changed, Blender was not
    run. *)
Theorem unreadable_file_leaves_no_job (stl_path : Fs.Path) (w : world) :
  Fs.stat_size (fs w) stl_path = None ->
  exists w',
    render_single_file blender ffmpeg_frames ffmpeg_mux glob script_text BASE_DIR
                       stl_path w = (inr None, w')
    /\ db w' = db w
    /\ fs w' = fs w
    /\ requests w' = requests w
    /\ log w' = (log w ++ [LogProcessing (Fs.name stl_path);
                           LogError (Fs.name stl_path) stl_path])%list.
Proof.
  intros Hstat.
  unfold render_single_file, try_block, bind, zoom, logger, modify, next_draws,
    db_add_stl_file, Store.add_stl_file.
  cbn -[render_stages Palette.get_color_palette].
  rewrite Hstat. cbn. eexists. split; [reflexivity |].
  cbn. rewrite <- app_assoc. repeat split.
Qed.




(** Whatever the audio stage does, it leaves the store alone, and when
    it returns it has written the final video and nothing else. *)
Lemma add_random_audio_frame (video_path output_path audio_dir : Fs.Path)
    (pick : nat) (w w' : world) (r : Exn.exn + Fs.Path) :
  add_random_audio ffmpeg_mux glob video_path output_path audio_dir pick w = (r, w') ->
  db w' = db w /\ clock w' = clock w
  /\ forall p, r = inr p -> exists c, fs w' = Fs.write (fs w) output_path c.
Proof.
  unfold add_random_audio, bind, get.
  cbn -[Palette.choice].
  destruct ((glob (fs w) audio_dir ".mp3" ++
             glob (fs w) audio_dir ".wav") ++
            glob (fs w) audio_dir ".m4a")%list as [| a rest].
  - unfold logger, modify, shutil_copy, ret, with_fs. cbn.
    destruct (Fs.read (fs w) video_path) as [c |].
    + destruct (String.eqb video_path output_path).
      * intros [= <- <-]. cbn. repeat split. discriminate.
      * intros [= <- <-]. cbn. repeat split. intros _ _. exists c. reflexivity.
    + intros [= <- <-]. cbn. repeat split. discriminate.
  - destruct (ffmpeg_mux (fs w) video_path (Palette.choice (a :: rest) pick a))
      as [e | c].
    + intros [= <- <-]. repeat split. discriminate.
    + intros [= <- <-]. cbn. repeat split. intros _ _. exists c. reflexivity.
Qed.

(** The stages after the job's creation can end in an error only before
    the job is completed: the files of the store are then as they
    were. *)
Lemma render_stages_failure_files (stl_path : Fs.Path) (start_time : Z)
    (palette : Palette.palette) (r : rand_draws) (job : Z)
    (w w1 : world) (l l1 : locals) (e : Exn.exn) :
  render_stages blender ffmpeg_frames ffmpeg_mux glob script_text BASE_DIR
                stl_path start_time palette r job (w, l) = (inl e, (w1, l1)) ->
  Store.stl_files (db w1) = Store.stl_files (db w).
Proof.
  set (temp_script := Fs.join BASE_DIR "temp_render_script.py").
  set (temp_video := Fs.join (OUTPUT_DIR BASE_DIR) (Fs.stem stl_path ++ "_temp.mp4")).
  set (output_video := Fs.join (OUTPUT_DIR BASE_DIR) (Fs.stem stl_path ++ ".mp4")).
  assert (Hsv : temp_script <> temp_video) by apply temp_script_distinct.
  assert (Hso : temp_script <> output_video) by apply temp_script_distinct.
  unfold render_stages, bind, zoom, modify, subprocess_run,
    create_video_from_frames.
  cbn -[_generate_blender_script Fs.write add_random_audio
        Store.update_render_job].
  fold temp_script. fold temp_video. fold output_video.
  destruct (blender _) as [returncode stderr dt | e0 dt].
  2: { intros [= _ <- _]. reflexivity. }
  cbn -[_generate_blender_script Fs.write add_random_audio
        Store.update_render_job].
  destruct (returncode =? 0).
  2: { cbn. intros [= _ <- _]. reflexivity. }
  cbn -[_generate_blender_script Fs.write add_random_audio
        Store.update_render_job].
  destruct (ffmpeg_frames _ _ _ _ _) as [e0 | video].
  { intros [= _ <- _]. reflexivity. }
  cbn -[_generate_blender_script Fs.write add_random_audio
        Store.update_render_job].
  match goal with
  | |- context [add_random_audio _ _ _ _ _ _ ?w2] =>
      destruct (add_random_audio ffmpeg_mux glob temp_video output_video
                  (AUDIO_DIR BASE_DIR) (audio_index r) w2)
        as [[e0 | p] w3] eqn:Haudio;
      destruct (add_random_audio_frame _ _ _ _ _ _ _ Haudio)
        as (Hdb & _ & Hfs)
  end.
  { intros [= _ <- _]. rewrite Hdb. reflexivity. }
  destruct (Hfs p eq_refl) as (c & Hfs3). clear Hfs.
  cbn [fs with_fs] in Hfs3.
  assert (Hs3 : Fs.read (fs w3) temp_script <> None).
  { rewrite Hfs3.
    rewrite FsFacts.read_write_other by exact Hso.
    rewrite FsFacts.read_write_other by exact Hsv.
    rewrite FsFacts.read_write_same. discriminate. }
  assert (Hs4 : Fs.exists_ (Fs.remove (fs w3) temp_video) temp_script = true).
  { unfold Fs.exists_. rewrite read_remove_other by exact Hsv.
    destruct (Fs.read (fs w3) temp_script); [reflexivity | congruence]. }
  assert (Hs5 : Fs.exists_ (fs w3) temp_script = true).
  { unfold Fs.exists_.
    destruct (Fs.read (fs w3) temp_script); [reflexivity | congruence]. }
  cbn [fst snd].
  unfold unlink, db_update_render_job, Store.update_render_job, with_fs,
    with_db, ret.
  destruct (Fs.exists_ (fs w3) temp_video) eqn:Ev.
  - cbn [fst snd]. rewrite Ev.
    cbn [fst snd fs db clock rand rand_pos log requests].
    rewrite Hs4. discriminate.
  - cbn [fst snd fs db clock rand rand_pos log requests].
    rewrite Hs5. discriminate.
Qed.

Lemma try_block_failure_files (stl_path : Fs.Path) (w w1 : world) (l : locals)
    (e : Exn.exn) (f : Store.stl_file) :
  Store.file_by_name (db w) (Fs.name stl_path) = Some f ->
  try_block blender ffmpeg_frames ffmpeg_mux glob script_text BASE_DIR
            stl_path (clock w) (w, mkLocals None) = (inl e, (w1, l)) ->
  Store.stl_files (db w1) = Store.stl_files (db w).
Proof.
  intros Hf.
  unfold try_block, bind, zoom, logger, modify, next_draws, db_add_stl_file,
    db_create_render_job, bind_job_id.
  cbn -[render_stages Store.add_stl_file Store.create_render_job
        Palette.get_color_palette].
  destruct (Fs.stat_size (fs w) stl_path) as [sz |] eqn:Hsz.
  - rewrite (StoreFacts.add_stl_file_known (db w) (fs w) (clock w) stl_path sz f
               Hsz Hf).
    unfold Store.create_render_job.
    cbn -[render_stages Palette.get_color_palette].
    intros Hrun. apply render_stages_failure_files in Hrun. exact Hrun.
  - unfold Store.add_stl_file. rewrite Hsz. cbn. intros [= _ <- _]. reflexivity.
Qed.

(** X28.  A failed render of a registered file changes no file row: the file
    keeps its status, so a pending file whose render failed is returned
    again by the next [get_pending_files], as often as it fails. *)
Theorem failed_render_stays_pending (stl_path : Fs.Path) (w w' : world)
    (f : Store.stl_file) (limit : option Z) :
  Store.file_by_name (db w) (Fs.name stl_path) = Some f ->
  render_single_file blender ffmpeg_frames ffmpeg_mux glob script_text BASE_DIR
                     stl_path w = (inr None, w') ->
  Store.stl_files (db w') = Store.stl_files (db w)
  /\ Store.get_pending_files limit (db w') = Store.get_pending_files limit (db w).
Proof.
  intros Hf Hrun.
  assert (Hfiles : Store.stl_files (db w') = Store.stl_files (db w)).
  { destruct (PipelineFacts.render_single_file_outcome blender ffmpeg_frames
                ffmpeg_mux glob script_text BASE_DIR stl_path w)
      as (result & w2 & Hrun2 & _ & _ & Hok & Hfail).
    rewrite Hrun in Hrun2. injection Hrun2 as <- <-.
    destruct (try_block blender ffmpeg_frames ffmpeg_mux glob script_text BASE_DIR
                        stl_path (clock w) (w, mkLocals None))
      as [[e | out] [w1 l]] eqn:Etry.
    - destruct (Hfail e w1 l eq_refl) as (_ & _ & Hsame & _).
      rewrite Hsame. exact (try_block_failure_files stl_path w w1 l e f Hf Etry).
    - destruct (Hok out w1 l eq_refl) as (Hres & _). discriminate Hres. }
  split; [exact Hfiles |].
  unfold Store.get_pending_files. rewrite Hfiles. reflexivity.
Qed.

End Collaborators.



Lemma failed_render_stays_pending_witness :
  exists w',
    render_single_file sample_blender sample_ffmpeg_frames sample_ffmpeg_mux Fs.glob_ext
                       sample_script base cube sample_world = (inr None, w')
    /\ Store.get_pending_files None (db w')
       = Store.get_pending_files None (db sample_world).
Proof.
  eexists.
  refine ((fun Hrun =>
             conj Hrun
                  (proj2 (failed_render_stays_pending sample_blender
                            sample_ffmpeg_frames sample_ffmpeg_mux Fs.glob_ext sample_script
                            base cube sample_world _
                            (Store.mkFile 2 "cube.stl" "data/stl_files/cube.stl" 90
                                          (Some 84) "pending")
                            None eq_refl Hrun))) _).
  vm_compute. reflexivity.
Defined.

Lemma unreadable_file_leaves_no_job_witness :
  exists w',
    render_single_file sample_blender sample_ffmpeg_frames sample_ffmpeg_mux Fs.glob_ext
                       sample_script base vase sample_world = (inr None, w')
    /\ db w' = db sample_world
    /\ requests w' = requests sample_world.
Proof.
  destruct (unreadable_file_leaves_no_job sample_blender sample_ffmpeg_frames
              sample_ffmpeg_mux Fs.glob_ext sample_script base vase sample_world eq_refl)
    as (w' & Hrun & Hdb & _ & Hreq & _).
  exists w'. exact (conj Hrun (conj Hdb Hreq)).
Defined.

End LifecycleFacts.

